(** * phoenix2ax: the export and import pipeline controllers

    A shallow embedding of [export_all_projects.py] and [import_to_arize.py].
    Both scripts are staged controllers around externally provided exporters
    and importers.  The embedding keeps the control flow of the two [main]
    functions and of the import wrappers, and makes the outside world
    explicit:

    - the values handed back by the exporters and importers are Python
      values ([pyval]): None, booleans, integers, strings, lists and
      insertion-ordered dicts with string keys (what [json] can carry,
      floats left out);
    - what an exporter or importer does is read from the environment
      [env], one outcome per function, as each of them is called at most
      once in a run: it returns a value or raises an exception derived
      from [Exception];
    - observable effects (log records, prints, prompts, calls into the
      exporters and importers, files written) are appended to a trace;
    - an environment [env] is a cooperative one: every function called
      returns or raises an exception derived from [Exception], and the
      operator answers every [input()] prompt.  A [setting] adds to it what
      no handler of the scripts catches: a called function that leaves
      through [SystemExit], standard input at its end when a prompt is
      shown ([EOFError] out of [input()], which no [try] encloses), and an
      exception out of [create_client_with_retry] or [os.makedirs].  The
      scripts run in a setting; a theorem stated for an [env] is about the
      runs in the cooperative setting of that environment;
    - writing a results file under [./results] is taken to succeed. *)

From Stdlib Require Import Ascii String.
From stdpp Require Import base numbers strings list pretty.

Set Warnings "-register-all,-clear-no-such-hyp".
Set Default Proof Using "Type".

Open Scope string_scope.
Open Scope Z_scope.
Open Scope list_scope.

(** ** Python values *)

Inductive pyval :=
| PNone
| PBool (b : bool)
| PInt (z : Z)
| PStr (s : string)
| PList (l : list pyval)
| PDict (d : list (string * pyval)).

(** [type(v).__name__] *)
Definition type_name (v : pyval) : string :=
  match v with
  | PNone => "NoneType"
  | PBool _ => "bool"
  | PInt _ => "int"
  | PStr _ => "str"
  | PList _ => "list"
  | PDict _ => "dict"
  end.

Definition nonempty {A} (l : list A) : bool :=
  match l with [] => false | _ => true end.

(** [bool(v)] *)
Definition truthy (v : pyval) : bool :=
  match v with
  | PNone => false
  | PBool b => b
  | PInt z => negb (z =? 0)
  | PStr s => negb (String.eqb s "")
  | PList l => nonempty l
  | PDict d => nonempty d
  end.

(** [v == s] for a string literal [s] *)
Definition py_eq_str (v : pyval) (s : string) : bool :=
  match v with
  | PStr t => String.eqb t s
  | _ => false
  end.

(** [v in [s1, s2, ...]] for a list of string literals *)
Definition py_in_strs (v : pyval) (ss : list string) : bool :=
  existsb (py_eq_str v) ss.

(** First binding of a key, as [dict] lookup. *)
Fixpoint dict_lookup (k : string) (d : list (string * pyval)) : option pyval :=
  match d with
  | [] => None
  | (k', v) :: d' => if String.eqb k' k then Some v else dict_lookup k d'
  end.

Definition is_dict (v : pyval) : bool :=
  match v with PDict _ => true | _ => false end.

Definition is_list (v : pyval) : bool :=
  match v with PList _ => true | _ => false end.

(** ** Exceptions *)

(** An exception is kept as the text [str(e)] that the handlers log. *)
Definition exn := string.

(** The value of a Python expression, or the exception (derived from
    [Exception]) that evaluating it raises. *)
Inductive pyres (A : Type) :=
| Val (a : A)
| Exc (e : exn).
Arguments Val {A} a.
Arguments Exc {A} e.

Definition pyres_bind {A B} (r : pyres A) (k : A → pyres B) : pyres B :=
  match r with
  | Val a => k a
  | Exc e => Exc e
  end.

Definition attribute_error (v : pyval) (attr : string) : exn :=
  "'" +:+ type_name v +:+ "' object has no attribute '" +:+ attr +:+ "'".

(** [v.get(k, default)] *)
Definition py_get (v : pyval) (k : string) (default : pyval) : pyres pyval :=
  match v with
  | PDict d => Val (from_option id default (dict_lookup k d))
  | _ => Exc (attribute_error v "get")
  end.

(** [v.values()] *)
Definition py_values (v : pyval) : pyres (list pyval) :=
  match v with
  | PDict d => Val (d.*2)
  | _ => Exc (attribute_error v "values")
  end.

(** [v.items()] *)
Definition py_items (v : pyval) : pyres (list (string * pyval)) :=
  match v with
  | PDict d => Val d
  | _ => Exc (attribute_error v "items")
  end.

Fixpoint chars (s : string) : list pyval :=
  match s with
  | EmptyString => []
  | String c s' => PStr (String c EmptyString) :: chars s'
  end.

(** [iter(v)]: the items a [for] loop or a generator draws from [v] *)
Definition py_iter (v : pyval) : pyres (list pyval) :=
  match v with
  | PList l => Val l
  | PDict d => Val (PStr <$> d.*1)
  | PStr s => Val (chars s)
  | _ => Exc ("'" +:+ type_name v +:+ "' object is not iterable")
  end.

(** [acc + v] with an integer accumulator, as [sum] does *)
Definition py_add (acc : Z) (v : pyval) : pyres Z :=
  match v with
  | PInt z => Val (acc + z)
  | PBool b => Val (acc + (if b then 1 else 0))
  | _ => Exc ("unsupported operand type(s) for +: 'int' and '"
                 +:+ type_name v +:+ "'")
  end.

(** [sum(g(x) for x in xs if ...)]: the generator is drawn from lazily, so
    an exception of the generator at one item and a [TypeError] of the
    addition at another surface in the order of the items.  [g x] is
    [Val None] for an item the generator's condition filters out. *)
Fixpoint py_sum_from (acc : Z) (g : pyval → pyres (option pyval))
    (xs : list pyval) : pyres Z :=
  match xs with
  | [] => Val acc
  | x :: xs' =>
      pyres_bind (g x) (λ y,
        match y with
        | None => py_sum_from acc g xs'
        | Some v => pyres_bind (py_add acc v) (λ acc', py_sum_from acc' g xs')
        end)
  end.

Definition py_sum := py_sum_from 0.

(** [d.get("status") == s], the item of the status-counting generators *)
Definition status_is (s : string) (d : pyval) : pyres (option pyval) :=
  pyres_bind (py_get d "status" PNone) (λ st, Val (Some (PBool (py_eq_str st s)))).

(** [1 ... if d.get("status") == s] *)
Definition one_if_status (s : string) (d : pyval) : pyres (option pyval) :=
  pyres_bind (py_get d "status" PNone) (λ st,
    Val (if py_eq_str st s then Some (PInt 1) else None)).

(** [p.get(k, 0)] *)
Definition count_field (k : string) (p : pyval) : pyres (option pyval) :=
  pyres_bind (py_get p k (PInt 0)) (λ v, Val (Some v)).

(** [1 ... if p.get("success")] *)
Definition one_if_success (p : pyval) : pyres (option pyval) :=
  pyres_bind (py_get p "success" PNone) (λ v,
    Val (if truthy v then Some (PInt 1) else None)).

(** ** Strings *)

Definition nl : string := String (ascii_of_nat 10) EmptyString.

Definition lower_ascii (c : ascii) : ascii :=
  let n := nat_of_ascii c in
  if ((65 <=? n) && (n <=? 90))%nat then ascii_of_nat (n + 32) else c.

(** [s.lower()], on the ASCII letters *)
Fixpoint lower (s : string) : string :=
  match s with
  | EmptyString => EmptyString
  | String c s' => String (lower_ascii c) (lower s')
  end.

(** [s.rstrip("/")] *)
Fixpoint rstrip_slash (s : string) : string :=
  match s with
  | EmptyString => EmptyString
  | String c s' =>
      match rstrip_slash s' with
      | EmptyString => if Ascii.eqb c "/" then EmptyString else String c EmptyString
      | r => String c r
      end
  end.

Definition ends_with_slash (s : string) : bool :=
  match String.rev s with
  | String c _ => Ascii.eqb c "/"
  | EmptyString => false
  end.

(** [os.path.join(a, b)] for a relative [b] *)
Definition path_join (a b : string) : string :=
  if String.eqb a "" || ends_with_slash a then a +:+ b else a +:+ "/" +:+ b.

(** [sep.join(ss)] *)
Fixpoint join (sep : string) (ss : list string) : string :=
  match ss with
  | [] => ""
  | [s] => s
  | s :: ss' => s +:+ sep +:+ join sep ss'
  end.

(** [s.capitalize()] for a lower-case ASCII word *)
Definition capitalize (s : string) : string :=
  match s with
  | EmptyString => EmptyString
  | String c s' =>
      let n := nat_of_ascii c in
      String (if ((97 <=? n) && (n <=? 122))%nat then ascii_of_nat (n - 32) else c) s'
  end.

(** [RESULTS_DIR = Path("./results")] *)
Definition RESULTS_DIR : string := "results".

(** ** The outside world *)

(** The functions of the [exporters] and [importers] packages that the two
    scripts call.  They are the only operations that talk to the network. *)
Inductive extfun :=
| export_datasets
| export_prompts
| export_traces
| export_annotations
| export_evaluations
| import_datasets
| import_prompts
| import_traces
| import_evaluations
| import_annotations
| setup_annotations_main.

Global Instance extfun_eq_dec : EqDecision extfun.
Proof. solve_decision. Defined.

Inductive outcome :=
| Returns (v : pyval)
| Raises (e : exn).

(** The trace results file as [import_traces_wrapper] finds it after
    [import_traces] has raised. *)
Inductive results_file :=
| Absent                     (* [results_path.exists()] is false *)
| Unreadable (e : exn)       (* [open] or [json.load] raises *)
| Loadable (v : pyval).      (* [json.load] gives [v] *)

Inductive prompt :=
| TracesVisible              (* "Are all traces fully visible ...?" *)
| AnnotationsConfigured.     (* "Have you added all annotation configurations ...?" *)

Global Instance prompt_eq_dec : EqDecision prompt.
Proof. solve_decision. Defined.

(** A cooperative environment: every function called returns or raises an
    exception that the handlers catch, and the operator answers each
    prompt. *)
Record env := {
  behaviour : extfun → outcome;
  answer : prompt → string;
  trace_results_file : results_file;
  path_exists : string → bool;       (* [Path.exists] when the summary is printed *)
  abspath : string → string;         (* [os.path.abspath] *)
}.

(** An environment together with what the handlers of the scripts do not
    catch.  Every handler is [except Exception], so a [SystemExit] raised by
    a called function passes it (as a [KeyboardInterrupt] would, which is
    not told apart here); [input()], [create_client_with_retry] and
    [os.makedirs] are called outside any [try]. *)
Record setting := {
  env_of : env;
  exits : list (extfun * Z);      (* the functions that raise [SystemExit(code)] *)
  eof_at : list prompt;           (* the prompts that find standard input at its end *)
  client_error : option exn;      (* [create_client_with_retry] raises *)
  makedirs_error : option exn;    (* [os.makedirs] raises *)
}.

(** The setting in which nothing of this happens. *)
Definition cooperative (e : env) : setting :=
  {| env_of := e; exits := []; eof_at := [];
     client_error := None; makedirs_error := None |}.
Coercion cooperative : env >-> setting.

(** Nothing of this happens in [s]. *)
Definition well_behaved (s : setting) : Prop :=
  exits s = [] ∧ eof_at s = [] ∧ client_error s = None ∧ makedirs_error s = None.

(** The exit status with which [f] leaves, if it does. *)
Fixpoint exit_of (l : list (extfun * Z)) (f : extfun) : option Z :=
  match l with
  | [] => None
  | (g, code) :: l' => if decide (g = f) then Some code else exit_of l' f
  end.

(** Standard input is at its end when [p] is shown. *)
Fixpoint at_eof (l : list prompt) (p : prompt) : bool :=
  match l with
  | [] => false
  | q :: l' => if decide (q = p) then true else at_eof l' p
  end.

Inductive level := DEBUG | INFO | WARNING | ERROR.

Inductive event :=
| Log (lvl : level) (msg : string)
| Print (msg : string)
| Input (p : prompt)
| Call (f : extfun)
| WriteJson (path : string) (v : pyval)
| SetLevel (lvl : level)
| CreateClient (base_url : string) (headers : list (string * string))
| MakeDirs (path : string).

(** The mutable state of a run: the trace of effects so far, [sys.argv], and
    the two lists in which [main] keeps track of the stages. *)
Record world := {
  trace : list event;
  sys_argv : list string;
  successful : list string;
  failed : list string;
}.

Definition initial_world (argv : list string) : world :=
  {| trace := []; sys_argv := argv; successful := []; failed := [] |}.

(** ** The monad of the scripts: environment, state and exceptions *)

(** How a statement ends: normally, with an exception derived from
    [Exception], or with the [SystemExit] that [sys.exit] raises. *)
Inductive result (A : Type) :=
| Ok (a : A)
| Raised (e : exn)
| SysExit (code : Z).
Arguments Ok {A} a.
Arguments Raised {A} e.
Arguments SysExit {A} code.

Definition M (A : Type) : Type := setting → world → result A * world.

Global Instance M_ret : MRet M := λ A a _ w, (Ok a, w).
Global Instance M_bind : MBind M := λ A B k m e w,
  match m e w with
  | (Ok a, w') => k a e w'
  | (Raised x, w') => (Raised x, w')
  | (SysExit c, w') => (SysExit c, w')
  end.

Definition lift {A} (r : pyres A) : M A := λ _ w,
  (match r with Val a => Ok a | Exc x => Raised x end, w).

Definition emit (ev : event) : M unit := λ _ w,
  (Ok (),
   {| trace := trace w ++ [ev]; sys_argv := sys_argv w;
      successful := successful w; failed := failed w |}).

(** [try: m  except Exception as x: h x]; [SystemExit] passes through. *)
Definition try_except {A} (m : M A) (h : exn → M A) : M A := λ e w,
  match m e w with
  | (Raised x, w') => h x e w'
  | rw => rw
  end.

(** [try: m  finally: f] *)
Definition try_finally {A} (m : M A) (f : M unit) : M A := λ e w,
  match m e w with
  | (r, w') =>
      match f e w' with
      | (Ok _, w'') => (r, w'')
      | (Raised x, w'') => (Raised x, w'')
      | (SysExit c, w'') => (SysExit c, w'')
      end
  end.

Definition logger (lvl : level) (msg : string) : M unit := emit (Log lvl msg).
Definition print (msg : string) : M unit := emit (Print msg).

(** A call into an exporter or importer. *)
Definition call (f : extfun) : M pyval := λ s w,
  match emit (Call f) s w with
  | (_, w') =>
      match exit_of (exits s) f with
      | Some code => (SysExit code, w')
      | None =>
          match behaviour (env_of s) f with
          | Returns v => (Ok v, w')
          | Raises x => (Raised x, w')
          end
      end
  end.

(** [input(...)]: the prompt is shown; at the end of standard input the
    call raises [EOFError].  [input(...).lower()] is written [lower] of
    this. *)
Definition input (p : prompt) : M string := λ s w,
  match emit (Input p) s w with
  | (_, w') =>
      if at_eof (eof_at s) p then (Raised "EOF when reading a line", w')
      else (Ok (answer (env_of s) p), w')
  end.

(** [create_client_with_retry(base_url=..., headers=..., ...)] *)
Definition create_client_with_retry (base_url : string)
    (headers : list (string * string)) : M unit := λ s w,
  match client_error s with
  | Some x => (Raised x, w)
  | None => emit (CreateClient base_url headers) s w
  end.

(** [os.makedirs(path, exist_ok=True)] *)
Definition makedirs (path : string) : M unit := λ s w,
  match makedirs_error s with
  | Some x => (Raised x, w)
  | None => emit (MakeDirs path) s w
  end.

(** [with open(path, "w") as f: json.dump(v, f, indent=2)] *)
Definition json_dump (path : string) (v : pyval) : M unit := emit (WriteJson path v).

Definition get_argv : M (list string) := λ _ w, (Ok (sys_argv w), w).

Definition set_argv (argv : list string) : M unit := λ _ w,
  (Ok (),
   {| trace := trace w; sys_argv := argv;
      successful := successful w; failed := failed w |}).

Definition successful_append (name : string) : M unit := λ _ w,
  (Ok (),
   {| trace := trace w; sys_argv := sys_argv w;
      successful := successful w ++ [name]; failed := failed w |}).

Definition failed_append (name : string) : M unit := λ _ w,
  (Ok (),
   {| trace := trace w; sys_argv := sys_argv w;
      successful := successful w; failed := failed w ++ [name] |}).

Definition get_successful : M (list string) := λ _ w, (Ok (successful w), w).
Definition get_failed : M (list string) := λ _ w, (Ok (failed w), w).

Definition sys_exit (code : Z) : M unit := λ _ w, (SysExit code, w).

Definition when (b : bool) (m : M unit) : M unit := if b then m else mret ().

(** [not s] for an optional string argument: [None] and [""] are falsy. *)
Definition missing (s : option string) : bool :=
  match s with
  | None => true
  | Some t => String.eqb t ""
  end.

(** The exit status of the process that ran [main()] as a script. *)
Definition exit_code (r : result unit) : Z :=
  match r with
  | Ok _ => 0
  | Raised _ => 1
  | SysExit c => c
  end.

(** The calls into exporters and importers found in a trace, in order. *)
Definition calls (t : list event) : list extfun :=
  omap (λ ev, match ev with Call f => Some f | _ => None end) t.

Definition prompts_asked (t : list event) : list prompt :=
  omap (λ ev, match ev with Input p => Some p | _ => None end) t.

(** [for x in xs: body x] *)
Fixpoint for_each {A} (xs : list A) (body : A → M unit) : M unit :=
  match xs with
  | [] => mret ()
  | x :: xs' => body x;; for_each xs' body
  end.

Definition exists_path (path : string) : M bool := λ s w,
  (Ok (path_exists (env_of s) path), w).
Definition os_path_abspath (path : string) : M string := λ s w,
  (Ok (abspath (env_of s) path), w).

(** * export_all_projects.py *)

Module export_all_projects.

(** The namespace built by [parse_export_args], with the fields [main] reads.
    The retry parameters ([timeout], [max_attempts], [initial_backoff],
    [max_backoff], [backoff_factor]) are handed unchanged to
    [create_client_with_retry] and play no part in the control flow; they
    are not kept. *)
Record args := {
  base_url : option string;
  api_key : option string;
  verbose : bool;
  export_dir : string;
  project : option (list string);
  all : bool;
  datasets : bool;
  prompts : bool;
  projects : bool;
  traces : bool;
  annotations : bool;
  evaluations : bool;
}.

(** Step 1 (lines 114-136) *)
Definition datasets_stage (a : args) : M unit :=
  when (all a || datasets a) (
    logger INFO "Step 1: Exporting datasets...";;
    try_except
      (results ← call export_datasets;
       if truthy results then
         ds ← lift (py_iter results);
         export_count ← lift (py_sum (status_is "exported") ds);
         logger INFO ("Successfully exported " +:+ pretty export_count +:+ " datasets");;
         successful_append "datasets"
       else
         logger ERROR "Failed to export datasets";;
         failed_append "datasets")
      (λ e,
         logger ERROR ("Error exporting datasets: " +:+ e);;
         failed_append "datasets")).

(** Step 2 (lines 139-161) *)
Definition prompts_stage (a : args) : M unit :=
  when (all a || prompts a) (
    logger INFO "Step 2: Exporting prompts...";;
    try_except
      (results ← call export_prompts;
       if truthy results then
         ps ← lift (py_iter results);
         export_count ← lift (py_sum (status_is "exported") ps);
         logger INFO ("Successfully exported " +:+ pretty export_count +:+ " prompts");;
         successful_append "prompts"
       else
         logger ERROR "Failed to export prompts";;
         failed_append "prompts")
      (λ e,
         logger ERROR ("Error exporting prompts: " +:+ e);;
         failed_append "prompts")).

(** Step 3 (lines 164-192) *)
Definition traces_stage (a : args) : M unit :=
  when (all a || traces a || projects a) (
    logger INFO "Step 3: Exporting traces and project metadata...";;
    try_except
      (results ← call export_traces;
       if truthy results then
         vs ← lift (py_values results);
         success_count ← lift (py_sum (one_if_status "exported") vs);
         ps ← lift (py_values results);
         total_traces ← lift (py_sum (count_field "trace_count") ps);
         logger INFO ("Successfully exported " +:+ pretty total_traces
                      +:+ " traces from " +:+ pretty success_count +:+ " projects");;
         successful_append "traces"
       else
         logger ERROR "Failed to export traces";;
         failed_append "traces")
      (λ e,
         logger ERROR ("Error exporting traces: " +:+ e);;
         failed_append "traces")).

(** Step 4 (lines 195-224) *)
Definition annotations_stage (a : args) : M unit :=
  when (all a || annotations a) (
    logger INFO "Step 4: Exporting annotations...";;
    try_except
      (results ← call export_annotations;
       if truthy results then
         vs ← lift (py_values results);
         success_count ← lift (py_sum (one_if_status "exported") vs);
         ps ← lift (py_values results);
         total_annotations ← lift (py_sum (count_field "annotation_count") ps);
         logger INFO ("Successfully exported " +:+ pretty total_annotations
                      +:+ " annotations from " +:+ pretty success_count +:+ " projects");;
         successful_append "annotations"
       else
         logger ERROR "No annotations were exported";;
         failed_append "annotations")
      (λ e,
         logger ERROR ("Error exporting annotations: " +:+ e);;
         failed_append "annotations")).

(** Step 5 (lines 227-256) *)
Definition evaluations_stage (a : args) : M unit :=
  when (all a || evaluations a) (
    logger INFO "Step 5: Exporting evaluations...";;
    try_except
      (results ← call export_evaluations;
       if truthy results then
         vs ← lift (py_values results);
         success_count ← lift (py_sum (one_if_status "exported") vs);
         ps ← lift (py_values results);
         total_evaluations ← lift (py_sum (count_field "evaluation_count") ps);
         logger INFO ("Successfully exported " +:+ pretty total_evaluations
                      +:+ " evaluations from " +:+ pretty success_count +:+ " projects");;
         successful_append "evaluations"
       else
         logger ERROR "Failed to export evaluations";;
         failed_append "evaluations")
      (λ e,
         logger ERROR ("Error exporting evaluations: " +:+ e);;
         failed_append "evaluations")).

(** Lines 258-274: the summary, the results files found, the exit status *)
Definition summary : M unit :=
  print (nl +:+ "=== Export Summary ===");;
  successful_exports ← get_successful;
  when (nonempty successful_exports)
    (logger INFO ("Successfully exported: " +:+ join ", " successful_exports));;
  failed_exports ← get_failed;
  when (nonempty failed_exports)
    (logger ERROR ("Failed to export: " +:+ join ", " failed_exports));;
  print (nl +:+ "=== Export Results Files ===");;
  for_each ["dataset"; "trace"; "prompt"; "annotation"; "evaluation"] (λ result_type,
    let result_file := path_join RESULTS_DIR (result_type +:+ "_export_results.json") in
    found ← exists_path result_file;
    when found (print ("- " +:+ capitalize result_type +:+ " results: " +:+ result_file)));;
  when (nonempty failed_exports) (sys_exit 1).

Definition any_selected (a : args) : bool :=
  all a || datasets a || prompts a || projects a || traces a
  || annotations a || evaluations a.

(** The five stages of [main] (lines 113-256), in the order of the source. *)
Definition stages (a : args) : M unit :=
  datasets_stage a;;
  prompts_stage a;;
  traces_stage a;;
  annotations_stage a;;
  evaluations_stage a.

Definition main (a : args) : M unit :=
  if missing (base_url a) then
    logger ERROR ("No Phoenix Endpoint URL provided. Set the PHOENIX_ENDPOINT environment variable "
                  +:+ "(e.g., https://app.phoenix.arize.com for Cloud, "
                  +:+ "http://localhost:6006 for self-hosted) or use --base-url.")
  else
    let url := default "" (base_url a) in
    when (verbose a) (emit (SetLevel DEBUG));;
    let base_export_dir := export_dir a in
    logger INFO ("Connecting to Phoenix server at " +:+ url);;
    abs ← os_path_abspath base_export_dir;
    logger INFO ("Exporting data to: " +:+ abs);;
    let headers :=
      [("Accept", "application/json"); ("Content-Type", "application/json")]
      ++ (if missing (api_key a) then [] else [("api_key", default "" (api_key a))]) in
    create_client_with_retry (rstrip_slash url) headers;;
    if negb (any_selected a) then
      logger ERROR "No export type selected. Use --help to see available options."
    else
      let projects_dir := path_join base_export_dir "projects" in
      makedirs projects_dir;;
      stages a;;
      summary.

(** Running the script: [main()] in a fresh process. *)
Definition run (a : args) (s : setting) : result unit * world :=
  main a s (initial_world ["export_all_projects.py"]).

End export_all_projects.

(** * import_to_arize.py *)

(** [len(v)] of a sized value; the scripts take it behind an [isinstance]. *)
Definition len (v : pyval) : Z :=
  match v with
  | PList l => Z.of_nat (length l)
  | PDict d => Z.of_nat (length d)
  | PStr s => Z.of_nat (String.length s)
  | _ => 0
  end.

(** [k in v] for a dict [v] *)
Definition has_key (k : string) (v : pyval) : bool :=
  match v with
  | PDict d => bool_decide (is_Some (dict_lookup k d))
  | _ => false
  end.

(** [v[k]]; a missing key raises [KeyError(k)] *)
Definition py_getitem (v : pyval) (k : string) : pyres pyval :=
  match v with
  | PDict d =>
      match dict_lookup k d with
      | Some x => Val x
      | None => Exc ("'" +:+ k +:+ "'")
      end
  | _ => Exc ("'" +:+ type_name v +:+ "' object is not subscriptable")
  end.

(** [results_path.exists()] for the trace results file *)
Definition trace_results_exist : M bool := λ s w,
  (Ok (match trace_results_file (env_of s) with Absent => false | _ => true end), w).

(** [with open(results_path, "r") as f: json.load(f)] for the trace results file *)
Definition trace_results_load : M pyval := λ s w,
  match trace_results_file (env_of s) with
  | Loadable v => (Ok v, w)
  | Unreadable x => (Raised x, w)
  | Absent => (Raised "[Errno 2] No such file or directory: 'results/trace_import_results.json'", w)
  end.

Module import_to_arize.

(** The namespace built by [parse_import_args]. *)
Record args := {
  api_key : option string;
  space_id : option string;
  developer_key : option string;
  export_dir : string;
  verbose : bool;
  all : bool;
  datasets : bool;
  traces : bool;
  annotations : bool;
  evaluations : bool;
  prompts : bool;
  setup_annotations : bool;
}.

(** [args.evaluations = False; args.all = False] *)
Definition clear_evaluations_and_all (a : args) : args :=
  {| api_key := api_key a; space_id := space_id a; developer_key := developer_key a;
     export_dir := export_dir a; verbose := verbose a;
     all := false; datasets := datasets a; traces := traces a;
     annotations := annotations a; evaluations := false; prompts := prompts a;
     setup_annotations := setup_annotations a |}.

Definition import_datasets_wrapper (a : args) : M bool :=
  try_except
    (logger INFO "Importing datasets...";;
     let results_path := path_join RESULTS_DIR "dataset_import_results.json" in
     result ← call import_datasets;
     if is_list result && (0 <? len result) then
       ds ← lift (py_iter result);
       new_count ← lift (py_sum (status_is "imported") ds);
       existing_count ← lift (py_sum (status_is "already_exists") ds);
       logger INFO ("Dataset import complete: " +:+ pretty new_count +:+ " imported");;
       json_dump results_path result;;
       logger INFO ("Dataset import results saved to " +:+ results_path);;
       mret (0 <? new_count + existing_count)
     else
       logger ERROR "No datasets were imported";;
       mret false)
    (λ e,
       logger ERROR ("Error importing datasets: " +:+ e);;
       mret false).

(** The loop of lines 123-136 over [result.items()]: the pair
    [(success_count, total_processed)]. *)
Fixpoint count_projects (items : list (string * pyval)) (success_count total_processed : Z)
    : Z * Z :=
  match items with
  | [] => (success_count, total_processed)
  | (key, value) :: items' =>
      if existsb (String.eqb key) ["projects"; "timestamp"] then
        count_projects items' success_count total_processed
      else
        match value with
        | PDict d =>
            let status := default (PStr "") (dict_lookup "status" d) in
            if py_in_strs status ["imported"; "skipped"] then
              count_projects items' (success_count + 1) (total_processed + 1)
            else
              count_projects items' success_count (total_processed + 1)
        | _ => count_projects items' success_count total_processed
        end
  end.

(** In the source the handler of the inner [try] leaves the function with
    [return False]; here the inner block yields [inr false] for that and
    [inl result] to go on. *)
Definition import_traces_wrapper (a : args) : M bool :=
  try_except
    (logger INFO "Importing traces...";;
     let results_path := path_join RESULTS_DIR "trace_import_results.json" in
     r ← try_except
           (result ← call import_traces;
            mret (inl result : pyval + bool))
           (λ import_error,
              logger ERROR ("Error in import_traces.import_traces(): " +:+ import_error);;
              found ← trace_results_exist;
              if found : bool then
                try_except
                  (result ← trace_results_load;
                   logger INFO "Loaded existing trace import results from file";;
                   mret (inl result : pyval + bool))
                  (λ load_error,
                     logger ERROR ("Failed to load existing results: " +:+ load_error);;
                     mret (inr false : pyval + bool))
              else
                mret (inr false : pyval + bool));
     match r with
     | inr b => mret b
     | inl result =>
         if truthy result && is_dict result && (0 <? len result) then
           items ← lift (py_items result);
           let '(success_count, total_processed) := count_projects items 0 0 in
           logger INFO ("Successfully processed traces from " +:+ pretty success_count
                        +:+ "/" +:+ pretty total_processed +:+ " projects");;
           json_dump results_path result;;
           logger INFO ("Trace import results saved to " +:+ results_path);;
           mret (0 <? success_count)
         else
           logger ERROR "No traces were imported";;
           mret false
     end)
    (λ e,
       logger ERROR ("Error importing traces: " +:+ e);;
       mret false).

Definition import_annotations_wrapper (a : args) : M bool :=
  try_except
    (logger INFO "Importing annotations...";;
     let results_path := path_join RESULTS_DIR "annotation_import_results.json" in
     result ← call import_annotations;
     if truthy result && is_dict result && has_key "projects" result then
       projs ← lift (py_getitem result "projects");
       ps ← lift (py_values projs);
       total_success ← lift (py_sum one_if_success ps);
       projs' ← lift (py_getitem result "projects");
       ps' ← lift (py_values projs');
       total_annotations ← lift (py_sum (count_field "annotations_count") ps');
       logger INFO ("Imported " +:+ pretty total_annotations +:+ " annotations from "
                    +:+ pretty total_success +:+ " projects");;
       json_dump results_path result;;
       logger INFO ("Annotation import results saved to " +:+ results_path);;
       mret (0 <? total_success)
     else
       logger ERROR "No annotations were imported";;
       mret false)
    (λ e,
       logger ERROR ("Error importing annotations: " +:+ e);;
       mret false).

Definition import_evaluations_wrapper (a : args) : M bool :=
  try_except
    (logger INFO "Importing evaluations...";;
     let results_path := path_join RESULTS_DIR "evaluation_import_results.json" in
     result ← call import_evaluations;
     if truthy result && is_dict result && has_key "projects" result then
       projs ← lift (py_getitem result "projects");
       ps ← lift (py_values projs);
       total_success ← lift (py_sum one_if_success ps);
       projs' ← lift (py_getitem result "projects");
       ps' ← lift (py_values projs');
       total_evaluations ← lift (py_sum (count_field "evaluations_count") ps');
       logger INFO ("Imported " +:+ pretty total_evaluations +:+ " evaluations from "
                    +:+ pretty total_success +:+ " projects");;
       json_dump results_path result;;
       logger INFO ("Evaluation import results saved to " +:+ results_path);;
       mret (0 <? total_success)
     else
       logger ERROR "No evaluations were imported";;
       mret false)
    (λ e,
       logger ERROR ("Error importing evaluations: " +:+ e);;
       mret false).

Definition import_prompts_wrapper (a : args) : M bool :=
  try_except
    (logger INFO "Importing prompts...";;
     let results_path := path_join RESULTS_DIR "prompt_import_results.json" in
     result ← call import_prompts;
     if is_list result && (0 <? len result) then
       ps ← lift (py_iter result);
       new_count ← lift (py_sum (status_is "imported") ps);
       existing_count ← lift (py_sum (status_is "already_exists") ps);
       logger INFO ("Prompt import complete: " +:+ pretty new_count +:+ " newly imported");;
       json_dump results_path result;;
       logger INFO ("Prompt import results saved to " +:+ results_path);;
       mret (0 <? new_count + existing_count)
     else
       logger ERROR "No prompts were imported";;
       mret false)
    (λ e,
       logger ERROR ("Error importing prompts: " +:+ e);;
       mret false).

Definition setup_annotations_wrapper (a : args) : M bool :=
  try_except
    (let cmd_args :=
       ["setup_annotations.py"; "--export-dir"; export_dir a]
       ++ (if verbose a then ["--verbose"] else []) in
     original_argv ← get_argv;
     try_finally
       (set_argv cmd_args;;
        call setup_annotations_main;;
        mret true)
       (set_argv original_argv))
    (λ e,
       logger ERROR ("Error setting up annotations: " +:+ e);;
       mret false).

(** A stage of [main]: run the wrapper and file its name under the
    successful or the failed imports. *)
Definition record (name : string) (ok : bool) : M unit :=
  if ok then successful_append name else failed_append name.

(** Steps 1 to 3 (lines 352-374) *)
Definition datasets_stage (a : args) : M unit :=
  when (all a || datasets a) (
    logger INFO "Step 1/7: Importing datasets...";;
    ok ← import_datasets_wrapper a;
    record "datasets" ok).

Definition prompts_stage (a : args) : M unit :=
  when (all a || prompts a) (
    logger INFO "Step 2/7: Importing prompts...";;
    ok ← import_prompts_wrapper a;
    record "prompts" ok).

Definition traces_stage (a : args) : M unit :=
  when (all a || traces a) (
    logger INFO "Step 3/7: Importing traces...";;
    ok ← import_traces_wrapper a;
    record "traces" ok).

Definition confirmed (confirmation : string) : bool :=
  existsb (String.eqb confirmation) ["yes"; "y"].

(** Step 3.5 (lines 376-400): the pause for trace ingestion.  It hands back
    the namespace, which it changes when the operator declines. *)
Definition ingestion_pause (a : args) : M args :=
  successful_imports ← get_successful;
  let traces_imported := existsb (String.eqb "traces") successful_imports in
  let evaluations_requested := all a || evaluations a in
  if traces_imported && evaluations_requested then
    print (nl +:+ "=======================================================");;
    print "IMPORTANT: Wait for traces to be fully ingested in Arize:";;
    print "1. Navigate to your projects in the Arize dashboard";;
    print "2. Verify that all traces are visible and loaded";;
    print "3. This may take a few minutes for large datasets";;
    print "=======================================================";;
    answer ← input TracesVisible;
    let confirmation := lower answer in
    if negb (confirmed confirmation) then
      logger WARNING "Evaluation import skipped. Please wait for traces to be fully ingested.";;
      logger WARNING "You can run the import again with --evaluations when ready.";;
      mret (clear_evaluations_and_all a)
    else
      mret a
  else
    mret a.

(** Step 4 (lines 402-408) *)
Definition evaluations_stage (a : args) : M unit :=
  when (all a || evaluations a) (
    logger INFO "Step 4/7: Importing evaluations...";;
    ok ← import_evaluations_wrapper a;
    record "evaluations" ok).

(** Steps 5 to 7 (lines 410-453) *)
Definition annotations_stage (a : args) : M unit :=
  if all a || annotations a then
    logger INFO "Step 5/7: Setting up and importing annotations...";;
    logger INFO "Running annotation setup guide...";;
    setup_success ← setup_annotations_wrapper a;
    (if setup_success : bool then
       logger INFO "✓ Annotation setup guide completed successfully."
     else
       logger ERROR "✗ Annotation setup guide failed.";;
       failed_append "annotation setup");;
    print (nl +:+ "=======================================================");;
    print "IMPORTANT: Please configure all annotations in Arize UI:";;
    print "1. Navigate to a trace in your project in Arize";;
    print "2. Click 'Annotate' button";;
    print "3. Add all annotation types listed in the setup guide";;
    print "=======================================================";;
    answer ← input AnnotationsConfigured;
    let confirmation := lower answer in
    if confirmed confirmation then
      logger INFO "Step 7/7: Importing annotations...";;
      ok ← import_annotations_wrapper a;
      record "annotations" ok
    else
      logger WARNING "Annotation import skipped. Please configure annotations in Arize UI first.";;
      logger WARNING "You can run the import again with --annotations when ready."
  else if setup_annotations a then
    logger INFO "Running annotation setup guide...";;
    ok ← setup_annotations_wrapper a;
    record "annotation setup" ok
  else
    mret ().

(** Lines 455-464 *)
Definition summary : M unit :=
  print (nl +:+ "=== Import Summary ===");;
  successful_imports ← get_successful;
  when (nonempty successful_imports)
    (logger INFO ("Successfully imported: " +:+ join ", " successful_imports));;
  failed_imports ← get_failed;
  when (nonempty failed_imports)
    (logger ERROR ("Failed to import: " +:+ join ", " failed_imports));;
  when (nonempty failed_imports) (sys_exit 1).

Definition any_selected (a : args) : bool :=
  all a || datasets a || traces a || annotations a || evaluations a
  || prompts a || setup_annotations a.

(** The stages of [main] (lines 352-453); the result is the namespace as
    the stages leave it. *)
Definition stages (a : args) : M args :=
  datasets_stage a;;
  prompts_stage a;;
  traces_stage a;;
  a' ← ingestion_pause a;
  evaluations_stage a';;
  annotations_stage a';;
  mret a'.

Definition main (a : args) : M unit :=
  if missing (api_key a) then
    logger ERROR "No Arize API key provided. Set the ARIZE_API_KEY environment variable or use --api-key"
  else if missing (space_id a) then
    logger ERROR ("No Arize Space ID provided. Set the ARIZE_SPACE_ID environment variable "
                  +:+ "or use --space-id")
  else if negb (any_selected a) then
    logger ERROR "No import type selected. Use --help to see available options."
  else
    stages a;;
    summary.

(** Running the script: [main()] in a fresh process. *)
Definition run (a : args) (s : setting) : result unit * world :=
  main a s (initial_world ["import_to_arize.py"]).

End import_to_arize.

(** * Reasoning about runs *)

(** ** What a computation adds to the world

    Apart from the pause and the summaries, which read the lists of stages,
    no part of the scripts looks at the state it runs in: it appends to the
    trace and to the two lists and leaves [sys.argv] as it found it.  Such a
    computation is known from its run in the empty world. *)

Definition empty_world : world := initial_world [].
Notation "∅w" := empty_world.

Definition combine (w d : world) : world :=
  {| trace := trace w ++ trace d;
     sys_argv := sys_argv w;
     successful := successful w ++ successful d;
     failed := failed w ++ failed d |}.

Definition framed {A} (m : M A) : Prop :=
  ∀ e w, m e w = ((m e ∅w).1, combine w (m e ∅w).2).

Lemma combine_assoc w d1 d2 :
  combine (combine w d1) d2 = combine w (combine d1 d2).
Proof. unfold combine; simpl. by rewrite !app_assoc. Qed.

Lemma combine_empty_r w : combine w ∅w = w.
Proof. destruct w; unfold combine; simpl. by rewrite !app_nil_r. Qed.

Section framed.
Context {A B : Type}.

Lemma framed_ret (a : A) : framed (mret a).
Proof. intros e w. simpl. by rewrite combine_empty_r. Qed.

Lemma framed_lift (r : pyres A) : framed (lift r).
Proof. intros e w. unfold lift; simpl. by rewrite combine_empty_r. Qed.

Lemma framed_bind (m : M A) (k : A → M B) :
  framed m → (∀ a, framed (k a)) → framed (m ≫= k).
Proof.
  intros Hm Hk e w. unfold mbind, M_bind.
  rewrite (Hm e w). destruct (m e ∅w) as [[a|x|c] d]; simpl; try done.
  rewrite (Hk a e (combine w d)), (Hk a e d).
  simpl. by rewrite !combine_assoc.
Qed.

Lemma framed_try_except (m : M A) (h : exn → M A) :
  framed m → (∀ x, framed (h x)) → framed (try_except m h).
Proof.
  intros Hm Hh e w. unfold try_except.
  rewrite (Hm e w). destruct (m e ∅w) as [[a|x|c] d]; simpl; try done.
  rewrite (Hh x e (combine w d)), (Hh x e d).
  simpl. by rewrite !combine_assoc.
Qed.

End framed.

Lemma framed_emit ev : framed (emit ev).
Proof. intros e w. unfold combine; simpl. by rewrite !app_nil_r. Qed.

Lemma framed_logger lvl msg : framed (logger lvl msg).
Proof. apply framed_emit. Qed.

Lemma framed_print msg : framed (print msg).
Proof. apply framed_emit. Qed.

Lemma framed_json_dump path v : framed (json_dump path v).
Proof. apply framed_emit. Qed.

Lemma framed_call f : framed (call f).
Proof.
  intros s w. unfold call, combine; simpl.
  destruct (exit_of (exits s) f); [|destruct (behaviour (env_of s) f)];
    simpl; by rewrite !app_nil_r.
Qed.

Lemma framed_input p : framed (input p).
Proof.
  intros s w. unfold input, combine; simpl.
  destruct (at_eof (eof_at s) p); simpl; by rewrite !app_nil_r.
Qed.

Lemma framed_successful_append name : framed (successful_append name).
Proof. intros e w. unfold combine; simpl. by rewrite !app_nil_r. Qed.

Lemma framed_failed_append name : framed (failed_append name).
Proof. intros e w. unfold combine; simpl. by rewrite !app_nil_r. Qed.

Lemma framed_sys_exit c : framed (sys_exit c).
Proof. intros e w. simpl. by rewrite combine_empty_r. Qed.

Lemma framed_exists_path path : framed (exists_path path).
Proof. intros e w. simpl. by rewrite combine_empty_r. Qed.

Lemma framed_os_path_abspath path : framed (os_path_abspath path).
Proof. intros e w. simpl. by rewrite combine_empty_r. Qed.

Lemma framed_trace_results_exist : framed trace_results_exist.
Proof. intros e w. simpl. by rewrite combine_empty_r. Qed.

Lemma framed_trace_results_load : framed trace_results_load.
Proof.
  intros s w. unfold trace_results_load.
  destruct (trace_results_file (env_of s)); simpl; by rewrite combine_empty_r.
Qed.

Lemma framed_when b m : framed m → framed (when b m).
Proof. intros. destruct b; [done | apply framed_ret]. Qed.

Create HintDb framed.
#[export] Hint Resolve framed_ret framed_lift framed_emit framed_logger framed_print
  framed_json_dump framed_call framed_input framed_successful_append
  framed_failed_append framed_sys_exit framed_exists_path framed_os_path_abspath
  framed_trace_results_exist framed_trace_results_load : framed.

(** Goes through a computation written with the operations above. *)
Ltac solve_framed :=
  repeat first
    [ progress intros
    | solve [ auto with framed ]
    | apply framed_bind
    | apply framed_try_except
    | apply framed_when
    | match goal with
      | |- framed (if ?b then _ else _) => destruct b
      | |- framed (match ?x with _ => _ end) => destruct x
      | |- framed (let (_, _) := ?x in _) => destruct x
      end ].

Section export_frames.
Import export_all_projects.

Lemma framed_export_datasets_stage a : framed (datasets_stage a).
Proof. unfold datasets_stage. solve_framed. Qed.

Lemma framed_export_prompts_stage a : framed (prompts_stage a).
Proof. unfold prompts_stage. solve_framed. Qed.

Lemma framed_export_traces_stage a : framed (traces_stage a).
Proof. unfold traces_stage. solve_framed. Qed.

Lemma framed_export_annotations_stage a : framed (annotations_stage a).
Proof. unfold annotations_stage. solve_framed. Qed.

Lemma framed_export_evaluations_stage a : framed (evaluations_stage a).
Proof. unfold evaluations_stage. solve_framed. Qed.
End export_frames.

(** ** Sums over generators *)

(** What [sum] can add to an integer. *)
Definition summable (v : pyval) : bool :=
  match v with
  | PInt _ | PBool _ => true
  | _ => false
  end.

Definition int_of (v : pyval) : Z :=
  match v with
  | PInt z => z
  | PBool b => if b then 1 else 0
  | _ => 0
  end.

(** An item at which neither the generator nor the addition raises. *)
Definition item_ok (g : pyval → pyres (option pyval)) (x : pyval) : bool :=
  match g x with
  | Val None => true
  | Val (Some v) => summable v
  | Exc _ => false
  end.

Definition item_weight (g : pyval → pyres (option pyval)) (x : pyval) : Z :=
  match g x with
  | Val (Some v) => int_of v
  | _ => 0
  end.

Definition is_val {A} (r : pyres A) : bool :=
  match r with Val _ => true | Exc _ => false end.

Lemma forallb_eq {A} (f g : A → bool) l :
  (∀ x, f x = g x) → forallb f l = forallb g l.
Proof. intros H. induction l; simpl; [done|]. by rewrite H, IHl. Qed.

Lemma py_add_summable acc v : summable v = true → py_add acc v = Val (acc + int_of v).
Proof. by destruct v. Qed.

Lemma py_add_not_summable acc v : summable v = false → is_val (py_add acc v) = false.
Proof. by destruct v. Qed.

Lemma py_sum_from_val g xs : ∀ acc,
  forallb (item_ok g) xs = true →
  py_sum_from acc g xs = Val (acc + foldr (λ x s, item_weight g x + s) 0 xs).
Proof.
  induction xs as [|x xs IH]; intros acc H; simpl in *.
  - f_equal. lia.
  - apply andb_prop in H as [Hx Hxs]. unfold item_ok, item_weight in *.
    destruct (g x) as [[v|]|]; simpl; try done.
    + rewrite (py_add_summable _ _ Hx). simpl. rewrite (IH _ Hxs). f_equal. lia.
    + rewrite (IH _ Hxs). f_equal.
Qed.

Lemma py_sum_from_exc g xs : ∀ acc,
  forallb (item_ok g) xs = false → is_val (py_sum_from acc g xs) = false.
Proof.
  induction xs as [|x xs IH]; intros acc H; simpl in *; [done|].
  apply andb_false_iff in H. unfold item_ok in *.
  destruct (g x) as [[v|]|]; simpl; try done.
  - destruct (summable v) eqn:Hv.
    + rewrite (py_add_summable _ _ Hv). simpl. apply IH. by destruct H.
    + pose proof (py_add_not_summable acc v Hv). by destruct (py_add acc v).
  - apply IH. by destruct H.
Qed.

Lemma py_sum_is_val g xs : is_val (py_sum g xs) = forallb (item_ok g) xs.
Proof.
  unfold py_sum. destruct (forallb (item_ok g) xs) eqn:H.
  - by rewrite (py_sum_from_val _ _ _ H).
  - by apply py_sum_from_exc.
Qed.

(** A sum of weights that are 0 or 1 is positive exactly when some item
    weighs 1. *)
Lemma weights_positive g xs :
  (∀ x, 0 ≤ item_weight g x) →
  (0 <? foldr (λ x s, item_weight g x + s) 0 xs) = existsb (λ x, 0 <? item_weight g x) xs.
Proof.
  intros Hg. induction xs as [|x xs IH]; simpl; [done|].
  assert (0 ≤ foldr (λ x s, item_weight g x + s) 0 xs) as Hs.
  { clear IH. induction xs as [|y ys IHy]; simpl; [done|]. specialize (Hg y). lia. }
  specialize (Hg x). rewrite <- IH.
  destruct (0 <? item_weight g x) eqn:E1, (0 <? foldr _ 0 xs) eqn:E2; simpl; lia.
Qed.

(** The generators of the scripts. *)

Lemma item_ok_status_is s x : item_ok (status_is s) x = is_dict x.
Proof. by destruct x. Qed.

Lemma item_ok_one_if_status s x : item_ok (one_if_status s) x = is_dict x.
Proof.
  destruct x; try done. unfold item_ok, one_if_status; simpl.
  by destruct (py_eq_str _ s).
Qed.

Lemma item_ok_one_if_success x : item_ok one_if_success x = is_dict x.
Proof.
  destruct x; try done. unfold item_ok, one_if_success; simpl.
  by destruct (truthy _).
Qed.

(** The status of an entry of a result, when the entry is a dict that has one. *)
Definition entry_status (x : pyval) : option pyval :=
  match x with
  | PDict d => dict_lookup "status" d
  | _ => None
  end.

Definition has_status (s : string) (x : pyval) : bool :=
  match entry_status x with
  | Some st => py_eq_str st s
  | None => false
  end.

Lemma item_weight_status_is s x :
  item_weight (status_is s) x = if has_status s x then 1 else 0.
Proof.
  destruct x; try done. unfold item_weight, status_is, has_status; simpl.
  destruct (dict_lookup "status" d) as [st|]; simpl; [by destruct (py_eq_str st s) | done].
Qed.

(** A record of a project in a result keyed by project name: a dict whose
    count under [k], when it has one, is a number. *)
Definition project_record (k : string) (x : pyval) : bool :=
  match x with
  | PDict d => summable (default (PInt 0) (dict_lookup k d))
  | _ => false
  end.

Lemma item_ok_count_field k x : item_ok (count_field k) x = project_record k x.
Proof. by destruct x. Qed.

Lemma project_record_is_dict k x : project_record k x = true → is_dict x = true.
Proof. by destruct x. Qed.

(** ** The stages of the export *)

(** The shapes of the exporters' results: a non-empty list of per-entity
    dicts, and a non-empty dict of project records. *)
Definition entity_list (v : pyval) : bool :=
  match v with
  | PList l => nonempty l && forallb is_dict l
  | _ => false
  end.

Definition project_map (k : string) (v : pyval) : bool :=
  match v with
  | PDict m => nonempty m && forallb (project_record k) m.*2
  | _ => false
  end.

Definition returns (P : pyval → bool) (o : outcome) : bool :=
  match o with
  | Returns v => P v
  | Raises _ => false
  end.

(** What the run of a stage in the empty world looks like: it ends
    normally; it calls [f] when requested and nothing else; it asks the
    operator nothing; it files [n] as successful or failed according to
    [ok]; an exception of [f] is logged as an error under the heading [err]. *)
Record stage_report (r : result unit * world) (req ok : bool)
    (f : extfun) (n : string) (o : outcome) (err : string) : Prop := {
  report_ok : r.1 = Ok ();
  report_calls : calls (trace r.2) = if req then [f] else [];
  report_prompts : prompts_asked (trace r.2) = [];
  report_successful : successful r.2 = if req && ok then [n] else [];
  report_failed : failed r.2 = if req && negb ok then [n] else [];
  report_logged x : req = true → o = Raises x → Log ERROR (err +:+ x) ∈ trace r.2;
}.

(** Closes a report once the run has been brought to a value. *)
Ltac report :=
  split; try done;
  intros ? _ [= <-]; simpl;
  repeat first [ apply list_elem_of_here | apply list_elem_of_further ].

Local Arguments py_sum : simpl never.
Local Arguments entity_list : simpl never.
Local Arguments project_map : simpl never.
Local Arguments nonempty : simpl never.

(** Unfolds the operations of the monad in a run from a known world. *)
Ltac run_stage :=
  cbv [when try_except try_finally logger print emit call lift mbind M_bind mret M_ret
       successful_append failed_append json_dump input get_argv set_argv
       trace_results_exist trace_results_load empty_world initial_world];
  simpl.

Lemma entity_list_truthy v : truthy v = false → entity_list v = false.
Proof. destruct v as [| | | |l|]; try done. unfold entity_list; simpl. by intros ->. Qed.

Lemma project_map_truthy k v : truthy v = false → project_map k v = false.
Proof. destruct v as [| | | | |d]; try done. unfold project_map; simpl. by intros ->. Qed.

Lemma status_sum_is_val s l : is_val (py_sum (status_is s) l) = forallb is_dict l.
Proof. rewrite py_sum_is_val. apply forallb_eq, item_ok_status_is. Qed.

(** The two sums over the values of a project map go through exactly when
    every value is a project record. *)
Lemma project_sums_is_val k vs :
  is_val (py_sum (one_if_status "exported") vs) && is_val (py_sum (count_field k) vs)
  = forallb (project_record k) vs.
Proof.
  rewrite !py_sum_is_val.
  rewrite (forallb_eq _ _ vs (item_ok_one_if_status _)).
  rewrite (forallb_eq _ _ vs (item_ok_count_field k)).
  induction vs as [|x vs IH]; simpl; [done|].
  destruct (project_record k x) eqn:Hx; simpl.
  - by rewrite (project_record_is_dict _ _ Hx).
  - by rewrite andb_false_r.
Qed.

Section export_stages.
Import export_all_projects.
Variables (a : args) (e : env).

(** The body shared by the two stages whose result is a list. *)
Ltac list_stage f :=
  destruct (behaviour e f) as [v|x]; simpl; [|by report];
  destruct (truthy v) eqn:Hv; simpl;
    [|rewrite (entity_list_truthy _ Hv); by report];
  destruct v as [|b|z|s|l|d]; simpl in *; try (by report);
    [ destruct s; [done|]; by report
    | pose proof (status_sum_is_val "exported" l) as H;
      unfold entity_list; rewrite Hv, andb_true_l, <- H;
      destruct (py_sum _ _); by report
    | destruct d as [|[k v] d]; [done|]; by report ].

(** The body shared by the three stages whose result is a dict. *)
Ltac dict_stage f k :=
  destruct (behaviour e f) as [v|x]; simpl; [|by report];
  destruct (truthy v) eqn:Hv; simpl;
    [|rewrite (project_map_truthy _ _ Hv); by report];
  destruct v as [|b|z|s|l|d]; simpl in *; try (by report);
  pose proof (project_sums_is_val k d.*2) as H;
  unfold project_map; rewrite Hv, andb_true_l, <- H;
  destruct (py_sum (one_if_status _) _); simpl; [|by report];
  destruct (py_sum (count_field _) _); by report.

Lemma export_datasets_report :
  stage_report (datasets_stage a e ∅w) (all a || datasets a)
    (returns entity_list (behaviour e export_datasets)) export_datasets "datasets"
    (behaviour e export_datasets) "Error exporting datasets: ".
Proof.
  unfold datasets_stage. destruct (all a || datasets a); [|by report].
  run_stage. list_stage export_datasets.
Qed.

Lemma export_prompts_report :
  stage_report (prompts_stage a e ∅w) (all a || prompts a)
    (returns entity_list (behaviour e export_prompts)) export_prompts "prompts"
    (behaviour e export_prompts) "Error exporting prompts: ".
Proof.
  unfold prompts_stage. destruct (all a || prompts a); [|by report].
  run_stage. list_stage export_prompts.
Qed.

Lemma export_traces_report :
  stage_report (traces_stage a e ∅w) (all a || traces a || projects a)
    (returns (project_map "trace_count") (behaviour e export_traces))
    export_traces "traces"
    (behaviour e export_traces) "Error exporting traces: ".
Proof.
  unfold traces_stage. destruct (all a || traces a || projects a); [|by report].
  run_stage. dict_stage export_traces "trace_count".
Qed.

Lemma export_annotations_report :
  stage_report (annotations_stage a e ∅w) (all a || annotations a)
    (returns (project_map "annotation_count") (behaviour e export_annotations))
    export_annotations "annotations"
    (behaviour e export_annotations) "Error exporting annotations: ".
Proof.
  unfold annotations_stage. destruct (all a || annotations a); [|by report].
  run_stage. dict_stage export_annotations "annotation_count".
Qed.

Lemma export_evaluations_report :
  stage_report (evaluations_stage a e ∅w) (all a || evaluations a)
    (returns (project_map "evaluation_count") (behaviour e export_evaluations))
    export_evaluations "evaluations"
    (behaviour e export_evaluations) "Error exporting evaluations: ".
Proof.
  unfold evaluations_stage. destruct (all a || evaluations a); [|by report].
  run_stage. dict_stage export_evaluations "evaluation_count".
Qed.
End export_stages.

(** ** Putting runs together *)

Lemma bind_framed_run {A B} (m : M A) (k : A → M B) e w a :
  framed m → (m e ∅w).1 = Ok a →
  (m ≫= k) e w = k a e (combine w (m e ∅w).2).
Proof.
  intros Hm Ha. unfold mbind, M_bind. rewrite (Hm e w), Ha. done.
Qed.

Lemma framed_value {A} (m : M A) e :
  framed m → ∀ a w, (m e ∅w).1 = Ok a → m e w = (Ok a, combine w (m e ∅w).2).
Proof. intros Hm a w Ha. by rewrite (Hm e w), Ha. Qed.

Lemma calls_app t1 t2 : calls (t1 ++ t2) = calls t1 ++ calls t2.
Proof. apply omap_app. Qed.

Lemma prompts_asked_app t1 t2 :
  prompts_asked (t1 ++ t2) = prompts_asked t1 ++ prompts_asked t2.
Proof. apply omap_app. Qed.

(** [w'] is [w] after steps that call nothing, ask nothing and leave the
    lists of stages alone. *)
Definition quiet_step (w w' : world) : Prop :=
  ∃ t, trace w' = trace w ++ t ∧ calls t = [] ∧ prompts_asked t = []
       ∧ successful w' = successful w ∧ failed w' = failed w.

Lemma quiet_step_refl w : quiet_step w w.
Proof. exists []. by rewrite app_nil_r. Qed.

Lemma quiet_step_trans w1 w2 w3 : quiet_step w1 w2 → quiet_step w2 w3 → quiet_step w1 w3.
Proof.
  intros (t1 & H1 & Hc1 & Hp1 & Hs1 & Hf1) (t2 & H2 & Hc2 & Hp2 & Hs2 & Hf2).
  exists (t1 ++ t2). rewrite H2, H1, calls_app, prompts_asked_app, Hc1, Hc2, Hp1, Hp2.
  rewrite app_assoc. repeat split; congruence.
Qed.

Lemma quiet_step_calls w w' : quiet_step w w' → calls (trace w') = calls (trace w).
Proof. intros (t & -> & Hc & _). by rewrite calls_app, Hc, app_nil_r. Qed.

Lemma quiet_step_prompts w w' :
  quiet_step w w' → prompts_asked (trace w') = prompts_asked (trace w).
Proof. intros (t & -> & _ & Hp & _). by rewrite prompts_asked_app, Hp, app_nil_r. Qed.

Lemma quiet_step_successful w w' : quiet_step w w' → successful w' = successful w.
Proof. by intros (t & _ & _ & _ & ? & _). Qed.

Lemma quiet_step_failed w w' : quiet_step w w' → failed w' = failed w.
Proof. by intros (t & _ & _ & _ & _ & ?). Qed.

Lemma quiet_step_elem_of w w' ev : quiet_step w w' → ev ∈ trace w → ev ∈ trace w'.
Proof. intros (t & -> & _) ?. apply elem_of_app. by left. Qed.

(** What the whole run shares with the run [d] of its stages: the calls,
    the prompts, the two lists, and every event of the stages. *)
Record run_report (W d : world) : Prop := {
  run_calls : calls (trace W) = calls (trace d);
  run_prompts : prompts_asked (trace W) = prompts_asked (trace d);
  run_successful : successful W = successful d;
  run_failed : failed W = failed d;
  run_events ev : ev ∈ trace d → ev ∈ trace W;
}.

Lemma run_report_intro w0 w1 d W :
  calls (trace w0) = [] → prompts_asked (trace w0) = [] →
  successful w0 = [] → failed w0 = [] →
  quiet_step w0 w1 → quiet_step (combine w1 d) W → run_report W d.
Proof.
  intros Hc Hp Hs Hf H01 H1W.
  pose proof (quiet_step_calls _ _ H01) as Hc1.
  pose proof (quiet_step_prompts _ _ H01) as Hp1.
  pose proof (quiet_step_successful _ _ H01) as Hs1.
  pose proof (quiet_step_failed _ _ H01) as Hf1.
  split.
  - rewrite (quiet_step_calls _ _ H1W). simpl. rewrite calls_app. by rewrite Hc1, Hc.
  - rewrite (quiet_step_prompts _ _ H1W). simpl. rewrite prompts_asked_app.
    by rewrite Hp1, Hp.
  - rewrite (quiet_step_successful _ _ H1W). simpl. by rewrite Hs1, Hs.
  - rewrite (quiet_step_failed _ _ H1W). simpl. by rewrite Hf1, Hf.
  - intros ev Hev. apply (quiet_step_elem_of _ _ _ H1W). simpl.
    apply elem_of_app. by right.
Qed.

(** A loop of quiet steps is quiet. *)
Lemma for_each_quiet {A} (xs : list A) (body : A → M unit) e :
  (∀ x w, (body x e w).1 = Ok () ∧ quiet_step w (body x e w).2) →
  ∀ w, (for_each xs body e w).1 = Ok () ∧ quiet_step w (for_each xs body e w).2.
Proof.
  intros Hbody. induction xs as [|x xs IH]; intros w; simpl.
  - split; [done | apply quiet_step_refl].
  - unfold mbind, M_bind. destruct (Hbody x w) as [H1 H2].
    destruct (body x e w) as [r w1]. simpl in *. subst r.
    destruct (IH w1) as [H3 H4]. split; [done|].
    by eapply quiet_step_trans.
Qed.

(** A world reached by known events that are neither calls nor prompts. *)
Ltac quiet_events :=
  eexists; simpl; rewrite <- ?app_assoc; simpl;
  split; [reflexivity | by repeat split].

(** A stage of a pipeline as [main] selects and names it: whether the
    flags request it, the exporter or importer it calls, the name it is
    filed under, the heading of its error record. *)
Record stage_desc := {
  sd_req : bool;
  sd_fun : extfun;
  sd_name : string;
  sd_err : string;
}.

Definition calls_of (plan : list stage_desc) : list extfun :=
  flat_map (λ s, if sd_req s then [sd_fun s] else []) plan.

Definition successful_of (plan : list stage_desc) (ok : extfun → bool) : list string :=
  flat_map (λ s, if sd_req s && ok (sd_fun s) then [sd_name s] else []) plan.

Definition failed_of (plan : list stage_desc) (ok : extfun → bool) : list string :=
  flat_map (λ s, if sd_req s && negb (ok (sd_fun s)) then [sd_name s] else []) plan.

(** The stages of the export in the order of [main]. *)
Definition export_plan (a : export_all_projects.args) : list stage_desc :=
  [ {| sd_req := export_all_projects.all a || export_all_projects.datasets a;
       sd_fun := export_datasets; sd_name := "datasets";
       sd_err := "Error exporting datasets: " |};
    {| sd_req := export_all_projects.all a || export_all_projects.prompts a;
       sd_fun := export_prompts; sd_name := "prompts";
       sd_err := "Error exporting prompts: " |};
    {| sd_req := export_all_projects.all a || export_all_projects.traces a
                 || export_all_projects.projects a;
       sd_fun := export_traces; sd_name := "traces";
       sd_err := "Error exporting traces: " |};
    {| sd_req := export_all_projects.all a || export_all_projects.annotations a;
       sd_fun := export_annotations; sd_name := "annotations";
       sd_err := "Error exporting annotations: " |};
    {| sd_req := export_all_projects.all a || export_all_projects.evaluations a;
       sd_fun := export_evaluations; sd_name := "evaluations";
       sd_err := "Error exporting evaluations: " |} ].

(** Whether an exporter hands back a result that its stage accepts. *)
Definition export_ok (e : env) (f : extfun) : bool :=
  match f with
  | export_datasets | export_prompts => returns entity_list (behaviour e f)
  | export_traces => returns (project_map "trace_count") (behaviour e f)
  | export_annotations => returns (project_map "annotation_count") (behaviour e f)
  | export_evaluations => returns (project_map "evaluation_count") (behaviour e f)
  | _ => false
  end.

Section export_run.
Import export_all_projects.
Variables (a : args) (e : env).

Lemma framed_export_stages : framed (stages a).
Proof.
  unfold stages.
  repeat first
    [ apply framed_bind; [|intros _]
    | apply framed_export_datasets_stage | apply framed_export_prompts_stage
    | apply framed_export_traces_stage | apply framed_export_annotations_stage
    | apply framed_export_evaluations_stage ].
Qed.

Lemma export_stages_run :
  let r := stages a e ∅w in
  r.1 = Ok ()
  ∧ calls (trace r.2) = calls_of (export_plan a)
  ∧ prompts_asked (trace r.2) = []
  ∧ successful r.2 = successful_of (export_plan a) (export_ok e)
  ∧ failed r.2 = failed_of (export_plan a) (export_ok e)
  ∧ (∀ s x, s ∈ export_plan a → sd_req s = true →
       behaviour e (sd_fun s) = Raises x → Log ERROR (sd_err s +:+ x) ∈ trace r.2).
Proof.
  destruct (export_datasets_report a e) as [o1 c1 p1 s1 f1 l1].
  destruct (export_prompts_report a e) as [o2 c2 p2 s2 f2 l2].
  destruct (export_traces_report a e) as [o3 c3 p3 s3 f3 l3].
  destruct (export_annotations_report a e) as [o4 c4 p4 s4 f4 l4].
  destruct (export_evaluations_report a e) as [o5 c5 p5 s5 f5 l5].
  unfold stages.
  rewrite (bind_framed_run _ _ _ _ _ (framed_export_datasets_stage a) o1).
  rewrite (bind_framed_run _ _ _ _ _ (framed_export_prompts_stage a) o2).
  rewrite (bind_framed_run _ _ _ _ _ (framed_export_traces_stage a) o3).
  rewrite (bind_framed_run _ _ _ _ _ (framed_export_annotations_stage a) o4).
  rewrite (framed_export_evaluations_stage a e), o5.
  cbn [fst snd combine trace successful failed empty_world initial_world].
  rewrite !calls_app, !prompts_asked_app, c1, c2, c3, c4, c5, p1, p2, p3, p4, p5,
    s1, s2, s3, s4, s5, f1, f2, f3, f4, f5.
  unfold calls_of, successful_of, failed_of, export_plan, export_ok.
  cbn [flat_map sd_req sd_fun sd_name app].
  rewrite !app_nil_r, <- !app_assoc.
  repeat split; try done.
  intros s x Hs Hreq Hx.
  rewrite !elem_of_cons in Hs. rewrite !elem_of_app.
  destruct Hs as [->|[->|[->|[->|[->|Hs]]]]]; simpl in *;
    [ | | | | | by apply elem_of_nil in Hs ]; eauto 10.
Qed.

Lemma export_summary_run w :
  (summary e w).1 = (if nonempty (failed w) then SysExit 1 else Ok ())
  ∧ quiet_step w (summary e w).2.
Proof.
  unfold summary.
  match goal with
  | |- context [for_each ?xs ?body] =>
      assert (∀ w, (for_each xs body e w).1 = Ok ()
                   ∧ quiet_step w (for_each xs body e w).2) as Hloop;
      [ apply for_each_quiet | generalize dependent (for_each xs body) ]
  end.
  { intros x w'. unfold mbind, M_bind, exists_path, when, print. simpl.
    destruct (path_exists e _); simpl; (split; [done|]).
    - quiet_events.
    - apply quiet_step_refl. }
  intros loop Hloop.
  unfold mbind, M_bind, print, logger, get_successful, get_failed, when, sys_exit.
  simpl.
  destruct (successful w) as [|s ss] eqn:Hs, (failed w) as [|f fs] eqn:Hf; simpl;
    match goal with
    | |- context [loop ?s0 ?w3] =>
        destruct (Hloop w3) as [Hl1 Hl2]; destruct (loop s0 w3) as [r W];
        simpl in *; subst r; simpl; (split; [done|]);
        apply (quiet_step_trans _ w3); [|done]
    end; quiet_events.
Qed.

(** A run that passes the checks of [main]: its stages, then the summary. *)
Lemma export_run_report :
  missing (base_url a) = false → any_selected a = true →
  (run a e).1 = (if nonempty (failed_of (export_plan a) (export_ok e))
                 then SysExit 1 else Ok ())
  ∧ run_report (run a e).2 (stages a e ∅w).2.
Proof.
  intros Hurl Hany.
  destruct export_stages_run as (Hok & _ & _ & _ & Hfailed & _).
  unfold run, main. rewrite Hurl, Hany. simpl negb. cbv iota.
  set (w0 := initial_world _).
  assert (∃ w1, quiet_step w0 w1 ∧
            ∀ k : M unit,
              (when (verbose a) (emit (SetLevel DEBUG));;
               logger INFO ("Connecting to Phoenix server at " +:+ default "" (base_url a));;
               abs ← os_path_abspath (export_dir a);
               logger INFO ("Exporting data to: " +:+ abs);;
               create_client_with_retry (rstrip_slash (default "" (base_url a)))
                 ([("Accept", "application/json");
                   ("Content-Type", "application/json")]
                  ++ (if missing (api_key a) then []
                      else [("api_key", default "" (api_key a))]));;
               makedirs (path_join (export_dir a) "projects");;
               k) e w0 = k e w1) as (w1 & H01 & Hpre).
  { destruct (verbose a); eexists; (split; [|intros k; reflexivity]); quiet_events. }
  rewrite Hpre. clear Hpre.
  rewrite (bind_framed_run _ _ _ _ _ framed_export_stages Hok).
  destruct (export_summary_run (combine w1 (stages a e ∅w).2)) as [Hs1 Hs2].
  split.
  - rewrite Hs1. simpl. rewrite (quiet_step_failed _ _ H01). simpl. by rewrite Hfailed.
  - by apply (run_report_intro w0 w1).
Qed.
End export_run.

(** ** The wrappers of the import *)

Definition delta_trace (t : list event) : world :=
  {| trace := t; sys_argv := []; successful := []; failed := [] |}.

(** The boolean a wrapper hands back. *)
Definition wrapper_ok (m : M bool) (e : env) : bool :=
  match (m e ∅w).1 with
  | Ok b => b
  | _ => false
  end.

(** A wrapper in a cooperative environment: it returns a boolean, calls
    [f] and nothing else, asks nothing, leaves the lists of stages alone,
    and logs an exception of [f] as an error under the heading [err]. *)
Definition wrapper_run (m : M bool) (e : env) (f : extfun) (err : string) : Prop :=
  ∃ t, m e ∅w = (Ok (wrapper_ok m e), delta_trace t)
       ∧ calls t = [f] ∧ prompts_asked t = []
       ∧ ∀ x, behaviour e f = Raises x → Log ERROR (err +:+ x) ∈ t.

Lemma wrapper_run_intro (m : M bool) (e : env) f err :
  (∃ b t, m e ∅w = (Ok b, delta_trace t)
          ∧ calls t = [f] ∧ prompts_asked t = []
          ∧ ∀ x, behaviour e f = Raises x → Log ERROR (err +:+ x) ∈ t) →
  wrapper_run m e f err.
Proof.
  intros (b & t & Hm & H). exists t. split; [|done].
  unfold wrapper_ok. by rewrite Hm.
Qed.

Lemma len_list_positive l : (0 <? len (PList l)) = nonempty l.
Proof. destruct l; simpl; [done|]. apply Z.ltb_lt. lia. Qed.

Lemma len_dict_positive d : (0 <? len (PDict d)) = nonempty d.
Proof. destruct d; simpl; [done|]. apply Z.ltb_lt. lia. Qed.

(** A leaf of the case analysis of a wrapper: the run is a value. *)
Ltac wrapper_leaf :=
  do 2 eexists; (split; [reflexivity|]);
  repeat split; try done;
  try (intros ? [= <-]; simpl;
       repeat first [ apply list_elem_of_here | apply list_elem_of_further ]).

Section import_wrappers.
Import import_to_arize.
Variables (a : args) (e : env).

Ltac list_wrapper f :=
  apply wrapper_run_intro; run_stage;
  destruct (behaviour e f) as [v|x]; simpl; [|wrapper_leaf];
  destruct (is_list v && (0 <? len v)) eqn:Hl; simpl; [|wrapper_leaf];
  destruct v as [|b|z|s|l|d]; try discriminate Hl; simpl;
  destruct (py_sum (status_is "imported") l) as [n1|x1]; simpl; [|wrapper_leaf];
  destruct (py_sum (status_is "already_exists") l) as [n2|x2]; simpl; wrapper_leaf.

Lemma import_datasets_wrapper_run :
  wrapper_run (import_datasets_wrapper a) e import_datasets "Error importing datasets: ".
Proof. unfold import_datasets_wrapper. list_wrapper import_datasets. Qed.

Lemma import_prompts_wrapper_run :
  wrapper_run (import_prompts_wrapper a) e import_prompts "Error importing prompts: ".
Proof. unfold import_prompts_wrapper. list_wrapper import_prompts. Qed.

Ltac projects_wrapper f k :=
  apply wrapper_run_intro; run_stage;
  destruct (behaviour e f) as [v|x]; simpl; [|wrapper_leaf];
  destruct (truthy v && is_dict v && has_key "projects" v) eqn:Hl; simpl;
    [|wrapper_leaf];
  destruct (py_getitem v "projects") as [projs|x0]; simpl; [|wrapper_leaf];
  destruct (py_values projs) as [ps|x1]; simpl; [|wrapper_leaf];
  destruct (py_sum one_if_success ps) as [n1|x2]; simpl; [|wrapper_leaf];
  destruct (py_sum (count_field k) ps) as [n2|x3]; simpl; wrapper_leaf.

Lemma import_evaluations_wrapper_run :
  wrapper_run (import_evaluations_wrapper a) e import_evaluations
    "Error importing evaluations: ".
Proof.
  unfold import_evaluations_wrapper.
  projects_wrapper import_evaluations "evaluations_count".
Qed.

Lemma import_annotations_wrapper_run :
  wrapper_run (import_annotations_wrapper a) e import_annotations
    "Error importing annotations: ".
Proof.
  unfold import_annotations_wrapper.
  projects_wrapper import_annotations "annotations_count".
Qed.
End import_wrappers.

(** ** What the wrappers return *)

(** A result the dataset and prompt wrappers count as a success: a
    non-empty list of per-entity dicts, one of them at least with the
    status "imported" or "already_exists". *)
Definition imported_entry (x : pyval) : bool :=
  has_status "imported" x || has_status "already_exists" x.

Definition imported_list (v : pyval) : bool :=
  match v with
  | PList l => nonempty l && forallb is_dict l && existsb imported_entry l
  | _ => false
  end.

Lemma item_weight_nonneg_status_is s x : 0 ≤ item_weight (status_is s) x.
Proof. rewrite item_weight_status_is. by destruct (has_status s x). Qed.

Lemma status_sum_value s l :
  forallb is_dict l = true →
  ∃ n, py_sum (status_is s) l = Val n ∧ 0 ≤ n ∧ (0 <? n) = existsb (has_status s) l.
Proof.
  intros Hl. eexists. split; [|split].
  - apply py_sum_from_val. by rewrite (forallb_eq _ _ l (item_ok_status_is s)).
  - rewrite Z.add_0_l. induction l as [|x l IH]; simpl in *; [done|].
    apply andb_prop in Hl as [_ Hl]. specialize (IH Hl).
    pose proof (item_weight_nonneg_status_is s x). lia.
  - rewrite Z.add_0_l, weights_positive by apply item_weight_nonneg_status_is.
    clear Hl. induction l as [|x l IH]; simpl; [done|].
    rewrite IH, item_weight_status_is. by destruct (has_status s x).
Qed.

Lemma existsb_orb {A} (f g : A → bool) l :
  existsb f l || existsb g l = existsb (λ x, f x || g x) l.
Proof.
  induction l as [|x l IH]; simpl; [done|]. rewrite <- IH.
  destruct (f x), (g x), (existsb f l), (existsb g l); done.
Qed.

Local Arguments len : simpl never.

Section wrapper_values.
Import import_to_arize.
Variables (a : args) (e : env).

Ltac list_wrapper_value f :=
  unfold wrapper_ok; run_stage;
  destruct (behaviour e f) as [v|x]; simpl; [|done];
  destruct v as [|b|z|s|l|d]; simpl; try done;
  rewrite len_list_positive;
  destruct (nonempty l) eqn:Hne; simpl; [|done];
  destruct (forallb is_dict l) eqn:Hl; simpl;
    [ destruct (status_sum_value "imported" l Hl) as (n1 & -> & Hn1 & Hp1);
      destruct (status_sum_value "already_exists" l Hl) as (n2 & -> & Hn2 & Hp2);
      simpl; unfold imported_entry; rewrite <- existsb_orb, <- Hp1, <- Hp2;
      destruct (0 <? n1) eqn:E1, (0 <? n2) eqn:E2; simpl; lia
    | pose proof (status_sum_is_val "imported" l) as H; rewrite Hl in H;
      by destruct (py_sum (status_is "imported") l) ].

Lemma import_datasets_wrapper_value :
  wrapper_ok (import_datasets_wrapper a) e
  = returns imported_list (behaviour e import_datasets).
Proof. unfold import_datasets_wrapper. list_wrapper_value import_datasets. Qed.

Lemma import_prompts_wrapper_value :
  wrapper_ok (import_prompts_wrapper a) e
  = returns imported_list (behaviour e import_prompts).
Proof. unfold import_prompts_wrapper. list_wrapper_value import_prompts. Qed.

Lemma import_evaluations_wrapper_raises x :
  behaviour e import_evaluations = Raises x →
  wrapper_ok (import_evaluations_wrapper a) e = false.
Proof.
  intros H. unfold wrapper_ok, import_evaluations_wrapper. run_stage. by rewrite H.
Qed.

Lemma import_annotations_wrapper_raises x :
  behaviour e import_annotations = Raises x →
  wrapper_ok (import_annotations_wrapper a) e = false.
Proof.
  intros H. unfold wrapper_ok, import_annotations_wrapper. run_stage. by rewrite H.
Qed.
End wrapper_values.

(** The result [import_traces_wrapper] works on: what [import_traces]
    returned or, when it raised, what the results file holds. *)
Definition traces_source (e : env) : option pyval :=
  match behaviour e import_traces with
  | Returns v => Some v
  | Raises _ =>
      match trace_results_file e with
      | Loadable v => Some v
      | _ => None
      end
  end.

(** An entry of the trace results that counts as a success: its key is not
    one of the special keys, its value is a dict with the status "imported"
    or "skipped". *)
Definition counted_project (kv : string * pyval) : bool :=
  negb (existsb (String.eqb kv.1) ["projects"; "timestamp"])
  && match kv.2 with
     | PDict d => py_in_strs (default (PStr "") (dict_lookup "status" d))
                    ["imported"; "skipped"]
     | _ => false
     end.

Definition imported_projects (v : pyval) : bool :=
  match v with
  | PDict d => existsb counted_project d
  | _ => false
  end.

Lemma count_projects_success items : ∀ s t,
  s ≤ (import_to_arize.count_projects items s t).1
  ∧ (s <? (import_to_arize.count_projects items s t).1) = existsb counted_project items.
Proof.
  induction items as [|[k v] items IH]; intros s t; simpl.
  - split; [done | apply Z.ltb_irrefl].
  - unfold counted_project at 1. simpl.
    destruct (String.eqb k "projects" || (String.eqb k "timestamp" || false)); simpl;
      [apply IH|].
    destruct v as [| | | | |d]; simpl; try apply IH.
    destruct (_ || _); simpl; [|apply IH].
    destruct (IH (s + 1) (t + 1)) as [H1 H2]. split; [lia|].
    apply Z.ltb_lt. lia.
Qed.

Section traces_wrapper.
Import import_to_arize.
Variables (a : args) (e : env).

Ltac traces_result v :=
  destruct v as [|b|z|s|l|d]; simpl; rewrite ?andb_false_r; simpl; try wrapper_leaf;
  match goal with
  | |- context [if ?c then _ else _] => destruct c; simpl; [|wrapper_leaf]
  end;
  destruct (count_projects d 0 0) as [success_count total_processed]; simpl;
  wrapper_leaf.

Lemma import_traces_wrapper_run :
  wrapper_run (import_traces_wrapper a) e import_traces
    "Error in import_traces.import_traces(): ".
Proof.
  unfold import_traces_wrapper. apply wrapper_run_intro. run_stage.
  destruct (behaviour e import_traces) as [v|x]; simpl.
  - traces_result v.
  - destruct (trace_results_file e) as [|y|v] eqn:Hfile; simpl;
      rewrite ?Hfile; simpl; [wrapper_leaf..|].
    traces_result v.
Qed.

Ltac traces_value v :=
  destruct v as [|b|z|s|l|d]; simpl; rewrite ?andb_false_r; simpl; try done;
  rewrite len_dict_positive;
  destruct (nonempty d) eqn:Hne; simpl; [|by destruct d];
  destruct (count_projects_success d 0 0) as [_ <-];
  by destruct (count_projects d 0 0).

Lemma import_traces_wrapper_value :
  wrapper_ok (import_traces_wrapper a) e
  = match traces_source e with
    | Some v => imported_projects v
    | None => false
    end.
Proof.
  unfold wrapper_ok, traces_source, import_traces_wrapper. run_stage.
  destruct (behaviour e import_traces) as [v|x]; simpl.
  - traces_value v.
  - destruct (trace_results_file e) as [|y|v] eqn:Hfile; simpl;
      rewrite ?Hfile; simpl; try done.
    traces_value v.
Qed.
End traces_wrapper.

(** ** The stages of the import *)

Section import_frames.
Import import_to_arize.
Variable a : args.

Lemma framed_import_datasets_wrapper : framed (import_datasets_wrapper a).
Proof. unfold import_datasets_wrapper. solve_framed. Qed.

Lemma framed_import_prompts_wrapper : framed (import_prompts_wrapper a).
Proof. unfold import_prompts_wrapper. solve_framed. Qed.

Lemma framed_import_traces_wrapper : framed (import_traces_wrapper a).
Proof. unfold import_traces_wrapper. solve_framed. Qed.

Lemma framed_import_evaluations_wrapper : framed (import_evaluations_wrapper a).
Proof. unfold import_evaluations_wrapper. solve_framed. Qed.

Lemma framed_import_annotations_wrapper : framed (import_annotations_wrapper a).
Proof. unfold import_annotations_wrapper. solve_framed. Qed.

Lemma framed_record n ok : framed (record n ok).
Proof. unfold record. solve_framed. Qed.
End import_frames.

#[export] Hint Resolve framed_import_datasets_wrapper framed_import_prompts_wrapper
  framed_import_traces_wrapper framed_import_evaluations_wrapper
  framed_import_annotations_wrapper framed_record : framed.

(** A stage of the import that runs one wrapper. *)
Lemma import_stage_report (m : M bool) (e : env) req step n f err :
  framed m → wrapper_run m e f err →
  stage_report
    (when req (logger INFO step;; ok ← m; import_to_arize.record n ok) e ∅w)
    req (wrapper_ok m e) f n (behaviour e f) err.
Proof.
  intros Hm (t & Hrun & Hc & Hp & Hlog).
  destruct req; [|by split].
  cbv [when logger emit mbind M_bind empty_world initial_world]. simpl.
  rewrite (Hm e), Hrun. simpl.
  destruct (wrapper_ok m e); simpl; (split; simpl; rewrite ?Hc, ?Hp; try done);
    intros x _ Hx; apply list_elem_of_further; by apply Hlog.
Qed.

Definition setup_ok (e : env) : bool :=
  match behaviour e setup_annotations_main with
  | Returns _ => true
  | Raises _ => false
  end.

Section setup_wrapper.
Import import_to_arize.
Variables (a : args) (e : env).

(** The setup guide: [sys.argv] is set for the call and put back after it,
    whether the guide returns or raises. *)
Lemma setup_annotations_wrapper_run :
  ∃ t, (∀ w, setup_annotations_wrapper a e w = (Ok (setup_ok e), combine w (delta_trace t)))
       ∧ calls t = [setup_annotations_main] ∧ prompts_asked t = []
       ∧ ∀ x, behaviour e setup_annotations_main = Raises x →
              Log ERROR ("Error setting up annotations: " +:+ x) ∈ t.
Proof.
  unfold setup_annotations_wrapper, setup_ok.
  cbv [try_except try_finally logger emit call mbind M_bind mret M_ret
       get_argv set_argv cooperative env_of exits exit_of].
  destruct (behaviour e setup_annotations_main) as [v|x]; simpl.
  - exists [Call setup_annotations_main]. split; [|done].
    intros w. unfold combine. simpl. by rewrite !app_nil_r.
  - exists [Call setup_annotations_main;
            Log ERROR ("Error setting up annotations: " +:+ x)].
    split; [|repeat split; try done].
    + intros w. unfold combine. simpl. by rewrite !app_nil_r, <- app_assoc.
    + intros ? [= <-]. apply list_elem_of_further, list_elem_of_here.
Qed.

End setup_wrapper.

Lemma framed_setup_annotations_wrapper a :
  framed (import_to_arize.setup_annotations_wrapper a).
Proof.
  intros s w. unfold import_to_arize.setup_annotations_wrapper.
  cbv [try_except try_finally logger emit call mbind M_bind mret M_ret
       get_argv set_argv].
  destruct (exit_of (exits s) setup_annotations_main);
    [|destruct (behaviour (env_of s) setup_annotations_main)];
    unfold combine; simpl; by rewrite ?app_nil_r, <- ?app_assoc.
Qed.

#[export] Hint Resolve framed_setup_annotations_wrapper : framed.

(** ** Stepping through a computation

    A computation is run one statement at a time; each statement adds a
    [delta] to the world. *)

Definition delta (t : list event) (s f : list string) : world :=
  {| trace := t; sys_argv := []; successful := s; failed := f |}.

Lemma run_ok {A B} (m : M A) (k : A → M B) e w a w' :
  m e w = (Ok a, w') → (m ≫= k) e w = k a e w'.
Proof. intros H. unfold mbind, M_bind. by rewrite H. Qed.

Lemma emit_run ev e w : emit ev e w = (Ok (), combine w (delta [ev] [] [])).
Proof. unfold emit, combine. simpl. by rewrite !app_nil_r. Qed.

Lemma makedirs_run path (e : env) w :
  makedirs path e w = (Ok (), combine w (delta [MakeDirs path] [] [])).
Proof. apply emit_run. Qed.

Lemma logger_run lvl msg e w : logger lvl msg e w = (Ok (), combine w (delta [Log lvl msg] [] [])).
Proof. apply emit_run. Qed.

Lemma print_run msg e w : print msg e w = (Ok (), combine w (delta [Print msg] [] [])).
Proof. apply emit_run. Qed.

Lemma input_run p (e : env) w : input p e w = (Ok (answer e p), combine w (delta [Input p] [] [])).
Proof. unfold input, emit, combine. simpl. by rewrite !app_nil_r. Qed.

Lemma successful_append_run n e w :
  successful_append n e w = (Ok (), combine w (delta [] [n] [])).
Proof. unfold successful_append, combine. simpl. by rewrite !app_nil_r. Qed.

Lemma failed_append_run n e w :
  failed_append n e w = (Ok (), combine w (delta [] [] [n])).
Proof. unfold failed_append, combine. simpl. by rewrite !app_nil_r. Qed.

Lemma bind_assoc_run {A B C} (m : M A) (k1 : A → M B) (k2 : B → M C) e w :
  ((m ≫= k1) ≫= k2) e w = (m ≫= (λ a, k1 a ≫= k2)) e w.
Proof. unfold mbind, M_bind. by destruct (m e w) as [[]]. Qed.

(** Runs the next statement of the computation in the goal. *)
Ltac step :=
  first
    [ rewrite bind_assoc_run
    | rewrite (run_ok _ _ _ _ _ _ (logger_run _ _ _ _))
    | rewrite (run_ok _ _ _ _ _ _ (print_run _ _ _))
    | rewrite (run_ok _ _ _ _ _ _ (input_run _ _ _))
    | rewrite (run_ok _ _ _ _ _ _ (successful_append_run _ _ _))
    | rewrite (run_ok _ _ _ _ _ _ (failed_append_run _ _ _))
    | rewrite logger_run | rewrite print_run
    | rewrite successful_append_run | rewrite failed_append_run ];
  cbv beta iota zeta.

(** Finds an event in a trace built from appended pieces. *)
Ltac find_in :=
  first
    [ assumption
    | apply list_elem_of_here
    | apply elem_of_app; left; find_in
    | apply elem_of_app; right; find_in
    | apply list_elem_of_further; find_in ].

Lemma combine_delta t s f t' s' f' :
  combine (delta t s f) (delta t' s' f') = delta (t ++ t') (s ++ s') (f ++ f').
Proof. done. Qed.

Lemma delta_trace_delta t : delta_trace t = delta t [] [].
Proof. done. Qed.

(** Refutes membership in a known list that lacks the element. *)
Ltac absurd_in H :=
  repeat (apply elem_of_cons in H as [?|H]; [done|]); by apply elem_of_nil in H.

(** Names the world reached as one [delta]. *)
Ltac settle :=
  change ∅w with (delta [] [] []); rewrite ?delta_trace_delta, !combine_delta;
  eexists; (split; [reflexivity|]).

(** The operator's answer to a prompt, as the scripts read it. *)
Definition yes (e : env) (p : prompt) : bool :=
  import_to_arize.confirmed (lower (answer e p)).

Section import_stages.
Import import_to_arize.
Variables (a : args) (e : env).

Lemma import_datasets_report :
  stage_report (datasets_stage a e ∅w) (all a || datasets a)
    (wrapper_ok (import_datasets_wrapper a) e) import_datasets "datasets"
    (behaviour e import_datasets) "Error importing datasets: ".
Proof.
  apply import_stage_report;
    [apply framed_import_datasets_wrapper | apply import_datasets_wrapper_run].
Qed.

Lemma import_prompts_report :
  stage_report (prompts_stage a e ∅w) (all a || prompts a)
    (wrapper_ok (import_prompts_wrapper a) e) import_prompts "prompts"
    (behaviour e import_prompts) "Error importing prompts: ".
Proof.
  apply import_stage_report;
    [apply framed_import_prompts_wrapper | apply import_prompts_wrapper_run].
Qed.

Lemma import_traces_report :
  stage_report (traces_stage a e ∅w) (all a || traces a)
    (wrapper_ok (import_traces_wrapper a) e) import_traces "traces"
    (behaviour e import_traces) "Error in import_traces.import_traces(): ".
Proof.
  apply import_stage_report;
    [apply framed_import_traces_wrapper | apply import_traces_wrapper_run].
Qed.

Lemma import_evaluations_report :
  stage_report (evaluations_stage a e ∅w) (all a || evaluations a)
    (wrapper_ok (import_evaluations_wrapper a) e) import_evaluations "evaluations"
    (behaviour e import_evaluations) "Error importing evaluations: ".
Proof.
  apply import_stage_report;
    [apply framed_import_evaluations_wrapper | apply import_evaluations_wrapper_run].
Qed.

Lemma framed_import_datasets_stage : framed (datasets_stage a).
Proof. unfold datasets_stage. solve_framed. Qed.

Lemma framed_import_prompts_stage : framed (prompts_stage a).
Proof. unfold prompts_stage. solve_framed. Qed.

Lemma framed_import_traces_stage : framed (traces_stage a).
Proof. unfold traces_stage. solve_framed. Qed.

Lemma framed_import_evaluations_stage : framed (evaluations_stage a).
Proof. unfold evaluations_stage. solve_framed. Qed.

Lemma framed_import_annotations_stage : framed (annotations_stage a).
Proof. unfold annotations_stage. solve_framed. Qed.

(** The pause: the operator is asked exactly when the traces are among the
    successful imports and the evaluations are requested; a negative
    answer is logged as a warning and clears two flags. *)
Lemma ingestion_pause_run w :
  let asked := existsb (String.eqb "traces") (successful w) && (all a || evaluations a) in
  ∃ t, ingestion_pause a e w
       = (Ok (if asked && negb (yes e TracesVisible)
              then clear_evaluations_and_all a else a),
          combine w (delta_trace t))
     ∧ calls t = []
     ∧ prompts_asked t = (if asked then [TracesVisible] else [])
     ∧ (asked = true → yes e TracesVisible = false →
        Log WARNING "Evaluation import skipped. Please wait for traces to be fully ingested."
          ∈ t).
Proof.
  unfold ingestion_pause, yes.
  unfold mbind at 1, M_bind at 1, get_successful at 1.
  destruct (existsb (String.eqb "traces") (successful w) && (all a || evaluations a)).
  - repeat step.
    destruct (confirmed (lower (answer e TracesVisible))); cbn [negb andb];
      repeat step; unfold mret, M_ret; rewrite !combine_assoc;
      eexists; (split; [reflexivity|]); cbn [combine delta trace app];
      repeat split; try reflexivity.
    + done.
    + intros _ _. find_in.
  - exists []. unfold mret, M_ret. rewrite combine_empty_r. done.
Qed.
End import_stages.

(** Steps 5 to 7, as functions of the flags, of the operator's answer and of
    what the guide and the importer do. *)
Section annotations_stage.
Import import_to_arize.
Variables (a : args) (e : env).

Definition annotation_calls : list extfun :=
  if all a || annotations a then
    setup_annotations_main
    :: (if yes e AnnotationsConfigured then [import_annotations] else [])
  else if setup_annotations a then [setup_annotations_main]
  else [].

Definition annotation_prompts : list prompt :=
  if all a || annotations a then [AnnotationsConfigured] else [].

Definition annotation_successful : list string :=
  if all a || annotations a then
    if yes e AnnotationsConfigured && wrapper_ok (import_annotations_wrapper a) e
    then ["annotations"] else []
  else if setup_annotations a then
    if setup_ok e then ["annotation setup"] else []
  else [].

Definition annotation_failed : list string :=
  if all a || annotations a then
    (if setup_ok e then [] else ["annotation setup"])
    ++ (if yes e AnnotationsConfigured
           && negb (wrapper_ok (import_annotations_wrapper a) e)
        then ["annotations"] else [])
  else if setup_annotations a then
    if setup_ok e then [] else ["annotation setup"]
  else [].

Lemma import_annotations_stage_delta :
  ∃ t, annotations_stage a e ∅w = (Ok (), delta t annotation_successful annotation_failed)
    ∧ calls t = annotation_calls
    ∧ prompts_asked t = annotation_prompts
    ∧ (∀ x, setup_annotations_main ∈ annotation_calls →
            behaviour e setup_annotations_main = Raises x →
            Log ERROR ("Error setting up annotations: " +:+ x) ∈ t)
    ∧ (∀ x, import_annotations ∈ annotation_calls →
            behaviour e import_annotations = Raises x →
            Log ERROR ("Error importing annotations: " +:+ x) ∈ t)
    ∧ (all a || annotations a = true → yes e AnnotationsConfigured = false →
       Log WARNING "Annotation import skipped. Please configure annotations in Arize UI first."
         ∈ t).
Proof.
  destruct (setup_annotations_wrapper_run a e) as (ts & Hs & Hsc & Hsp & Hsl).
  destruct (import_annotations_wrapper_run a e) as (ti & Hi & Hic & Hip & Hil).
  pose proof (framed_import_annotations_wrapper a e) as Hframe.
  rewrite Hi in Hframe. cbn [fst snd] in Hframe.
  unfold annotations_stage, annotation_calls, annotation_prompts,
    annotation_successful, annotation_failed, yes.
  destruct (all a || annotations a); [|destruct (setup_annotations a)].
  - repeat step. rewrite (run_ok _ _ _ _ _ _ (Hs _)).
    destruct (setup_ok e); cbv beta iota zeta; repeat step;
      (destruct (confirmed (lower (answer e AnnotationsConfigured)));
       [ step; rewrite (run_ok _ _ _ _ _ _ (Hframe _)); unfold record;
         destruct (wrapper_ok (import_annotations_wrapper a) e)
       | ]);
      repeat step; settle;
      rewrite ?calls_app, ?prompts_asked_app, ?Hsc, ?Hsp, ?Hic, ?Hip;
      (split; [reflexivity|]); (split; [reflexivity|]);
      (split; [intros x _ Hx; specialize (Hsl x Hx); find_in|]);
      (split; [intros x Hin Hx;
               first [ absurd_in Hin | specialize (Hil x Hx); find_in ]|]);
      intros _ Hno; first [ discriminate Hno | find_in ].
  - rewrite (run_ok _ _ _ _ _ _ (logger_run _ _ _ _)). cbv beta.
    rewrite (run_ok _ _ _ _ _ _ (Hs _)). unfold record.
    destruct (setup_ok e); cbv beta iota zeta; repeat step; settle;
      rewrite ?calls_app, ?prompts_asked_app, ?Hsc, ?Hsp;
      (split; [reflexivity|]); (split; [reflexivity|]);
      (split; [intros x _ Hx; specialize (Hsl x Hx); find_in|]);
      (split; [intros x Hin; absurd_in Hin|]);
      done.
  - exists []. repeat split; try done; intros x Hin; by apply elem_of_nil in Hin.
Qed.

Lemma import_annotations_stage_run :
  let r := annotations_stage a e ∅w in
  r.1 = Ok ()
  ∧ calls (trace r.2) = annotation_calls
  ∧ prompts_asked (trace r.2) = annotation_prompts
  ∧ successful r.2 = annotation_successful
  ∧ failed r.2 = annotation_failed
  ∧ (∀ x, setup_annotations_main ∈ annotation_calls →
          behaviour e setup_annotations_main = Raises x →
          Log ERROR ("Error setting up annotations: " +:+ x) ∈ trace r.2)
  ∧ (∀ x, import_annotations ∈ annotation_calls →
          behaviour e import_annotations = Raises x →
          Log ERROR ("Error importing annotations: " +:+ x) ∈ trace r.2)
  ∧ (all a || annotations a = true → yes e AnnotationsConfigured = false →
     Log WARNING "Annotation import skipped. Please configure annotations in Arize UI first."
       ∈ trace r.2).
Proof.
  destruct import_annotations_stage_delta as (t & -> & Hc & Hp & H1 & H2 & H3).
  simpl. done.
Qed.
End annotations_stage.

(** ** The import as a whole *)

Lemma run_report_quiet d W : quiet_step d W → run_report W d.
Proof.
  intros H. split.
  - by apply quiet_step_calls.
  - by apply quiet_step_prompts.
  - by apply quiet_step_successful.
  - by apply quiet_step_failed.
  - intros ev. by apply quiet_step_elem_of.
Qed.

Section import_run.
Import import_to_arize.
Variables (a : args) (e : env).

(** The first three stages in the order of [main]. *)
Definition import_head_plan : list stage_desc :=
  [ {| sd_req := all a || datasets a; sd_fun := import_datasets;
       sd_name := "datasets"; sd_err := "Error importing datasets: " |};
    {| sd_req := all a || prompts a; sd_fun := import_prompts;
       sd_name := "prompts"; sd_err := "Error importing prompts: " |};
    {| sd_req := all a || traces a; sd_fun := import_traces;
       sd_name := "traces"; sd_err := "Error in import_traces.import_traces(): " |} ].

Definition import_ok (f : extfun) : bool :=
  match f with
  | import_datasets => wrapper_ok (import_datasets_wrapper a) e
  | import_prompts => wrapper_ok (import_prompts_wrapper a) e
  | import_traces => wrapper_ok (import_traces_wrapper a) e
  | import_evaluations => wrapper_ok (import_evaluations_wrapper a) e
  | import_annotations => wrapper_ok (import_annotations_wrapper a) e
  | _ => false
  end.

(** "traces" is among the successful imports when the pause is reached. *)
Definition traces_imported : bool :=
  (all a || traces a) && wrapper_ok (import_traces_wrapper a) e.

Definition pause_asked : bool :=
  traces_imported && (all a || evaluations a).

(** The namespace after the pause. *)
Definition after_pause : args :=
  if pause_asked && negb (yes e TracesVisible) then clear_evaluations_and_all a else a.

Definition evaluations_plan (a' : args) : list stage_desc :=
  [ {| sd_req := all a' || evaluations a'; sd_fun := import_evaluations;
       sd_name := "evaluations"; sd_err := "Error importing evaluations: " |} ].

Definition import_calls : list extfun :=
  calls_of import_head_plan ++ calls_of (evaluations_plan after_pause)
  ++ annotation_calls after_pause e.

Definition import_prompts_asked : list prompt :=
  (if pause_asked then [TracesVisible] else []) ++ annotation_prompts after_pause.

Definition import_successful : list string :=
  successful_of import_head_plan import_ok
  ++ successful_of (evaluations_plan after_pause) import_ok
  ++ annotation_successful after_pause e.

Definition import_failed : list string :=
  failed_of import_head_plan import_ok
  ++ failed_of (evaluations_plan after_pause) import_ok
  ++ annotation_failed after_pause e.

Lemma import_stages_run argv :
  let r := stages a e (initial_world argv) in
  r.1 = Ok after_pause
  ∧ calls (trace r.2) = import_calls
  ∧ prompts_asked (trace r.2) = import_prompts_asked
  ∧ successful r.2 = import_successful
  ∧ failed r.2 = import_failed
  ∧ (∀ s x, s ∈ import_head_plan ++ evaluations_plan after_pause →
       sd_req s = true → behaviour e (sd_fun s) = Raises x →
       Log ERROR (sd_err s +:+ x) ∈ trace r.2)
  ∧ (∀ x, setup_annotations_main ∈ annotation_calls after_pause e →
          behaviour e setup_annotations_main = Raises x →
          Log ERROR ("Error setting up annotations: " +:+ x) ∈ trace r.2)
  ∧ (∀ x, import_annotations ∈ annotation_calls after_pause e →
          behaviour e import_annotations = Raises x →
          Log ERROR ("Error importing annotations: " +:+ x) ∈ trace r.2)
  ∧ (pause_asked = true → yes e TracesVisible = false →
     Log WARNING "Evaluation import skipped. Please wait for traces to be fully ingested."
       ∈ trace r.2).
Proof.
  pose proof (framed_value (datasets_stage a) e (framed_import_datasets_stage a)) as E1.
  pose proof (framed_value (prompts_stage a) e (framed_import_prompts_stage a)) as E2.
  pose proof (framed_value (traces_stage a) e (framed_import_traces_stage a)) as E3.
  pose proof (framed_value (evaluations_stage after_pause) e
                (framed_import_evaluations_stage after_pause)) as E4.
  pose proof (framed_value (annotations_stage after_pause) e
                (framed_import_annotations_stage after_pause)) as E5.
  destruct (import_datasets_report a e) as [o1 c1 p1 s1 f1 l1].
  destruct (import_prompts_report a e) as [o2 c2 p2 s2 f2 l2].
  destruct (import_traces_report a e) as [o3 c3 p3 s3 f3 l3].
  destruct (import_evaluations_report after_pause e) as [o4 c4 p4 s4 f4 l4].
  destruct (import_annotations_stage_run after_pause e)
    as (o5 & c5 & p5 & s5 & f5 & l5 & l6 & _).
  destruct (datasets_stage a e ∅w) as [r1 d1].
  destruct (prompts_stage a e ∅w) as [r2 d2].
  destruct (traces_stage a e ∅w) as [r3 d3].
  destruct (evaluations_stage after_pause e ∅w) as [r4 d4].
  destruct (annotations_stage after_pause e ∅w) as [r5 d5].
  cbn [fst snd] in *. subst r1 r2 r3 r4 r5.
  set (w3 := combine (combine (combine (initial_world argv) d1) d2) d3).
  destruct (ingestion_pause_run a e w3) as (tp & Hp & cp & pp & lp).
  assert (existsb (String.eqb "traces") (successful w3) = traces_imported) as Htr.
  { unfold w3, traces_imported. cbn [combine successful initial_world app].
    rewrite s1, s2, s3.
    destruct (all a || datasets a), (all a || prompts a), (all a || traces a),
      (wrapper_ok (import_datasets_wrapper a) e),
      (wrapper_ok (import_prompts_wrapper a) e),
      (wrapper_ok (import_traces_wrapper a) e); done. }
  cbv zeta in Hp, pp, lp. rewrite Htr in Hp, pp, lp.
  fold pause_asked in Hp, pp, lp. fold after_pause in Hp.
  assert (stages a e (initial_world argv)
          = (Ok after_pause,
             combine (combine (combine w3 (delta_trace tp)) d4) d5)) as Heq.
  { unfold stages.
    rewrite (run_ok _ _ _ _ _ _ (E1 _ _ eq_refl)), (run_ok _ _ _ _ _ _ (E2 _ _ eq_refl)),
      (run_ok _ _ _ _ _ _ (E3 _ _ eq_refl)).
    fold w3. rewrite (run_ok _ _ _ _ _ _ Hp).
    by rewrite (run_ok _ _ _ _ _ _ (E4 _ _ eq_refl)), (run_ok _ _ _ _ _ _ (E5 _ _ eq_refl)). }
  cbv zeta. rewrite Heq. unfold w3.
  cbn [fst snd combine trace successful failed initial_world delta_trace delta app].
  rewrite !calls_app, !prompts_asked_app, c1, c2, c3, c4, c5, p1, p2, p3, p4, p5,
    s1, s2, s3, s4, s5, f1, f2, f3, f4, f5, cp, pp.
  unfold import_calls, import_prompts_asked, import_successful, import_failed,
    calls_of, successful_of, failed_of, import_head_plan, evaluations_plan, import_ok.
  cbn [flat_map sd_req sd_fun sd_name app].
  rewrite !app_nil_r, <- !app_assoc.
  split; [done|]. split; [done|]. split; [done|]. split; [done|]. split; [done|].
  split; [|split; [|split]].
  - intros s x Hs Hreq Hx. cbn [app] in Hs.
    rewrite !elem_of_cons in Hs.
    destruct Hs as [->|[->|[->|[->|Hs]]]]; cbn [sd_req sd_fun sd_err] in *;
      [ | | | | by apply elem_of_nil in Hs ].
    + specialize (l1 x Hreq Hx). find_in.
    + specialize (l2 x Hreq Hx). find_in.
    + specialize (l3 x Hreq Hx). find_in.
    + specialize (l4 x Hreq Hx). find_in.
  - intros x Hin Hx. specialize (l5 x Hin Hx). find_in.
  - intros x Hin Hx. specialize (l6 x Hin Hx). find_in.
  - intros Hasked Hno. specialize (lp Hasked Hno). find_in.
Qed.

Lemma import_summary_run w :
  (summary e w).1 = (if nonempty (failed w) then SysExit 1 else Ok ())
  ∧ quiet_step w (summary e w).2.
Proof.
  unfold summary.
  cbv [mbind M_bind print logger emit get_successful get_failed when sys_exit
       mret M_ret].
  destruct (successful w) as [|s ss] eqn:Hs, (failed w) as [|f fs] eqn:Hf; simpl;
    (split; [done|]); quiet_events.
Qed.

(** A run that passes the checks of [main]: its stages, then the summary. *)
Lemma import_run_report :
  missing (api_key a) = false → missing (space_id a) = false →
  any_selected a = true →
  (run a e).1 = (if nonempty import_failed then SysExit 1 else Ok ())
  ∧ run_report (run a e).2 (stages a e (initial_world ["import_to_arize.py"])).2.
Proof.
  intros Hkey Hspace Hany.
  destruct (import_stages_run ["import_to_arize.py"]) as (Hok & _ & _ & _ & Hfailed & _).
  unfold run, main. rewrite Hkey, Hspace, Hany. cbn [negb].
  destruct (stages a e (initial_world ["import_to_arize.py"])) as [r D] eqn:Hstages.
  cbn [fst snd] in Hok, Hfailed. subst r.
  rewrite (run_ok _ _ _ _ _ _ Hstages).
  destruct (import_summary_run D) as [H1 H2].
  split.
  - by rewrite H1, Hfailed.
  - by apply run_report_quiet.
Qed.
End import_run.

(** * The two scripts side by side *)

(** An invocation of one of the two scripts with its parsed arguments. *)
Inductive invocation :=
| ExportRun (a : export_all_projects.args)
| ImportRun (a : import_to_arize.args).

Definition run_script (i : invocation) (s : setting) : result unit * world :=
  match i with
  | ExportRun a => export_all_projects.run a s
  | ImportRun a => import_to_arize.run a s
  end.

(** A required argument is missing: the Phoenix base URL for the export, the
    Arize API key or the space ID for the import. *)
Definition missing_required (i : invocation) : bool :=
  match i with
  | ExportRun a => missing (export_all_projects.base_url a)
  | ImportRun a =>
      missing (import_to_arize.api_key a) || missing (import_to_arize.space_id a)
  end.

(** At least one stage is requested. *)
Definition stage_selected (i : invocation) : bool :=
  match i with
  | ExportRun a => export_all_projects.any_selected a
  | ImportRun a => import_to_arize.any_selected a
  end.

(** The flags request the stage filed under the name [n]. *)
Definition requested_stage (i : invocation) (n : string) : bool :=
  match i with
  | ExportRun a =>
      existsb (λ s, sd_req s && String.eqb (sd_name s) n) (export_plan a)
  | ImportRun a =>
      let all := import_to_arize.all a in
      if String.eqb n "datasets" then all || import_to_arize.datasets a
      else if String.eqb n "prompts" then all || import_to_arize.prompts a
      else if String.eqb n "traces" then all || import_to_arize.traces a
      else if String.eqb n "evaluations" then all || import_to_arize.evaluations a
      else if String.eqb n "annotations" then all || import_to_arize.annotations a
      else if String.eqb n "annotation setup" then
        all || import_to_arize.annotations a || import_to_arize.setup_annotations a
      else false
  end.


(** The functions the stages call, in the order of [main]. *)
Definition stage_order (i : invocation) : list extfun :=
  match i with
  | ExportRun _ =>
      [export_datasets; export_prompts; export_traces; export_annotations;
       export_evaluations]
  | ImportRun _ =>
      [import_datasets; import_prompts; import_traces; import_evaluations;
       setup_annotations_main; import_annotations]
  end.


(** ** Membership in the lists a plan gives *)

Lemma elem_of_calls_of plan f :
  f ∈ calls_of plan ↔ ∃ s, s ∈ plan ∧ sd_req s = true ∧ sd_fun s = f.
Proof.
  unfold calls_of. rewrite list_elem_of_In, in_flat_map. split.
  - intros (s & Hs & Hf). exists s. rewrite list_elem_of_In. split; [done|].
    destruct (sd_req s); [|done]. destruct Hf as [<-|[]]. done.
  - intros (s & Hs & Hreq & <-). exists s. rewrite <- list_elem_of_In, Hreq.
    split; [done | by left].
Qed.

Lemma elem_of_successful_of plan ok n :
  n ∈ successful_of plan ok
  ↔ ∃ s, s ∈ plan ∧ sd_req s = true ∧ ok (sd_fun s) = true ∧ sd_name s = n.
Proof.
  unfold successful_of. rewrite list_elem_of_In, in_flat_map. split.
  - intros (s & Hs & Hn). exists s. rewrite list_elem_of_In. split; [done|].
    destruct (sd_req s), (ok (sd_fun s)); try done. destruct Hn as [<-|[]]. done.
  - intros (s & Hs & Hreq & Hok & <-). exists s. rewrite <- list_elem_of_In, Hreq, Hok.
    split; [done | by left].
Qed.

Lemma elem_of_failed_of plan ok n :
  n ∈ failed_of plan ok
  ↔ ∃ s, s ∈ plan ∧ sd_req s = true ∧ ok (sd_fun s) = false ∧ sd_name s = n.
Proof.
  unfold failed_of. rewrite list_elem_of_In, in_flat_map. split.
  - intros (s & Hs & Hn). exists s. rewrite list_elem_of_In. split; [done|].
    destruct (sd_req s), (ok (sd_fun s)); try done. destruct Hn as [<-|[]]. done.
  - intros (s & Hs & Hreq & Hok & <-). exists s. rewrite <- list_elem_of_In, Hreq, Hok.
    split; [done | by left].
Qed.

Lemma nonempty_elem_of {A} (l : list A) : nonempty l = true ↔ ∃ x, x ∈ l.
Proof.
  destruct l as [|x l]; simpl; split; try done.
  - intros [x Hx]. by apply elem_of_nil in Hx.
  - intros _. exists x. apply list_elem_of_here.
Qed.

(** The stages of the export have different names. *)
Lemma export_plan_name_inj a s s' :
  s ∈ export_plan a → s' ∈ export_plan a → sd_name s = sd_name s' → s = s'.
Proof.
  unfold export_plan. rewrite !elem_of_cons.
  intros [->|[->|[->|[->|[->|H]]]]] [->|[->|[->|[->|[->|H']]]]];
    try done; try (by apply elem_of_nil in H); by apply elem_of_nil in H'.
Qed.

(** ** Sample inputs *)

(** An environment in which every exporter and importer returns [v], the
    operator answers [ans] to both prompts, and no results file exists. *)
Definition uniform_env (v : pyval) (ans : string) : env :=
  {| behaviour := λ _, Returns v;
     answer := λ _, ans;
     trace_results_file := Absent;
     path_exists := λ _, false;
     abspath := λ s, "/work/" +:+ s |}.

(** [e] with the outcome of [f] replaced by [o]. *)
Definition with_behaviour (e : env) (f : extfun) (o : outcome) : env :=
  {| behaviour := λ g, if decide (g = f) then o else behaviour e g;
     answer := answer e;
     trace_results_file := trace_results_file e;
     path_exists := path_exists e;
     abspath := abspath e |}.

Definition with_results_file (e : env) (file : results_file) : env :=
  {| behaviour := behaviour e;
     answer := answer e;
     trace_results_file := file;
     path_exists := path_exists e;
     abspath := abspath e |}.

(** Export arguments with a base URL and the flags given, in the order
    all, datasets, prompts, projects, traces, annotations, evaluations. *)
Definition export_args (url : option string)
    (all datasets prompts projects traces annotations evaluations : bool)
    : export_all_projects.args :=
  {| export_all_projects.base_url := url;
     export_all_projects.api_key := None;
     export_all_projects.verbose := false;
     export_all_projects.export_dir := "phoenix_export";
     export_all_projects.project := None;
     export_all_projects.all := all;
     export_all_projects.datasets := datasets;
     export_all_projects.prompts := prompts;
     export_all_projects.projects := projects;
     export_all_projects.traces := traces;
     export_all_projects.annotations := annotations;
     export_all_projects.evaluations := evaluations |}.

(** Import arguments with the credentials and the flags given, in the order
    all, datasets, prompts, traces, evaluations, annotations,
    setup_annotations. *)
Definition import_args (key space : option string)
    (all datasets prompts traces evaluations annotations setup : bool)
    : import_to_arize.args :=
  {| import_to_arize.api_key := key;
     import_to_arize.space_id := space;
     import_to_arize.developer_key := None;
     import_to_arize.export_dir := "phoenix_export";
     import_to_arize.verbose := false;
     import_to_arize.all := all;
     import_to_arize.datasets := datasets;
     import_to_arize.traces := traces;
     import_to_arize.annotations := annotations;
     import_to_arize.evaluations := evaluations;
     import_to_arize.prompts := prompts;
     import_to_arize.setup_annotations := setup |}.

(** A trace result with one imported project. *)
Definition one_imported_project : pyval :=
  PDict [("demo", PDict [("status", PStr "imported")])].

(** * The claims *)

(** ** Missing required arguments *)

(** C1, as amended.  When a required argument is missing (import: no API
    key or no space ID; export: no base URL), [main] logs one error record
    and returns: nothing else is in the trace, so no exporter or importer is
    called and no stage runs, and the process ends with exit status 0 (not 1:
    [main] returns, it does not call [sys.exit]). *)
Theorem missing_argument_returns_early (i : invocation) (e : env) :
  missing_required i = true →
  let r := run_script i e in
  (∃ msg, trace r.2 = [Log ERROR msg])
  ∧ calls (trace r.2) = []
  ∧ successful r.2 = [] ∧ failed r.2 = []
  ∧ r.1 = Ok () ∧ exit_code r.1 = 0.
Proof.
  destruct i as [a|a]; simpl; intros Hmissing.
  - unfold export_all_projects.run, export_all_projects.main. rewrite Hmissing.
    simpl. eauto 10.
  - unfold import_to_arize.run, import_to_arize.main.
    destruct (missing (import_to_arize.api_key a)); simpl in *.
    + eauto 10.
    + rewrite Hmissing. simpl. eauto 10.
Qed.

Lemma missing_argument_returns_early_witness :
  missing_required (ImportRun (import_args (Some "key") None true false false false false false false)) = true
  ∧ let r := run_script
               (ImportRun (import_args (Some "key") None true false false false false false false))
               (uniform_env PNone "yes") in
    (∃ msg, trace r.2 = [Log ERROR msg])
    ∧ calls (trace r.2) = []
    ∧ successful r.2 = [] ∧ failed r.2 = []
    ∧ r.1 = Ok () ∧ exit_code r.1 = 0.
Proof.
  split; [reflexivity|].
  apply (missing_argument_returns_early
           (ImportRun (import_args (Some "key") None true false false false false false false))
           (uniform_env PNone "yes")).
  reflexivity.
Defined.

(** C1 as stated fails: an import without an API key ends with exit
    status 0, not 1. *)
Lemma missing_api_key_exit_status :
  missing_required (ImportRun (import_args None (Some "space") true false false false false false false)) = true
  ∧ exit_code (run_script
                 (ImportRun (import_args None (Some "space") true false false false false false false))
                 (uniform_env PNone "yes")).1 = 0
  ∧ exit_code (run_script
                 (ImportRun (import_args None (Some "space") true false false false false false false))
                 (uniform_env PNone "yes")).1 ≠ 1.
Proof. repeat split; done. Qed.

(** ** The exit status *)

Lemma exit_code_nonzero {A} (l : list A) :
  exit_code (if nonempty l then SysExit 1 else Ok ()) ≠ 0 ↔ ∃ x, x ∈ l.
Proof. rewrite <- nonempty_elem_of. destruct l; simpl; split; done. Qed.

(** The pause only ever clears flags. *)
Lemma after_pause_flags a (e : env) :
  let a' := after_pause a e in
  (import_to_arize.all a' = true → import_to_arize.all a = true)
  ∧ (import_to_arize.evaluations a' = true → import_to_arize.evaluations a = true)
  ∧ import_to_arize.annotations a' = import_to_arize.annotations a
  ∧ import_to_arize.setup_annotations a' = import_to_arize.setup_annotations a.
Proof.
  unfold after_pause. destruct (pause_asked a e && negb (yes e TracesVisible)); simpl; done.
Qed.

Lemma export_failed_requested a (e : env) n :
  n ∈ failed_of (export_plan a) (export_ok e) → requested_stage (ExportRun a) n = true.
Proof.
  rewrite elem_of_failed_of. intros (s & Hs & Hreq & _ & <-).
  unfold requested_stage. apply existsb_exists. exists s.
  rewrite <- list_elem_of_In, Hreq, String.eqb_refl. done.
Qed.

Lemma import_failed_requested a (e : env) n :
  n ∈ import_failed a e → requested_stage (ImportRun a) n = true.
Proof.
  destruct (after_pause_flags a e) as (Hall & Heval & Hann & Hsetup).
  unfold import_failed. rewrite !elem_of_app, !elem_of_failed_of.
  intros [(s & Hs & Hreq & _ & <-)|[(s & Hs & Hreq & _ & <-)|Hn]].
  - unfold import_head_plan in Hs. rewrite !elem_of_cons in Hs.
    destruct Hs as [->|[->|[->|Hs]]]; [done..|by apply elem_of_nil in Hs].
  - unfold evaluations_plan in Hs. apply list_elem_of_singleton in Hs as ->.
    simpl in *. apply orb_true_iff in Hreq as [H|H]; apply orb_true_iff; auto.
  - unfold annotation_failed in Hn. rewrite Hann, Hsetup in Hn.
    destruct (import_to_arize.all (after_pause a e)) eqn:Ha';
      [pose proof (Hall eq_refl) as Ha|];
      destruct (import_to_arize.annotations a) eqn:Han;
      destruct (import_to_arize.setup_annotations a) eqn:Hse;
      cbn [orb] in Hn;
      try (rewrite elem_of_app in Hn; destruct Hn as [Hn|Hn]);
      repeat match type of Hn with
             | context [if ?c then _ else _] => destruct c
             end;
      try (by apply elem_of_nil in Hn);
      apply list_elem_of_singleton in Hn as ->; simpl;
      rewrite ?Ha, ?Han, ?Hse, ?orb_true_r; done.
Qed.

Lemma well_behaved_cooperative s : well_behaved s → s = cooperative (env_of s).
Proof. destruct s. intros (H1 & H2 & H3 & H4). simpl in *. by subst. Qed.

Lemma exit_status_of_cooperative_run (i : invocation) (e : env) :
  missing_required i = false → stage_selected i = true →
  let r := run_script i e in
  exit_code r.1 ≠ 0 ↔ ∃ n, n ∈ failed r.2 ∧ requested_stage i n = true.
Proof.
  destruct i as [a|a]; simpl; intros Hmissing Hsel.
  - destruct (export_run_report a e Hmissing Hsel) as [-> [_ _ _ Hf _]].
    destruct (export_stages_run a e) as (_ & _ & _ & _ & Hfailed & _).
    rewrite Hf, Hfailed, exit_code_nonzero. split.
    + intros [n Hn]. exists n. split; [done|]. by eapply export_failed_requested.
    + intros (n & Hn & _). by exists n.
  - apply orb_false_iff in Hmissing as [Hkey Hspace].
    destruct (import_run_report a e Hkey Hspace Hsel) as [-> [_ _ _ Hf _]].
    destruct (import_stages_run a e ["import_to_arize.py"]) as (_ & _ & _ & _ & Hfailed & _).
    rewrite Hf, Hfailed, exit_code_nonzero. split.
    + intros [n Hn]. exists n. split; [done|]. by eapply import_failed_requested.
    + intros (n & Hn & _). by exists n.
Qed.

(** C3, as amended.  A run that requests at least one stage and passes the
    required-argument checks, in a setting where the operator answers every
    prompt, no called function leaves through [SystemExit] and the client
    and the projects directory can be created, ends with a non-zero exit
    status if and only if at least one requested stage is recorded in the
    failed list. *)
Theorem exit_status_nonzero_iff_stage_failed (i : invocation) (s : setting) :
  missing_required i = false → stage_selected i = true →
  well_behaved s →
  let r := run_script i s in
  exit_code r.1 ≠ 0 ↔ ∃ n, n ∈ failed r.2 ∧ requested_stage i n = true.
Proof.
  intros Hmissing Hsel Hs. rewrite (well_behaved_cooperative s Hs).
  by apply exit_status_of_cooperative_run.
Qed.

Lemma exit_status_nonzero_iff_stage_failed_witness :
  missing_required (ExportRun (export_args (Some "http://localhost:6006")
                                 false true true false false false false)) = false
  ∧ stage_selected (ExportRun (export_args (Some "http://localhost:6006")
                                 false true true false false false false)) = true
  ∧ let i := ExportRun (export_args (Some "http://localhost:6006")
                          false true true false false false false) in
    let e := with_behaviour (uniform_env (PList [PDict [("status", PStr "exported")]]) "yes")
               export_prompts (Raises "connection refused") in
    let r := run_script i e in
    well_behaved e
    ∧ failed r.2 = ["prompts"]
    ∧ (exit_code r.1 ≠ 0 ↔ ∃ n, n ∈ failed r.2 ∧ requested_stage i n = true).
Proof.
  split; [reflexivity|]. split; [reflexivity|].
  split; [repeat split|]. split; [vm_compute; reflexivity|].
  apply (exit_status_nonzero_iff_stage_failed
           (ExportRun (export_args (Some "http://localhost:6006")
                         false true true false false false false))
           (cooperative
              (with_behaviour
                 (uniform_env (PList [PDict [("status", PStr "exported")]]) "yes")
                 export_prompts (Raises "connection refused"))));
    [reflexivity | reflexivity | repeat split].
Defined.

(** C3 as stated fails when standard input is at its end: the traces are
    imported, the ingestion question is shown, [input()] raises [EOFError]
    outside any [try], and the process ends with exit status 1 while no
    stage has failed. *)
Lemma end_of_input_exit_status :
  let i := ImportRun (import_args (Some "key") (Some "space")
                        false false false true true false false) in
  let s := {| env_of := with_behaviour (uniform_env PNone "yes") import_traces
                          (Returns one_imported_project);
              exits := []; eof_at := [TracesVisible];
              client_error := None; makedirs_error := None |} in
  missing_required i = false ∧ stage_selected i = true
  ∧ (run_script i s).1 = Raised "EOF when reading a line"
  ∧ exit_code (run_script i s).1 = 1
  ∧ calls (trace (run_script i s).2) = [import_traces]
  ∧ prompts_asked (trace (run_script i s).2) = [TracesVisible]
  ∧ successful (run_script i s).2 = ["traces"]
  ∧ failed (run_script i s).2 = [].
Proof. repeat split; vm_compute; reflexivity. Qed.

(** ** Success of an export stage *)

(** The result collection of an exporter: a list of per-entity dicts for
    datasets and prompts, a dict of project records (dicts whose count, if
    present, is a number) for traces, annotations and evaluations.  The
    statuses of the entries play no part in it. *)
Definition result_collection (f : extfun) (v : pyval) : bool :=
  match f, v with
  | (export_datasets | export_prompts), PList l => forallb is_dict l
  | export_traces, PDict m => forallb (project_record "trace_count") m.*2
  | export_annotations, PDict m => forallb (project_record "annotation_count") m.*2
  | export_evaluations, PDict m => forallb (project_record "evaluation_count") m.*2
  | _, _ => false
  end.

Lemma export_ok_collection (e : env) f :
  export_ok e f = true
  ↔ ∃ v, behaviour e f = Returns v ∧ result_collection f v = true ∧ truthy v = true.
Proof.
  unfold export_ok, returns, entity_list, project_map.
  destruct f; try (split; [done | by intros (v & _ & ? & _)]);
    destruct (behaviour e _) as [v|x]; try (split; [done | by intros (v & ? & _)]);
    (split;
     [ intros H; exists v; destruct v; try done; simpl in *;
       apply andb_prop in H as [? ?]; done
     | intros (v' & [= <-] & H1 & H2); destruct v; try done; simpl in *;
       by rewrite H1, H2 ]).
Qed.

Lemma export_requested_selected a s :
  s ∈ export_plan a → sd_req s = true → export_all_projects.any_selected a = true.
Proof.
  unfold export_plan, export_all_projects.any_selected. rewrite !elem_of_cons.
  intros [->|[->|[->|[->|[->|H]]]]]; [..|by apply elem_of_nil in H]; simpl;
    destruct (export_all_projects.all a), (export_all_projects.datasets a),
      (export_all_projects.prompts a), (export_all_projects.projects a),
      (export_all_projects.traces a), (export_all_projects.annotations a),
      (export_all_projects.evaluations a); done.
Qed.

(** C10.  In the export, a requested stage is recorded as successful if and
    only if its exporter returns, without an exception, a non-empty result
    collection, whatever the statuses of the entries; otherwise it is
    recorded as failed, and so it is for an empty result. *)
Theorem export_stage_successful_iff_result_nonempty
    (a : export_all_projects.args) (e : env) (s : stage_desc) :
  missing (export_all_projects.base_url a) = false →
  s ∈ export_plan a → sd_req s = true →
  let r := export_all_projects.run a e in
  let good := ∃ v, behaviour e (sd_fun s) = Returns v
                   ∧ result_collection (sd_fun s) v = true ∧ truthy v = true in
  (sd_name s ∈ successful r.2 ↔ good)
  ∧ (sd_name s ∈ failed r.2 ↔ ¬ good)
  ∧ (∀ v, behaviour e (sd_fun s) = Returns v → truthy v = false →
          sd_name s ∈ failed r.2).
Proof.
  intros Hurl Hs Hreq r good.
  pose proof (export_requested_selected a s Hs Hreq) as Hsel.
  destruct (export_run_report a e Hurl Hsel) as [_ [_ _ Hsucc Hfail _]].
  destruct (export_stages_run a e) as (_ & _ & _ & Hsuccessful & Hfailed & _).
  subst r. rewrite Hsucc, Hfail, Hsuccessful, Hfailed.
  rewrite elem_of_successful_of, elem_of_failed_of.
  assert ((∃ s', s' ∈ export_plan a ∧ sd_req s' = true
                 ∧ export_ok e (sd_fun s') = true ∧ sd_name s' = sd_name s)
          ↔ good) as Hgood.
  { unfold good. rewrite <- export_ok_collection. split.
    - intros (s' & Hs' & _ & Hok & Hname).
      by rewrite <- (export_plan_name_inj a s' s Hs' Hs Hname).
    - intros Hok. by exists s. }
  assert ((∃ s', s' ∈ export_plan a ∧ sd_req s' = true
                 ∧ export_ok e (sd_fun s') = false ∧ sd_name s' = sd_name s)
          ↔ ¬ good) as Hbad.
  { unfold good. rewrite <- export_ok_collection. split.
    - intros (s' & Hs' & _ & Hok & Hname).
      rewrite <- (export_plan_name_inj a s' s Hs' Hs Hname). by rewrite Hok.
    - intros Hok. exists s. repeat split; try done. by destruct (export_ok e (sd_fun s)). }
  split; [done|]. split; [done|].
  intros v Hv Hempty. rewrite elem_of_failed_of. apply Hbad.
  intros (v' & Hv' & _ & Htruthy). congruence.
Qed.

(** A run of the dataset export whose only entry has the status "failed":
    the stage is recorded as successful. *)
Lemma export_stage_successful_iff_result_nonempty_witness :
  let a := export_args (Some "http://localhost:6006") false true false false false false false in
  let e := uniform_env (PList [PDict [("name", PStr "demo"); ("status", PStr "failed")]]) "yes" in
  let s := {| sd_req := true; sd_fun := export_datasets; sd_name := "datasets";
              sd_err := "Error exporting datasets: " |} in
  missing (export_all_projects.base_url a) = false
  ∧ s ∈ export_plan a ∧ sd_req s = true
  ∧ successful (export_all_projects.run a e).2 = ["datasets"]
  ∧ let r := export_all_projects.run a e in
    let good := ∃ v, behaviour e (sd_fun s) = Returns v
                     ∧ result_collection (sd_fun s) v = true ∧ truthy v = true in
    (sd_name s ∈ successful r.2 ↔ good)
    ∧ (sd_name s ∈ failed r.2 ↔ ¬ good)
    ∧ (∀ v, behaviour e (sd_fun s) = Returns v → truthy v = false →
            sd_name s ∈ failed r.2).
Proof.
  assert ({| sd_req := true; sd_fun := export_datasets; sd_name := "datasets";
             sd_err := "Error exporting datasets: " |}
          ∈ export_plan (export_args (Some "http://localhost:6006")
                           false true false false false false false)) as Hs
    by apply list_elem_of_here.
  split; [reflexivity|]. split; [exact Hs|]. split; [reflexivity|].
  split; [vm_compute; reflexivity|].
  apply (export_stage_successful_iff_result_nonempty
           (export_args (Some "http://localhost:6006") false true false false false false false)
           (uniform_env (PList [PDict [("name", PStr "demo"); ("status", PStr "failed")]]) "yes")
           _ eq_refl Hs eq_refl).
Defined.

(** ** What the import wrappers count as a success *)

Lemma has_status_spec s x : has_status s x = true ↔ entry_status x = Some (PStr s).
Proof.
  unfold has_status. destruct (entry_status x) as [[| | |t| |]|]; simpl; try done.
  rewrite String.eqb_eq. split; [by intros -> | by intros [= ->]].
Qed.

(** The importer returns, without an exception, a non-empty list of
    per-entity dicts of which at least one has the status "imported" or
    "already_exists". *)
Definition imports_something (o : outcome) : Prop :=
  ∃ l, o = Returns (PList l) ∧ l ≠ [] ∧ Forall (λ x, is_dict x = true) l
       ∧ ∃ x, x ∈ l ∧ (entry_status x = Some (PStr "imported")
                        ∨ entry_status x = Some (PStr "already_exists")).

Lemma imported_list_spec o : returns imported_list o = true ↔ imports_something o.
Proof.
  unfold imports_something, returns, imported_list. split.
  - destruct o as [[| | | |l|]|]; try done.
    intros H. apply andb_prop in H as [H Hex]. apply andb_prop in H as [Hne Hall].
    exists l. repeat split.
    + by destruct l.
    + apply Forall_forall. intros x Hx. rewrite forallb_forall in Hall.
      apply Hall. by apply list_elem_of_In.
    + apply existsb_exists in Hex as (x & Hx & Hst). exists x.
      rewrite list_elem_of_In. split; [done|].
      unfold imported_entry in Hst. apply orb_true_iff in Hst.
      by rewrite <- !has_status_spec.
  - intros (l & -> & Hne & Hall & x & Hx & Hst).
    rewrite <- !has_status_spec in Hst. apply orb_true_iff in Hst.
    assert (nonempty l = true) as -> by (by destruct l).
    assert (forallb is_dict l = true) as ->.
    { apply forallb_forall. intros y Hy. rewrite Forall_forall in Hall.
      apply Hall. by apply list_elem_of_In. }
    simpl. apply existsb_exists. exists x. by rewrite <- list_elem_of_In.
Qed.

Lemma wrapper_result (m : M bool) (e : env) w f err :
  framed m → wrapper_run m e f err → (m e w).1 = Ok (wrapper_ok m e).
Proof. intros Hm (t & Hrun & _). by rewrite (Hm e w), Hrun. Qed.

(** C8.  The dataset and the prompt import wrappers always return a
    boolean, and they return True if and only if the importer returns,
    without an exception, a non-empty list (of per-entity dicts) with at
    least one entry whose status is "imported" or "already_exists": the two
    statuses count alike. *)
Theorem list_wrappers_true_iff_imported_or_already_exists
    (a : import_to_arize.args) (e : env) (w : world) :
  let datasets := (import_to_arize.import_datasets_wrapper a e w).1 in
  let prompts := (import_to_arize.import_prompts_wrapper a e w).1 in
  (datasets = Ok true ∨ datasets = Ok false)
  ∧ (datasets = Ok true ↔ imports_something (behaviour e import_datasets))
  ∧ (prompts = Ok true ∨ prompts = Ok false)
  ∧ (prompts = Ok true ↔ imports_something (behaviour e import_prompts)).
Proof.
  intros datasets prompts. subst datasets prompts.
  rewrite (wrapper_result _ e w _ _ (framed_import_datasets_wrapper a)
             (import_datasets_wrapper_run a e)).
  rewrite (wrapper_result _ e w _ _ (framed_import_prompts_wrapper a)
             (import_prompts_wrapper_run a e)).
  rewrite import_datasets_wrapper_value, import_prompts_wrapper_value.
  rewrite <- !imported_list_spec.
  destruct (returns imported_list (behaviour e import_datasets)),
    (returns imported_list (behaviour e import_prompts));
    repeat split; auto; by intros [= ?].
Qed.

(** ** Recovery of the trace import from the results file *)

(** A non-empty dict with a project entry (a key other than "projects" and
    "timestamp" bound to a dict) whose status is "imported" or "skipped". *)
Definition imports_projects (v : pyval) : Prop :=
  ∃ d, v = PDict d ∧ d ≠ []
       ∧ ∃ k p, (k, p) ∈ d ∧ k ≠ "projects" ∧ k ≠ "timestamp" ∧ is_dict p = true
                ∧ (entry_status p = Some (PStr "imported")
                   ∨ entry_status p = Some (PStr "skipped")).

Lemma counted_project_spec k p :
  counted_project (k, p) = true
  ↔ k ≠ "projects" ∧ k ≠ "timestamp" ∧ is_dict p = true
    ∧ (entry_status p = Some (PStr "imported") ∨ entry_status p = Some (PStr "skipped")).
Proof.
  unfold counted_project. simpl.
  rewrite andb_true_iff, negb_true_iff, !orb_false_iff, <- !not_true_iff_false,
    !String.eqb_eq.
  destruct p as [| | | | |d]; simpl; try (split; [by intros [_ ?] | by intros (_ & _ & ? & _)]).
  unfold py_in_strs. simpl.
  destruct (dict_lookup "status" d) as [[| | |t| |]|]; simpl;
    rewrite ?orb_false_r, ?orb_true_iff, ?String.eqb_eq; try naive_solver.
Qed.

Lemma imported_projects_spec v : imported_projects v = true ↔ imports_projects v.
Proof.
  unfold imported_projects, imports_projects. split.
  - destruct v as [| | | | |d]; try done.
    intros H. apply existsb_exists in H as ([k p] & Hin & Hc).
    apply counted_project_spec in Hc. exists d. split; [done|].
    split; [by destruct d|]. exists k, p. by rewrite list_elem_of_In.
  - intros (d & -> & _ & k & p & Hin & Hc).
    apply existsb_exists. exists (k, p). rewrite <- list_elem_of_In.
    split; [done|]. by apply counted_project_spec.
Qed.

(** C9.  When [import_traces] raises and the trace results file holds
    loadable JSON, [import_traces_wrapper] goes on with the loaded results
    as it would with returned ones, and returns True exactly when they are a
    non-empty dict with a project entry whose status is "imported" or
    "skipped"; when the file is absent or cannot be read, the wrapper
    returns False. *)
Theorem traces_wrapper_recovers_from_results_file
    (a : import_to_arize.args) (e : env) (w : world) (x : exn) :
  behaviour e import_traces = Raises x →
  let r := (import_to_arize.import_traces_wrapper a e w).1 in
  (∀ v, trace_results_file e = Loadable v →
        (r = Ok true ∨ r = Ok false)
        ∧ (r = Ok true ↔ imports_projects v)
        ∧ r = (import_to_arize.import_traces_wrapper a
                 (with_behaviour e import_traces (Returns v)) w).1)
  ∧ (trace_results_file e = Absent → r = Ok false)
  ∧ (∀ y, trace_results_file e = Unreadable y → r = Ok false).
Proof.
  intros Hraise r. subst r.
  rewrite (wrapper_result _ e w _ _ (framed_import_traces_wrapper a)
             (import_traces_wrapper_run a e)).
  rewrite import_traces_wrapper_value. unfold traces_source. rewrite Hraise.
  split; [|split].
  - intros v ->.
    rewrite (wrapper_result _ _ w _ _ (framed_import_traces_wrapper a)
               (import_traces_wrapper_run a _)).
    rewrite import_traces_wrapper_value. unfold traces_source. simpl.
    rewrite <- imported_projects_spec.
    destruct (imported_projects v); repeat split; auto; by intros [= ?].
  - by intros ->.
  - by intros y ->.
Qed.

Lemma traces_wrapper_recovers_from_results_file_witness :
  let a := import_args (Some "key") (Some "space") false false false true false false false in
  let e := with_results_file
             (with_behaviour (uniform_env PNone "yes") import_traces (Raises "timed out"))
             (Loadable one_imported_project) in
  behaviour e import_traces = Raises "timed out"
  ∧ (import_to_arize.import_traces_wrapper a e ∅w).1 = Ok true
  ∧ let r := (import_to_arize.import_traces_wrapper a e ∅w).1 in
    (∀ v, trace_results_file e = Loadable v →
          (r = Ok true ∨ r = Ok false)
          ∧ (r = Ok true ↔ imports_projects v)
          ∧ r = (import_to_arize.import_traces_wrapper a
                   (with_behaviour e import_traces (Returns v)) ∅w).1)
    ∧ (trace_results_file e = Absent → r = Ok false)
    ∧ (∀ y, trace_results_file e = Unreadable y → r = Ok false).
Proof.
  split; [reflexivity|]. split; [vm_compute; reflexivity|].
  apply (traces_wrapper_recovers_from_results_file
           (import_args (Some "key") (Some "space") false false false true false false false)
           (with_results_file
              (with_behaviour (uniform_env PNone "yes") import_traces (Raises "timed out"))
              (Loadable one_imported_project))
           ∅w "timed out").
  reflexivity.
Defined.

(** ** The runs in terms of the plans *)


Lemma import_run_facts a (e : env) :
  missing (import_to_arize.api_key a) = false →
  missing (import_to_arize.space_id a) = false →
  import_to_arize.any_selected a = true →
  let r := import_to_arize.run a e in
  calls (trace r.2) = import_calls a e
  ∧ prompts_asked (trace r.2) = import_prompts_asked a e
  ∧ successful r.2 = import_successful a e
  ∧ failed r.2 = import_failed a e
  ∧ (∀ s x, s ∈ import_head_plan a ++ evaluations_plan (after_pause a e) →
       sd_req s = true → behaviour e (sd_fun s) = Raises x →
       Log ERROR (sd_err s +:+ x) ∈ trace r.2)
  ∧ (∀ x, setup_annotations_main ∈ annotation_calls (after_pause a e) e →
          behaviour e setup_annotations_main = Raises x →
          Log ERROR ("Error setting up annotations: " +:+ x) ∈ trace r.2)
  ∧ (∀ x, import_annotations ∈ annotation_calls (after_pause a e) e →
          behaviour e import_annotations = Raises x →
          Log ERROR ("Error importing annotations: " +:+ x) ∈ trace r.2)
  ∧ (pause_asked a e = true → yes e TracesVisible = false →
     Log WARNING "Evaluation import skipped. Please wait for traces to be fully ingested."
       ∈ trace r.2).
Proof.
  intros Hkey Hspace Hsel.
  destruct (import_run_report a e Hkey Hspace Hsel) as [_ [Hc Hp Hs Hf Hev]].
  destruct (import_stages_run a e ["import_to_arize.py"])
    as (_ & Hcalls & Hprompts & Hsucc & Hfail & Hl1 & Hl2 & Hl3 & Hl4).
  simpl. rewrite Hc, Hp, Hs, Hf. repeat split; try done.
  - intros s x ???. apply Hev. by eapply Hl1.
  - intros x ??. apply Hev. by eapply Hl2.
  - intros x ??. apply Hev. by eapply Hl3.
  - intros ??. apply Hev. by eapply Hl4.
Qed.

Lemma confirmed_spec s :
  import_to_arize.confirmed s = false ↔ s ∉ ["yes"; "y"].
Proof.
  unfold import_to_arize.confirmed. simpl.
  rewrite !elem_of_cons, elem_of_nil, !orb_false_iff, <- !not_true_iff_false,
    !String.eqb_eq.
  naive_solver.
Qed.

(** "traces" is recorded as successful exactly when the traces stage was
    requested and its wrapper returned True. *)
Lemma traces_in_import_successful a (e : env) :
  "traces" ∈ import_successful a e ↔ traces_imported a e = true.
Proof.
  unfold import_successful, traces_imported.
  rewrite !elem_of_app, !elem_of_successful_of. split.
  - intros [(s & Hs & Hreq & Hok & Hn)|[(s & Hs & _ & _ & Hn)|Hn]].
    + unfold import_head_plan in Hs. rewrite !elem_of_cons in Hs.
      destruct Hs as [->|[->|[->|Hs]]]; try done; [|by apply elem_of_nil in Hs].
      simpl in *. by rewrite Hreq, Hok.
    + unfold evaluations_plan in Hs. by apply list_elem_of_singleton in Hs as ->.
    + unfold annotation_successful in Hn.
      repeat case_match; try (by apply elem_of_nil in Hn);
        by apply list_elem_of_singleton in Hn.
  - intros H. apply andb_prop in H as [Hreq Hok]. left.
    eexists {| sd_fun := import_traces |}. split.
    + unfold import_head_plan. do 2 apply list_elem_of_further. apply list_elem_of_here.
    + done.
Qed.

(** ** Running with --all *)






(** ** The pause between traces and evaluations *)

Lemma traces_successful_selected a :
  import_to_arize.all a || import_to_arize.evaluations a = true →
  import_to_arize.any_selected a = true.
Proof.
  unfold import_to_arize.any_selected.
  destruct (import_to_arize.all a), (import_to_arize.evaluations a),
    (import_to_arize.datasets a), (import_to_arize.traces a),
    (import_to_arize.annotations a); done.
Qed.

(** After a declined pause the importers called are those of the first
    three stages and whatever the annotation flags alone still ask for. *)
Lemma declined_pause_calls a (e : env) :
  pause_asked a e = true → yes e TracesVisible = false →
  after_pause a e = import_to_arize.clear_evaluations_and_all a
  ∧ import_calls a e
    = calls_of (import_head_plan a)
      ++ annotation_calls (import_to_arize.clear_evaluations_and_all a) e
  ∧ import_failed a e
    = failed_of (import_head_plan a) (import_ok a e)
      ++ annotation_failed (import_to_arize.clear_evaluations_and_all a) e
  ∧ import_successful a e
    = successful_of (import_head_plan a) (import_ok a e)
      ++ annotation_successful (import_to_arize.clear_evaluations_and_all a) e.
Proof.
  intros Hasked Hno.
  assert (after_pause a e = import_to_arize.clear_evaluations_and_all a) as Ha'.
  { unfold after_pause. by rewrite Hasked, Hno. }
  unfold import_calls, import_failed, import_successful. rewrite Ha'. done.
Qed.

Lemma head_plan_calls a f :
  f ∈ calls_of (import_head_plan a) →
  f = import_datasets ∨ f = import_prompts ∨ f = import_traces.
Proof.
  rewrite elem_of_calls_of. intros (s & Hs & _ & <-).
  unfold import_head_plan in Hs. rewrite !elem_of_cons in Hs.
  destruct Hs as [->|[->|[->|Hs]]]; auto. by apply elem_of_nil in Hs.
Qed.

Lemma head_plan_names a ok n :
  n ∈ failed_of (import_head_plan a) ok ∨ n ∈ successful_of (import_head_plan a) ok →
  n = "datasets" ∨ n = "prompts" ∨ n = "traces".
Proof.
  rewrite elem_of_failed_of, elem_of_successful_of.
  intros [(s & Hs & _ & _ & <-)|(s & Hs & _ & _ & <-)];
    unfold import_head_plan in Hs; rewrite !elem_of_cons in Hs;
    destruct Hs as [->|[->|[->|Hs]]]; auto; by apply elem_of_nil in Hs.
Qed.

Lemma annotation_calls_elem a (e : env) f :
  f ∈ annotation_calls a e → f = setup_annotations_main ∨ f = import_annotations.
Proof.
  unfold annotation_calls. intros Hf.
  repeat case_match; rewrite ?elem_of_cons in Hf; rewrite ?elem_of_nil in Hf; naive_solver.
Qed.

Lemma annotation_names a (e : env) n :
  n ∈ annotation_failed a e ∨ n ∈ annotation_successful a e →
  n = "annotations" ∨ n = "annotation setup".
Proof.
  unfold annotation_failed, annotation_successful. intros Hn.
  repeat case_match;
    rewrite ?elem_of_app, ?elem_of_cons, ?elem_of_nil in Hn; naive_solver.
Qed.

(** C4.  In the import, when the traces stage has succeeded in the run and
    the evaluations are requested, the operator is asked the ingestion
    question; for every answer that is not yes or y (the answer is read in
    lower case) the evaluations import is not called, a warning says so, and
    "evaluations" enters neither the failed nor the successful list. *)
Theorem declined_pause_skips_evaluations (a : import_to_arize.args) (e : env) :
  missing (import_to_arize.api_key a) = false →
  missing (import_to_arize.space_id a) = false →
  import_to_arize.all a || import_to_arize.evaluations a = true →
  let r := import_to_arize.run a e in
  "traces" ∈ successful r.2 →
  TracesVisible ∈ prompts_asked (trace r.2)
  ∧ (lower (answer e TracesVisible) ∉ ["yes"; "y"] →
     (import_evaluations ∉ calls (trace r.2))
     ∧ Log WARNING "Evaluation import skipped. Please wait for traces to be fully ingested."
         ∈ trace r.2
     ∧ ("evaluations" ∉ failed r.2)
     ∧ ("evaluations" ∉ successful r.2)).
Proof.
  intros Hkey Hspace Hreq r Htraces.
  pose proof (traces_successful_selected a Hreq) as Hsel.
  destruct (import_run_facts a e Hkey Hspace Hsel)
    as (Hc & Hp & Hs & Hf & _ & _ & _ & Hwarn).
  subst r. rewrite Hs in Htraces. apply traces_in_import_successful in Htraces.
  assert (pause_asked a e = true) as Hasked.
  { unfold pause_asked. by rewrite Htraces, Hreq. }
  rewrite Hc, Hp, Hs, Hf. split.
  - unfold import_prompts_asked. rewrite Hasked. apply list_elem_of_here.
  - intros Hno. apply confirmed_spec in Hno. fold (yes e TracesVisible) in Hno.
    destruct (declined_pause_calls a e Hasked Hno) as (_ & -> & -> & ->).
    repeat split.
    + rewrite elem_of_app. intros [H|H].
      * apply head_plan_calls in H. naive_solver.
      * apply annotation_calls_elem in H. naive_solver.
    + by apply Hwarn.
    + rewrite elem_of_app. intros [H|H].
      * pose proof (head_plan_names a _ _ (or_introl H)). naive_solver.
      * pose proof (annotation_names _ e _ (or_introl H)). naive_solver.
    + rewrite elem_of_app. intros [H|H].
      * pose proof (head_plan_names a _ _ (or_intror H)). naive_solver.
      * pose proof (annotation_names _ e _ (or_intror H)). naive_solver.
Qed.

Lemma declined_pause_skips_evaluations_witness :
  let a := import_args (Some "key") (Some "space")
             false false false true true false false in
  let e := with_behaviour (uniform_env PNone "not yet")
             import_traces (Returns one_imported_project) in
  missing (import_to_arize.api_key a) = false
  ∧ missing (import_to_arize.space_id a) = false
  ∧ import_to_arize.all a || import_to_arize.evaluations a = true
  ∧ "traces" ∈ successful (import_to_arize.run a e).2
  ∧ exit_code (import_to_arize.run a e).1 = 0
  ∧ let r := import_to_arize.run a e in
    TracesVisible ∈ prompts_asked (trace r.2)
    ∧ (lower (answer e TracesVisible) ∉ ["yes"; "y"] →
       (import_evaluations ∉ calls (trace r.2))
       ∧ Log WARNING "Evaluation import skipped. Please wait for traces to be fully ingested."
           ∈ trace r.2
       ∧ ("evaluations" ∉ failed r.2)
       ∧ ("evaluations" ∉ successful r.2)).
Proof.
  assert ("traces" ∈ successful
            (import_to_arize.run
               (import_args (Some "key") (Some "space")
                  false false false true true false false)
               (with_behaviour (uniform_env PNone "not yet")
                  import_traces (Returns one_imported_project))).2) as Htraces
    by (vm_compute; apply list_elem_of_here).
  split; [reflexivity|]. split; [reflexivity|]. split; [reflexivity|].
  split; [exact Htraces|]. split; [vm_compute; reflexivity|].
  apply (declined_pause_skips_evaluations
           (import_args (Some "key") (Some "space")
              false false false true true false false)
           (with_behaviour (uniform_env PNone "not yet")
              import_traces (Returns one_imported_project))
           eq_refl eq_refl eq_refl Htraces).
Defined.

(** C5.  In an import requested with --all alone, when the traces stage has
    succeeded and the operator declines the ingestion question, the pause
    hands on a namespace whose [all] flag is cleared along with
    [evaluations]; so the rest of the run calls neither the evaluations
    import nor the annotation setup guide nor the annotations import, and
    does not ask the annotation question. *)
Theorem declined_pause_clears_all_flag (a : import_to_arize.args) (e : env) :
  missing (import_to_arize.api_key a) = false →
  missing (import_to_arize.space_id a) = false →
  import_to_arize.all a = true →
  import_to_arize.annotations a = false →
  import_to_arize.setup_annotations a = false →
  let r := import_to_arize.run a e in
  "traces" ∈ successful r.2 →
  lower (answer e TracesVisible) ∉ ["yes"; "y"] →
  (∃ a', (import_to_arize.stages a e (initial_world ["import_to_arize.py"])).1 = Ok a'
         ∧ import_to_arize.all a' = false ∧ import_to_arize.evaluations a' = false)
  ∧ calls (trace r.2) = [import_datasets; import_prompts; import_traces]
  ∧ prompts_asked (trace r.2) = [TracesVisible]
  ∧ (setup_annotations_main ∉ calls (trace r.2))
  ∧ (import_annotations ∉ calls (trace r.2))
  ∧ (import_evaluations ∉ calls (trace r.2)).
Proof.
  intros Hkey Hspace Hall Hann Hsetup r Htraces Hno.
  assert (import_to_arize.any_selected a = true) as Hsel.
  { unfold import_to_arize.any_selected. by rewrite Hall. }
  destruct (import_run_facts a e Hkey Hspace Hsel) as (Hc & Hp & Hs & _).
  destruct (import_stages_run a e ["import_to_arize.py"]) as (Hstages & _).
  subst r. rewrite Hs in Htraces. apply traces_in_import_successful in Htraces.
  assert (pause_asked a e = true) as Hasked.
  { unfold pause_asked. by rewrite Htraces, Hall. }
  apply confirmed_spec in Hno. fold (yes e TracesVisible) in Hno.
  destruct (declined_pause_calls a e Hasked Hno) as (Ha' & Hcalls & _).
  assert (calls (trace (import_to_arize.run a e).2)
          = [import_datasets; import_prompts; import_traces]) as Hthree.
  { rewrite Hc, Hcalls. unfold calls_of, import_head_plan, annotation_calls. simpl.
    by rewrite Hall, Hann, Hsetup. }
  split; [|split; [|split]].
  - exists (import_to_arize.clear_evaluations_and_all a). by rewrite Hstages, Ha'.
  - done.
  - rewrite Hp. unfold import_prompts_asked, annotation_prompts.
    rewrite Hasked, Ha'. simpl. by rewrite Hann.
  - rewrite Hthree. repeat split; intros Hin; absurd_in Hin.
Qed.

Lemma declined_pause_clears_all_flag_witness :
  let a := import_args (Some "key") (Some "space")
             true false false false false false false in
  let e := with_behaviour (uniform_env PNone "no")
             import_traces (Returns one_imported_project) in
  missing (import_to_arize.api_key a) = false
  ∧ missing (import_to_arize.space_id a) = false
  ∧ import_to_arize.all a = true
  ∧ import_to_arize.annotations a = false
  ∧ import_to_arize.setup_annotations a = false
  ∧ "traces" ∈ successful (import_to_arize.run a e).2
  ∧ (lower (answer e TracesVisible) ∉ ["yes"; "y"])
  ∧ let r := import_to_arize.run a e in
    (∃ a', (import_to_arize.stages a e (initial_world ["import_to_arize.py"])).1 = Ok a'
           ∧ import_to_arize.all a' = false ∧ import_to_arize.evaluations a' = false)
    ∧ calls (trace r.2) = [import_datasets; import_prompts; import_traces]
    ∧ prompts_asked (trace r.2) = [TracesVisible]
    ∧ (setup_annotations_main ∉ calls (trace r.2))
    ∧ (import_annotations ∉ calls (trace r.2))
    ∧ (import_evaluations ∉ calls (trace r.2)).
Proof.
  assert ("traces" ∈ successful
            (import_to_arize.run
               (import_args (Some "key") (Some "space")
                  true false false false false false false)
               (with_behaviour (uniform_env PNone "no")
                  import_traces (Returns one_imported_project))).2) as Htraces
    by (vm_compute; do 1 apply list_elem_of_here).
  assert (lower "no" ∉ ["yes"; "y"]) as Hno by (by apply confirmed_spec).
  split; [reflexivity|]. split; [reflexivity|]. split; [reflexivity|].
  split; [reflexivity|]. split; [reflexivity|].
  split; [exact Htraces|]. split; [exact Hno|].
  apply (declined_pause_clears_all_flag
           (import_args (Some "key") (Some "space")
              true false false false false false false)
           (with_behaviour (uniform_env PNone "no")
              import_traces (Returns one_imported_project))
           eq_refl eq_refl eq_refl eq_refl eq_refl Htraces Hno).
Defined.

(** ** Exceptions at the stage boundary *)












(** ** One flag, one stage *)

(** The entity flags of the two command lines ([--projects] is a flag of
    the export only). *)
Inductive entity_flag :=
| FDatasets | FPrompts | FProjects | FTraces | FAnnotations | FEvaluations.

Global Instance entity_flag_eq_dec : EqDecision entity_flag.
Proof. solve_decision. Defined.





(** * Further properties of the two scripts *)

(** ** Every run, whatever the arguments *)

(** The checks of [main] are passed and a stage is selected. *)
Definition ran (i : invocation) : bool :=
  negb (missing_required i) && stage_selected i.

Definition script_calls (i : invocation) (e : env) : list extfun :=
  match i with
  | ExportRun a => calls_of (export_plan a)
  | ImportRun a => import_calls a e
  end.

Definition script_prompts (i : invocation) (e : env) : list prompt :=
  match i with
  | ExportRun _ => []
  | ImportRun a => import_prompts_asked a e
  end.

Definition script_successful (i : invocation) (e : env) : list string :=
  match i with
  | ExportRun a => successful_of (export_plan a) (export_ok e)
  | ImportRun a => import_successful a e
  end.

Definition script_failed (i : invocation) (e : env) : list string :=
  match i with
  | ExportRun a => failed_of (export_plan a) (export_ok e)
  | ImportRun a => import_failed a e
  end.

(** The export that passes the URL check and finds no stage selected: the
    client is built, the error is logged, [main] returns. *)
Lemma export_run_unselected a (e : env) :
  missing (export_all_projects.base_url a) = false →
  export_all_projects.any_selected a = false →
  ∃ pre,
    export_all_projects.run a e
    = (Ok (),
       {| trace := pre ++ [Log ERROR "No export type selected. Use --help to see available options."];
          sys_argv := ["export_all_projects.py"]; successful := []; failed := [] |})
    ∧ calls pre = [] ∧ prompts_asked pre = []
    ∧ (∀ path, MakeDirs path ∉ pre)
    ∧ (∃ url headers, CreateClient url headers ∈ pre).
Proof.
  intros Hurl Hsel. unfold export_all_projects.run, export_all_projects.main.
  rewrite Hurl, Hsel. cbn [negb].
  destruct (export_all_projects.verbose a);
    cbv [when emit logger mbind M_bind mret M_ret os_path_abspath initial_world];
    cbn [trace sys_argv successful failed];
    eexists; (split; [reflexivity|]); (split; [reflexivity|]); (split; [reflexivity|]);
    (split; [intros path Hin; absurd_in Hin|]);
    do 2 eexists; find_in.
Qed.

Lemma import_run_unselected a (e : env) :
  missing (import_to_arize.api_key a) = false →
  missing (import_to_arize.space_id a) = false →
  import_to_arize.any_selected a = false →
  import_to_arize.run a e
  = (Ok (),
     {| trace := [Log ERROR "No import type selected. Use --help to see available options."];
        sys_argv := ["import_to_arize.py"]; successful := []; failed := [] |}).
Proof.
  intros Hkey Hspace Hsel. unfold import_to_arize.run, import_to_arize.main.
  by rewrite Hkey, Hspace, Hsel.
Qed.

(** A run that stops at one of the checks of [main]. *)
Lemma run_stopped i (e : env) :
  ran i = false →
  let r := run_script i e in
  r.1 = Ok () ∧ calls (trace r.2) = [] ∧ prompts_asked (trace r.2) = []
  ∧ successful r.2 = [] ∧ failed r.2 = [].
Proof.
  unfold ran. destruct i as [a|a]; cbn [missing_required stage_selected run_script].
  - destruct (missing (export_all_projects.base_url a)) eqn:Hurl; cbn [negb andb].
    + intros _. unfold export_all_projects.run, export_all_projects.main.
      by rewrite Hurl.
    + intros Hsel. destruct (export_run_unselected a e Hurl Hsel) as (pre & -> & Hc & Hp & _).
      cbn [fst snd trace successful failed].
      by rewrite calls_app, prompts_asked_app, Hc, Hp.
  - destruct (missing (import_to_arize.api_key a)) eqn:Hkey; cbn [orb negb andb].
    + intros _. unfold import_to_arize.run, import_to_arize.main. by rewrite Hkey.
    + destruct (missing (import_to_arize.space_id a)) eqn:Hspace; cbn [negb andb].
      * intros _. unfold import_to_arize.run, import_to_arize.main.
        by rewrite Hkey, Hspace.
      * intros Hsel. by rewrite (import_run_unselected a e Hkey Hspace Hsel).
Qed.

(** What any run calls, asks and records, and how it ends. *)
Lemma run_script_facts i (e : env) :
  let r := run_script i e in
  r.1 = (if ran i && nonempty (script_failed i e) then SysExit 1 else Ok ())
  ∧ calls (trace r.2) = (if ran i then script_calls i e else [])
  ∧ prompts_asked (trace r.2) = (if ran i then script_prompts i e else [])
  ∧ successful r.2 = (if ran i then script_successful i e else [])
  ∧ failed r.2 = (if ran i then script_failed i e else []).
Proof.
  destruct (ran i) eqn:Hran.
  - unfold ran in Hran. apply andb_prop in Hran as [Hmissing Hsel].
    apply negb_true_iff in Hmissing.
    destruct i as [a|a]; cbn [missing_required stage_selected run_script andb] in *.
    + destruct (export_run_report a e Hmissing Hsel) as [Hexit [Hc Hp Hs Hf _]].
      destruct (export_stages_run a e) as (_ & Hcalls & Hprompts & Hsucc & Hfail & _).
      cbv zeta. by rewrite Hexit, Hc, Hp, Hs, Hf, Hcalls, Hprompts, Hsucc, Hfail.
    + apply orb_false_iff in Hmissing as [Hkey Hspace].
      destruct (import_run_report a e Hkey Hspace Hsel) as [Hexit _].
      destruct (import_run_facts a e Hkey Hspace Hsel) as (Hc & Hp & Hs & Hf & _).
      cbv zeta. by rewrite Hexit, Hc, Hp, Hs, Hf.
  - cbn [andb]. by apply run_stopped.
Qed.

(** X1.  In a setting where the operator answers every prompt, no called
    function leaves through [SystemExit] and the client and the projects
    directory can be created, no exception escapes [main]: whatever the
    exporters and importers return or raise, every run of either script
    ends normally or with [sys.exit(1)]; the exit status is 1 exactly when
    the failed list is not empty, and 0 otherwise. *)
Theorem main_ends_with_status_0_or_1 (i : invocation) (s : setting) :
  well_behaved s →
  let r := run_script i s in
  (r.1 = Ok () ∨ r.1 = SysExit 1)
  ∧ (exit_code r.1 = 1 ↔ failed r.2 ≠ [])
  ∧ (exit_code r.1 = 0 ↔ failed r.2 = []).
Proof.
  intros Hs. rewrite (well_behaved_cooperative s Hs). cbv zeta.
  destruct (run_script_facts i (env_of s)) as (-> & _ & _ & _ & ->).
  destruct (ran i); cbn [andb]; [|by repeat split; auto].
  destruct (script_failed i (env_of s)); cbn [nonempty exit_code];
    repeat split; auto; done.
Qed.

Lemma main_ends_with_status_0_or_1_witness :
  let i := ImportRun (import_args (Some "key") (Some "space")
                        false true false false false false false) in
  let e := with_behaviour (uniform_env PNone "yes") import_datasets
             (Returns (PList [PInt 1])) in
  let r := run_script i e in
  well_behaved e
  ∧ r.1 = SysExit 1
  ∧ failed r.2 = ["datasets"]
  ∧ (r.1 = Ok () ∨ r.1 = SysExit 1)
  ∧ (exit_code r.1 = 1 ↔ failed r.2 ≠ [])
  ∧ (exit_code r.1 = 0 ↔ failed r.2 = []).
Proof.
  split; [repeat split|]. split; [vm_compute; reflexivity|].
  split; [vm_compute; reflexivity|].
  exact (main_ends_with_status_0_or_1
           (ImportRun (import_args (Some "key") (Some "space")
                         false true false false false false false))
           (cooperative (with_behaviour (uniform_env PNone "yes") import_datasets
                           (Returns (PList [PInt 1]))))
           ltac:(repeat split)).
Defined.

(** ** The order of the stages *)

Lemma calls_of_sublist plan : calls_of plan `sublist_of` (sd_fun <$> plan).
Proof.
  unfold calls_of. induction plan as [|s plan IH]; simpl; [constructor|].
  destruct (sd_req s); simpl.
  - by apply sublist_skip.
  - by apply sublist_cons.
Qed.

Lemma annotation_calls_sublist a (e : env) :
  annotation_calls a e `sublist_of` [setup_annotations_main; import_annotations].
Proof.
  unfold annotation_calls.
  destruct (_ || _); [destruct (yes e AnnotationsConfigured)|destruct (import_to_arize.setup_annotations a)].
  - done.
  - apply sublist_skip, sublist_nil_l.
  - apply sublist_skip, sublist_nil_l.
  - apply sublist_nil_l.
Qed.

(** X2.  For every combination of flags and every behaviour of the outside
    world, the exporters (importers) that a run calls are called in the
    fixed order of [main], each at most once. *)
Theorem calls_follow_fixed_order (i : invocation) (e : env) :
  let r := run_script i e in
  calls (trace r.2) `sublist_of` stage_order i ∧ NoDup (calls (trace r.2)).
Proof.
  assert (NoDup (stage_order i)) as Hnodup.
  { destruct i; simpl; repeat constructor; rewrite ?elem_of_cons, ?elem_of_nil;
      naive_solver. }
  cbv zeta. destruct (run_script_facts i e) as (_ & -> & _).
  assert ((if ran i then script_calls i e else []) `sublist_of` stage_order i) as Hsub.
  { destruct (ran i); [|apply sublist_nil_l].
    destruct i as [a|a]; cbn [script_calls stage_order].
    - apply (calls_of_sublist (export_plan a)).
    - unfold import_calls.
      apply (sublist_app _ [import_datasets; import_prompts; import_traces]);
        [apply (calls_of_sublist (import_head_plan a))|].
      apply (sublist_app _ [import_evaluations]);
        [apply (calls_of_sublist (evaluations_plan (after_pause a e)))|].
      apply annotation_calls_sublist. }
  split; [done|]. by eapply sublist_NoDup.
Qed.

(** ** The two lists of stages *)

Lemma import_head_plan_name_inj a s s' :
  s ∈ import_head_plan a → s' ∈ import_head_plan a → sd_name s = sd_name s' → s = s'.
Proof.
  unfold import_head_plan. rewrite !elem_of_cons.
  intros [->|[->|[->|H]]] [->|[->|[->|H']]];
    try done; try (by apply elem_of_nil in H); by apply elem_of_nil in H'.
Qed.

Lemma single_plan_exclusive (s : stage_desc) ok n :
  n ∈ successful_of [s] ok → n ∈ failed_of [s] ok → False.
Proof.
  rewrite elem_of_successful_of, elem_of_failed_of.
  intros (s1 & Hs1 & _ & Hok & _) (s2 & Hs2 & _ & Hbad & _).
  apply list_elem_of_singleton in Hs1 as ->. apply list_elem_of_singleton in Hs2 as ->.
  congruence.
Qed.

Lemma single_plan_names (s : stage_desc) ok n :
  n ∈ successful_of [s] ok ∨ n ∈ failed_of [s] ok → n = sd_name s.
Proof.
  rewrite elem_of_successful_of, elem_of_failed_of.
  intros [(s1 & Hs1 & _ & _ & <-)|(s1 & Hs1 & _ & _ & <-)];
    by apply list_elem_of_singleton in Hs1 as ->.
Qed.

Lemma annotation_lists_exclusive a (e : env) n :
  n ∈ annotation_successful a e → n ∈ annotation_failed a e → False.
Proof.
  unfold annotation_successful, annotation_failed.
  destruct (_ || _); [|destruct (import_to_arize.setup_annotations a)];
    destruct (setup_ok e), (yes e AnnotationsConfigured),
      (wrapper_ok (import_to_arize.import_annotations_wrapper a) e);
    cbn [andb negb app]; intros H1 H2;
    first [ by apply elem_of_nil in H1 | by apply elem_of_nil in H2
          | apply list_elem_of_singleton in H1 as ->; absurd_in H2 ].
Qed.

Lemma import_lists_exclusive a (e : env) n :
  n ∈ import_successful a e → n ∈ import_failed a e → False.
Proof.
  unfold import_successful, import_failed. rewrite !elem_of_app.
  intros [Hs|[Hs|Hs]] [Hf|[Hf|Hf]].
  - apply elem_of_successful_of in Hs as (s & Hs & _ & Hok & Hn).
    apply elem_of_failed_of in Hf as (s' & Hs' & _ & Hbad & Hn').
    rewrite <- Hn' in Hn. rewrite (import_head_plan_name_inj a s s' Hs Hs' Hn) in Hok.
    congruence.
  - pose proof (head_plan_names a _ _ (or_intror Hs)).
    pose proof (single_plan_names _ _ _ (or_intror Hf)). simpl in *. naive_solver.
  - pose proof (head_plan_names a _ _ (or_intror Hs)).
    pose proof (annotation_names _ e _ (or_introl Hf)). naive_solver.
  - pose proof (head_plan_names a _ _ (or_introl Hf)).
    pose proof (single_plan_names _ _ _ (or_introl Hs)). simpl in *. naive_solver.
  - by eapply single_plan_exclusive.
  - pose proof (single_plan_names _ _ _ (or_introl Hs)).
    pose proof (annotation_names _ e _ (or_introl Hf)). simpl in *. naive_solver.
  - pose proof (head_plan_names a _ _ (or_introl Hf)).
    pose proof (annotation_names _ e _ (or_intror Hs)). naive_solver.
  - pose proof (single_plan_names _ _ _ (or_intror Hf)).
    pose proof (annotation_names _ e _ (or_intror Hs)). simpl in *. naive_solver.
  - by eapply annotation_lists_exclusive.
Qed.

(** X3.  No stage is recorded both as successful and as failed, in either
    script. *)
Theorem stage_not_both_successful_and_failed (i : invocation) (e : env) (n : string) :
  let r := run_script i e in
  n ∈ successful r.2 → n ∉ failed r.2.
Proof.
  cbv zeta. destruct (run_script_facts i e) as (_ & _ & _ & -> & ->).
  destruct (ran i); [|by intros H%elem_of_nil].
  destruct i as [a|a]; cbn [script_successful script_failed]; intros Hs Hf.
  - apply elem_of_successful_of in Hs as (s & Hs & _ & Hok & Hn).
    apply elem_of_failed_of in Hf as (s' & Hs' & _ & Hbad & Hn').
    rewrite <- Hn' in Hn. rewrite (export_plan_name_inj a s s' Hs Hs' Hn) in Hok.
    congruence.
  - by eapply import_lists_exclusive.
Qed.

Lemma stage_not_both_successful_and_failed_witness :
  let i := ExportRun (export_args (Some "http://localhost:6006")
                        false true true false false false false) in
  let e := with_behaviour (uniform_env (PList [PDict [("status", PStr "exported")]]) "yes")
             export_prompts (Raises "connection refused") in
  "datasets" ∈ successful (run_script i e).2
  ∧ failed (run_script i e).2 = ["prompts"]
  ∧ ("datasets" ∉ failed (run_script i e).2).
Proof.
  assert ("datasets" ∈ successful
            (run_script
               (ExportRun (export_args (Some "http://localhost:6006")
                             false true true false false false false))
               (with_behaviour
                  (uniform_env (PList [PDict [("status", PStr "exported")]]) "yes")
                  export_prompts (Raises "connection refused"))).2) as Hin
    by (vm_compute; apply list_elem_of_here).
  split; [exact Hin|]. split; [vm_compute; reflexivity|].
  exact (stage_not_both_successful_and_failed
           (ExportRun (export_args (Some "http://localhost:6006")
                         false true true false false false false))
           (with_behaviour
              (uniform_env (PList [PDict [("status", PStr "exported")]]) "yes")
              export_prompts (Raises "connection refused"))
           "datasets" Hin).
Defined.

(** ** No stage selected *)

(** X4.  With the required arguments present and no stage selected, either
    script logs its "No ... type selected" error and returns: exit status 0,
    nothing called, nothing recorded, and [main] creates no directory.  The
    export has built its client by then; the import has done nothing else
    at all. *)
Theorem no_stage_selected_returns_early (i : invocation) (e : env) :
  missing_required i = false → stage_selected i = false →
  let r := run_script i e in
  r.1 = Ok () ∧ exit_code r.1 = 0
  ∧ calls (trace r.2) = [] ∧ successful r.2 = [] ∧ failed r.2 = []
  ∧ (∀ path, MakeDirs path ∉ trace r.2)
  ∧ match i with
    | ExportRun _ =>
        Log ERROR "No export type selected. Use --help to see available options."
          ∈ trace r.2
        ∧ ∃ url headers, CreateClient url headers ∈ trace r.2
    | ImportRun _ =>
        trace r.2
        = [Log ERROR "No import type selected. Use --help to see available options."]
    end.
Proof.
  intros Hmissing Hsel. destruct i as [a|a]; cbn [missing_required stage_selected run_script] in *.
  - destruct (export_run_unselected a e Hmissing Hsel)
      as (pre & -> & Hc & Hp & Hdirs & url & headers & Hclient).
    cbn [fst snd trace successful failed exit_code].
    rewrite calls_app, Hc. repeat split; try done.
    + intros path [Hin|Hin]%elem_of_app; [by eapply Hdirs|absurd_in Hin].
    + find_in.
    + exists url, headers. find_in.
  - apply orb_false_iff in Hmissing as [Hkey Hspace].
    rewrite (import_run_unselected a e Hkey Hspace Hsel).
    cbn [fst snd trace successful failed exit_code]. repeat split; try done.
    intros path Hin. absurd_in Hin.
Qed.

Lemma no_stage_selected_returns_early_witness :
  let i := ExportRun (export_args (Some "http://localhost:6006")
                        false false false false false false false) in
  let e := uniform_env PNone "yes" in
  missing_required i = false ∧ stage_selected i = false
  ∧ let r := run_script i e in
    r.1 = Ok () ∧ exit_code r.1 = 0
    ∧ calls (trace r.2) = [] ∧ successful r.2 = [] ∧ failed r.2 = []
    ∧ (∀ path, MakeDirs path ∉ trace r.2)
    ∧ Log ERROR "No export type selected. Use --help to see available options."
        ∈ trace r.2
    ∧ ∃ url headers, CreateClient url headers ∈ trace r.2.
Proof.
  split; [reflexivity|]. split; [reflexivity|].
  exact (no_stage_selected_returns_early
           (ExportRun (export_args (Some "http://localhost:6006")
                         false false false false false false false))
           (uniform_env PNone "yes") eq_refl eq_refl).
Defined.

(** ** The operator's questions *)

(** X5.  The export never asks the operator anything.  The import asks at
    most its two questions, the ingestion question before the annotation
    question, each at most once. *)
Theorem prompts_are_the_two_gates (i : invocation) (e : env) :
  prompts_asked (trace (run_script i e).2)
  `sublist_of` match i with
               | ExportRun _ => []
               | ImportRun _ => [TracesVisible; AnnotationsConfigured]
               end.
Proof.
  destruct (run_script_facts i e) as (_ & _ & -> & _).
  destruct (ran i); [|apply sublist_nil_l].
  destruct i as [a|a]; cbn [script_prompts]; [done|].
  unfold import_prompts_asked, annotation_prompts.
  apply (sublist_app _ [TracesVisible] _ [AnnotationsConfigured]).
  - destruct (pause_asked a e); [done|apply sublist_nil_l].
  - destruct (_ || _); [done|apply sublist_nil_l].
Qed.

Lemma traces_not_imported_no_pause a (e : env) :
  traces_imported a e = false →
  pause_asked a e = false ∧ after_pause a e = a.
Proof.
  intros H. unfold after_pause, pause_asked. by rewrite H.
Qed.

(** X6.  In the import, when the traces stage has not succeeded in the run
    (it failed or was not requested), the ingestion question is not asked,
    and the evaluations import, if requested, is called. *)
Theorem evaluations_not_gated_without_traces (a : import_to_arize.args) (e : env) :
  missing (import_to_arize.api_key a) = false →
  missing (import_to_arize.space_id a) = false →
  let r := import_to_arize.run a e in
  "traces" ∉ successful r.2 →
  (TracesVisible ∉ prompts_asked (trace r.2))
  ∧ ((import_to_arize.all a || import_to_arize.evaluations a) = true →
     import_evaluations ∈ calls (trace r.2)).
Proof.
  intros Hkey Hspace r Hnot. subst r.
  destruct (import_to_arize.any_selected a) eqn:Hsel.
  - destruct (import_run_facts a e Hkey Hspace Hsel) as (Hc & Hp & Hs & _).
    rewrite Hs, traces_in_import_successful in Hnot.
    apply not_true_is_false in Hnot.
    destruct (traces_not_imported_no_pause a e Hnot) as [Hasked Ha'].
    rewrite Hc, Hp. unfold import_prompts_asked, import_calls.
    rewrite Hasked, Ha'. split.
    + cbn [app]. unfold annotation_prompts. destruct (_ || _); intros Hin; absurd_in Hin.
    + intros Hreq. unfold evaluations_plan, calls_of. cbn [flat_map sd_req sd_fun].
      rewrite Hreq. find_in.
  - rewrite (import_run_unselected a e Hkey Hspace Hsel). cbn [snd trace]. split.
    + intros Hin. absurd_in Hin.
    + intros Hreq. unfold import_to_arize.any_selected in Hsel.
      destruct (import_to_arize.all a), (import_to_arize.evaluations a),
        (import_to_arize.datasets a), (import_to_arize.traces a),
        (import_to_arize.annotations a); done.
Qed.

Lemma evaluations_not_gated_without_traces_witness :
  let a := import_args (Some "key") (Some "space")
             false false false true true false false in
  let e := with_behaviour (uniform_env PNone "no") import_traces (Raises "timed out") in
  missing (import_to_arize.api_key a) = false
  ∧ missing (import_to_arize.space_id a) = false
  ∧ ("traces" ∉ successful (import_to_arize.run a e).2)
  ∧ calls (trace (import_to_arize.run a e).2) = [import_traces; import_evaluations]
  ∧ let r := import_to_arize.run a e in
    (TracesVisible ∉ prompts_asked (trace r.2))
    ∧ ((import_to_arize.all a || import_to_arize.evaluations a) = true →
       import_evaluations ∈ calls (trace r.2)).
Proof.
  assert ("traces" ∉ successful
            (import_to_arize.run
               (import_args (Some "key") (Some "space")
                  false false false true true false false)
               (with_behaviour (uniform_env PNone "no")
                  import_traces (Raises "timed out"))).2) as Hnot
    by (vm_compute; intros Hin; absurd_in Hin).
  split; [reflexivity|]. split; [reflexivity|]. split; [exact Hnot|].
  split; [vm_compute; reflexivity|].
  exact (evaluations_not_gated_without_traces
           (import_args (Some "key") (Some "space")
              false false false true true false false)
           (with_behaviour (uniform_env PNone "no") import_traces (Raises "timed out"))
           eq_refl eq_refl Hnot).
Defined.

(** ** The annotation stage *)

Lemma annotations_flag_after_pause a (e : env) :
  import_to_arize.annotations a = true →
  import_to_arize.all (after_pause a e) || import_to_arize.annotations (after_pause a e)
  = true.
Proof.
  intros H. destruct (after_pause_flags a e) as (_ & _ & -> & _).
  rewrite H. apply orb_true_r.
Qed.

Lemma annotations_flag_selected a :
  import_to_arize.annotations a = true → import_to_arize.any_selected a = true.
Proof.
  unfold import_to_arize.any_selected. intros ->.
  destruct (import_to_arize.all a), (import_to_arize.datasets a),
    (import_to_arize.traces a); done.
Qed.

(** X7.  With --annotations, a setup guide that raises does not end the
    annotation stage: the exception is logged, "annotation setup" is
    recorded as failed and the run exits with status 1, but the operator is
    still asked the annotation question, and the annotations import is
    called exactly when the answer is yes or y. *)
Theorem failed_setup_guide_does_not_block_annotations
    (a : import_to_arize.args) (e : env) (x : exn) :
  missing (import_to_arize.api_key a) = false →
  missing (import_to_arize.space_id a) = false →
  import_to_arize.annotations a = true →
  behaviour e setup_annotations_main = Raises x →
  let r := import_to_arize.run a e in
  r.1 = SysExit 1
  ∧ "annotation setup" ∈ failed r.2
  ∧ Log ERROR ("Error setting up annotations: " +:+ x) ∈ trace r.2
  ∧ AnnotationsConfigured ∈ prompts_asked (trace r.2)
  ∧ (import_annotations ∈ calls (trace r.2) ↔ yes e AnnotationsConfigured = true).
Proof.
  intros Hkey Hspace Hann Hx r. subst r.
  pose proof (annotations_flag_after_pause a e Hann) as Hreq.
  pose proof (annotations_flag_selected a Hann) as Hsel.
  destruct (import_run_facts a e Hkey Hspace Hsel) as (Hc & Hp & _ & Hf & _ & Hlog & _).
  destruct (import_run_report a e Hkey Hspace Hsel) as [Hexit _].
  assert ("annotation setup" ∈ import_failed a e) as Hin.
  { unfold import_failed, annotation_failed, setup_ok.
    rewrite Hreq, Hx. rewrite !elem_of_app. right. right. left. find_in. }
  rewrite Hexit, Hc, Hp, Hf.
  split; [|split; [exact Hin|split; [|split]]].
  - destruct (import_failed a e); [by apply elem_of_nil in Hin|done].
  - apply Hlog; [|done]. unfold annotation_calls. rewrite Hreq. find_in.
  - unfold import_prompts_asked, annotation_prompts. rewrite Hreq.
    apply elem_of_app. right. find_in.
  - unfold import_calls. rewrite !elem_of_app. split.
    + intros [Hh|[Hev|Han]].
      * by destruct (head_plan_calls a _ Hh) as [?|[?|?]].
      * apply elem_of_calls_of in Hev as (s & Hs & _ & Hfun).
        unfold evaluations_plan in Hs. apply list_elem_of_singleton in Hs as ->.
        discriminate Hfun.
      * unfold annotation_calls in Han. rewrite Hreq in Han.
        destruct (yes e AnnotationsConfigured); [done|absurd_in Han].
    + intros Hyes. right. right. unfold annotation_calls. rewrite Hreq, Hyes. find_in.
Qed.

Lemma failed_setup_guide_does_not_block_annotations_witness :
  let a := import_args (Some "key") (Some "space")
             false false false false false true false in
  let e := with_behaviour (uniform_env PNone "y") setup_annotations_main
             (Raises "no export directory") in
  let r := import_to_arize.run a e in
  calls (trace r.2) = [setup_annotations_main; import_annotations]
  ∧ r.1 = SysExit 1
  ∧ "annotation setup" ∈ failed r.2
  ∧ Log ERROR ("Error setting up annotations: " +:+ "no export directory") ∈ trace r.2
  ∧ AnnotationsConfigured ∈ prompts_asked (trace r.2)
  ∧ (import_annotations ∈ calls (trace r.2) ↔ yes e AnnotationsConfigured = true).
Proof.
  split; [vm_compute; reflexivity|].
  exact (failed_setup_guide_does_not_block_annotations
           (import_args (Some "key") (Some "space")
              false false false false false true false)
           (with_behaviour (uniform_env PNone "y") setup_annotations_main
              (Raises "no export directory"))
           "no export directory" eq_refl eq_refl eq_refl eq_refl).
Defined.

(** X8.  "annotation setup" is recorded as successful only by a run of the
    setup guide on its own: the annotation stage was entered through
    --setup-annotations (neither --annotations nor a still standing --all),
    the guide returned, and in that run the operator is not asked the
    annotation question and the annotations import is not called.  A guide
    that succeeds as part of the annotations import leaves no record. *)
Theorem setup_success_recorded_only_for_setup_flag (a : import_to_arize.args) (e : env) :
  let r := import_to_arize.run a e in
  "annotation setup" ∈ successful r.2 →
  import_to_arize.annotations a = false
  ∧ import_to_arize.setup_annotations a = true
  ∧ (∃ v, behaviour e setup_annotations_main = Returns v)
  ∧ (AnnotationsConfigured ∉ prompts_asked (trace r.2))
  ∧ (import_annotations ∉ calls (trace r.2)).
Proof.
  intros r Hin. subst r.
  destruct (run_script_facts (ImportRun a) e) as (_ & Hc & Hp & Hs & _).
  cbn [run_script] in Hc, Hp, Hs. rewrite Hs in Hin. rewrite Hc, Hp.
  destruct (ran (ImportRun a)); [|by apply elem_of_nil in Hin].
  cbn [script_successful script_calls script_prompts] in *.
  destruct (after_pause_flags a e) as (_ & _ & Hann & Hsetup).
  unfold import_successful in Hin. rewrite !elem_of_app in Hin.
  assert ("annotation setup" ∈ annotation_successful (after_pause a e) e) as Hin'.
  { destruct Hin as [Hh|[Hev|Han]]; [| |done].
    - by destruct (head_plan_names a _ _ (or_intror Hh)) as [?|[?|?]].
    - apply elem_of_successful_of in Hev as (s & Hs' & _ & _ & Hn).
      unfold evaluations_plan in Hs'. apply list_elem_of_singleton in Hs' as ->.
      discriminate Hn. }
  clear Hin. unfold annotation_successful in Hin'.
  destruct (import_to_arize.all (after_pause a e)
            || import_to_arize.annotations (after_pause a e)) eqn:Hreq.
  { destruct (_ && _); absurd_in Hin'. }
  apply orb_false_iff in Hreq as [Hall Hann'].
  destruct (import_to_arize.setup_annotations (after_pause a e)) eqn:Hset;
    [|by apply elem_of_nil in Hin'].
  unfold setup_ok in Hin'.
  destruct (behaviour e setup_annotations_main) as [v|x] eqn:Hb;
    [|by apply elem_of_nil in Hin'].
  split; [congruence|]. split; [congruence|]. split; [by exists v|].
  assert (annotation_calls (after_pause a e) e = [setup_annotations_main]) as Hac.
  { unfold annotation_calls. by rewrite Hall, Hann', Hset. }
  assert (annotation_prompts (after_pause a e) = []) as Hap.
  { unfold annotation_prompts. by rewrite Hall, Hann'. }
  split.
  - unfold import_prompts_asked. rewrite Hap, app_nil_r.
    destruct (pause_asked a e); intros H; absurd_in H.
  - unfold import_calls. rewrite Hac, !elem_of_app. intros [Hh|[Hev|Han]].
    + by destruct (head_plan_calls a _ Hh) as [?|[?|?]].
    + apply elem_of_calls_of in Hev as (s & Hs' & _ & Hfun).
      unfold evaluations_plan in Hs'. apply list_elem_of_singleton in Hs' as ->.
      discriminate Hfun.
    + absurd_in Han.
Qed.

Lemma setup_success_recorded_only_for_setup_flag_witness :
  let a := import_args (Some "key") (Some "space")
             false false false false false false true in
  let e := uniform_env PNone "no" in
  let r := import_to_arize.run a e in
  "annotation setup" ∈ successful r.2
  ∧ import_to_arize.annotations a = false
  ∧ import_to_arize.setup_annotations a = true
  ∧ (∃ v, behaviour e setup_annotations_main = Returns v)
  ∧ (AnnotationsConfigured ∉ prompts_asked (trace r.2))
  ∧ (import_annotations ∉ calls (trace r.2)).
Proof.
  assert ("annotation setup" ∈ successful
            (import_to_arize.run
               (import_args (Some "key") (Some "space")
                  false false false false false false true)
               (uniform_env PNone "no")).2) as Hin
    by (vm_compute; apply list_elem_of_here).
  split; [exact Hin|].
  exact (setup_success_recorded_only_for_setup_flag
           (import_args (Some "key") (Some "space")
              false false false false false false true)
           (uniform_env PNone "no") Hin).
Defined.

(** X9.  A declined ingestion question withdraws the evaluations and --all,
    not an explicit --annotations: the setup guide still runs after it, the
    operator is asked the annotation question, and the evaluations import is
    not called. *)
Theorem declined_pause_keeps_explicit_annotations (a : import_to_arize.args) (e : env) :
  missing (import_to_arize.api_key a) = false →
  missing (import_to_arize.space_id a) = false →
  import_to_arize.annotations a = true →
  let r := import_to_arize.run a e in
  TracesVisible ∈ prompts_asked (trace r.2) →
  yes e TracesVisible = false →
  prompts_asked (trace r.2) = [TracesVisible; AnnotationsConfigured]
  ∧ setup_annotations_main ∈ calls (trace r.2)
  ∧ (import_evaluations ∉ calls (trace r.2))
  ∧ (import_annotations ∈ calls (trace r.2) ↔ yes e AnnotationsConfigured = true).
Proof.
  intros Hkey Hspace Hann r Hasked Hno. subst r.
  pose proof (annotations_flag_selected a Hann) as Hsel.
  destruct (import_run_facts a e Hkey Hspace Hsel) as (Hc & Hp & _).
  rewrite Hp in Hasked. rewrite Hc, Hp.
  assert (pause_asked a e = true) as Hpause.
  { unfold import_prompts_asked, annotation_prompts in Hasked.
    destruct (pause_asked a e); [done|].
    cbn [app] in Hasked. destruct (_ || _); absurd_in Hasked. }
  destruct (declined_pause_calls a e Hpause Hno) as (Ha' & Hcalls & _).
  rewrite Hcalls. unfold import_prompts_asked. rewrite Hpause, Ha'.
  unfold annotation_prompts, annotation_calls.
  cbn [import_to_arize.clear_evaluations_and_all import_to_arize.all
       import_to_arize.annotations orb].
  rewrite Hann. split; [done|]. rewrite !elem_of_app. split; [right; find_in|].
  split.
  - intros [Hh|Han].
    + by destruct (head_plan_calls a _ Hh) as [?|[?|?]].
    + destruct (yes e AnnotationsConfigured); absurd_in Han.
  - split.
    + intros [Hh|Han].
      * by destruct (head_plan_calls a _ Hh) as [?|[?|?]].
      * destruct (yes e AnnotationsConfigured); [done|absurd_in Han].
    + intros ->. right. find_in.
Qed.

Lemma declined_pause_keeps_explicit_annotations_witness :
  let a := import_args (Some "key") (Some "space")
             true false false false false true false in
  let e := with_behaviour (uniform_env PNone "no") import_traces
             (Returns one_imported_project) in
  let r := import_to_arize.run a e in
  TracesVisible ∈ prompts_asked (trace r.2)
  ∧ yes e TracesVisible = false
  ∧ prompts_asked (trace r.2) = [TracesVisible; AnnotationsConfigured]
  ∧ setup_annotations_main ∈ calls (trace r.2)
  ∧ (import_evaluations ∉ calls (trace r.2))
  ∧ (import_annotations ∈ calls (trace r.2) ↔ yes e AnnotationsConfigured = true).
Proof.
  assert (TracesVisible ∈ prompts_asked
            (trace (import_to_arize.run
               (import_args (Some "key") (Some "space")
                  true false false false false true false)
               (with_behaviour (uniform_env PNone "no") import_traces
                  (Returns one_imported_project))).2)) as Hin
    by (vm_compute; apply list_elem_of_here).
  split; [exact Hin|]. split; [reflexivity|].
  exact (declined_pause_keeps_explicit_annotations
           (import_args (Some "key") (Some "space")
              true false false false false true false)
           (with_behaviour (uniform_env PNone "no") import_traces
              (Returns one_imported_project))
           eq_refl eq_refl eq_refl Hin eq_refl).
Defined.

(** ** The wrappers one by one *)

(** The six wrappers of the import, with the function each one calls. *)
Inductive wrapper :=
| DatasetsWrapper
| PromptsWrapper
| TracesWrapper
| EvaluationsWrapper
| AnnotationsWrapper
| SetupWrapper.

Definition wrapper_body (k : wrapper) : import_to_arize.args → M bool :=
  match k with
  | DatasetsWrapper => import_to_arize.import_datasets_wrapper
  | PromptsWrapper => import_to_arize.import_prompts_wrapper
  | TracesWrapper => import_to_arize.import_traces_wrapper
  | EvaluationsWrapper => import_to_arize.import_evaluations_wrapper
  | AnnotationsWrapper => import_to_arize.import_annotations_wrapper
  | SetupWrapper => import_to_arize.setup_annotations_wrapper
  end.

Definition wrapper_importer (k : wrapper) : extfun :=
  match k with
  | DatasetsWrapper => import_datasets
  | PromptsWrapper => import_prompts
  | TracesWrapper => import_traces
  | EvaluationsWrapper => import_evaluations
  | AnnotationsWrapper => import_annotations
  | SetupWrapper => setup_annotations_main
  end.

(** A wrapper in any world: a boolean, and a trace that it only extends. *)
Lemma wrapper_in_world k a (e : env) w :
  ∃ b t, wrapper_body k a e w = (Ok b, combine w (delta_trace t))
         ∧ calls t = [wrapper_importer k] ∧ prompts_asked t = []
         ∧ (k ≠ TracesWrapper →
            ∀ x, behaviour e (wrapper_importer k) = Raises x → b = false).
Proof.
  assert (∀ m f err, framed m → wrapper_run m e f err →
            ∃ t, m e w = (Ok (wrapper_ok m e), combine w (delta_trace t))
                 ∧ calls t = [f] ∧ prompts_asked t = []) as Hgen.
  { intros m f err Hm (t & Hrun & Hc & Hp & _). exists t.
    by rewrite (Hm e w), Hrun. }
  destruct k; cbn [wrapper_body wrapper_importer].
  - destruct (Hgen _ _ _ (framed_import_datasets_wrapper a)
                (import_datasets_wrapper_run a e)) as (t & -> & Hc & Hp).
    do 2 eexists. repeat split; try done.
    intros _ x Hx. by rewrite import_datasets_wrapper_value, Hx.
  - destruct (Hgen _ _ _ (framed_import_prompts_wrapper a)
                (import_prompts_wrapper_run a e)) as (t & -> & Hc & Hp).
    do 2 eexists. repeat split; try done.
    intros _ x Hx. by rewrite import_prompts_wrapper_value, Hx.
  - destruct (Hgen _ _ _ (framed_import_traces_wrapper a)
                (import_traces_wrapper_run a e)) as (t & -> & Hc & Hp).
    do 2 eexists. repeat split; done.
  - destruct (Hgen _ _ _ (framed_import_evaluations_wrapper a)
                (import_evaluations_wrapper_run a e)) as (t & -> & Hc & Hp).
    do 2 eexists. repeat split; try done.
    intros _ x Hx. by eapply import_evaluations_wrapper_raises.
  - destruct (Hgen _ _ _ (framed_import_annotations_wrapper a)
                (import_annotations_wrapper_run a e)) as (t & -> & Hc & Hp).
    do 2 eexists. repeat split; try done.
    intros _ x Hx. by eapply import_annotations_wrapper_raises.
  - destruct (setup_annotations_wrapper_run a e) as (t & Hrun & Hc & Hp & _).
    rewrite (Hrun w). do 2 eexists. repeat split; try done.
    intros _ x Hx. unfold setup_ok. by rewrite Hx.
Qed.

(** Two settings that are alike for a computation that calls [f] and shows
    no prompt: the same environment, and [f] leaves in both or in neither. *)
Definition alike_for (f : extfun) (s s' : setting) : Prop :=
  env_of s = env_of s' ∧ exit_of (exits s) f = exit_of (exits s') f.

Definition only_calls (f : extfun) {A} (m : M A) : Prop :=
  ∀ s s' w, alike_for f s s' → m s w = m s' w.

Lemma only_calls_constant {A} f (m : M A) :
  (∀ s s' w, m s w = m s' w) → only_calls f m.
Proof. intros H s s' w _. apply H. Qed.

Lemma only_calls_env {A} f (m : M A) :
  (∀ s s' w, env_of s = env_of s' → m s w = m s' w) → only_calls f m.
Proof. intros H s s' w [He _]. by apply H. Qed.

Lemma only_calls_call f : only_calls f (call f).
Proof. intros s s' w [He Hx]. unfold call. by rewrite He, Hx. Qed.

Lemma only_calls_bind {A B} f (m : M A) (k : A → M B) :
  only_calls f m → (∀ a, only_calls f (k a)) → only_calls f (m ≫= k).
Proof.
  intros Hm Hk s s' w Hs. unfold mbind, M_bind. rewrite (Hm s s' w Hs).
  destruct (m s' w) as [[a|x|c] w1]; [|done..]. by apply Hk.
Qed.

Lemma only_calls_try_except {A} f (m : M A) (h : exn → M A) :
  only_calls f m → (∀ x, only_calls f (h x)) → only_calls f (try_except m h).
Proof.
  intros Hm Hh s s' w Hs. unfold try_except. rewrite (Hm s s' w Hs).
  destruct (m s' w) as [[a|x|c] w1]; [done| |done]. by apply Hh.
Qed.

Lemma only_calls_try_finally {A} f (m : M A) (g : M unit) :
  only_calls f m → only_calls f g → only_calls f (try_finally m g).
Proof.
  intros Hm Hg s s' w Hs. unfold try_finally. rewrite (Hm s s' w Hs).
  destruct (m s' w) as [r w1]. by rewrite (Hg s s' w1 Hs).
Qed.

(** Goes through the body of a wrapper. *)
Ltac solve_only_calls :=
  repeat first
    [ progress intros
    | apply only_calls_call
    | apply only_calls_bind
    | apply only_calls_try_except
    | apply only_calls_try_finally
    | apply only_calls_constant; intros; reflexivity
    | apply only_calls_env; intros ? ? ? He;
      unfold trace_results_exist, trace_results_load; rewrite He; reflexivity
    | match goal with
      | |- only_calls _ (if ?b then _ else _) => destruct b
      | |- only_calls _ (match ?x with _ => _ end) => destruct x
      | |- only_calls _ (let (_, _) := ?x in _) => destruct x
      end ].

Lemma wrapper_body_only_calls k a : only_calls (wrapper_importer k) (wrapper_body k a).
Proof.
  destruct k; cbn [wrapper_body wrapper_importer];
    unfold import_to_arize.import_datasets_wrapper,
      import_to_arize.import_prompts_wrapper, import_to_arize.import_traces_wrapper,
      import_to_arize.import_evaluations_wrapper,
      import_to_arize.import_annotations_wrapper,
      import_to_arize.setup_annotations_wrapper;
    solve_only_calls.
Qed.

(** A wrapper whose function does not leave through [SystemExit] runs as
    in the cooperative setting. *)
Lemma wrapper_body_cooperative k a s w :
  exit_of (exits s) (wrapper_importer k) = None →
  wrapper_body k a s w = wrapper_body k a (cooperative (env_of s)) w.
Proof. intros H. apply wrapper_body_only_calls. by split. Qed.

(** A [SystemExit] of the function called passes the handlers of the
    wrapper; the [finally] of the setup wrapper still puts [sys.argv] back. *)
Lemma wrapper_body_exits k a s w code :
  exit_of (exits s) (wrapper_importer k) = Some code →
  let r := wrapper_body k a s w in
  r.1 = SysExit code
  ∧ (∃ t, trace r.2 = trace w ++ t ∧ calls t = [wrapper_importer k]
          ∧ prompts_asked t = [])
  ∧ sys_argv r.2 = sys_argv w ∧ successful r.2 = successful w ∧ failed r.2 = failed w.
Proof.
  intros H.
  destruct k; cbn [wrapper_body wrapper_importer] in *;
    unfold import_to_arize.import_datasets_wrapper,
      import_to_arize.import_prompts_wrapper, import_to_arize.import_traces_wrapper,
      import_to_arize.import_evaluations_wrapper,
      import_to_arize.import_annotations_wrapper,
      import_to_arize.setup_annotations_wrapper;
    cbv [try_except try_finally logger emit call mbind M_bind get_argv set_argv
         mret M_ret];
    rewrite H; cbn [fst snd trace sys_argv successful failed];
    rewrite <- ?app_assoc; (split; [done|]); (split; [|done]);
    eexists; (split; [reflexivity|]); done.
Qed.

(** X10.  Each of the six import wrappers catches every exception derived
    from [Exception] and nothing else.  In whatever state and setting it is
    entered, it calls its one function once and no other, asks the operator
    nothing, only appends to what has been logged and written, and leaves
    [sys.argv] and the two lists of stages as it found them.  When the
    function returns or raises an exception derived from [Exception], the
    wrapper returns True or False; except for the traces wrapper, which may
    recover from the results file, such an exception makes it return False.
    When the function raises [SystemExit], the exit leaves the wrapper. *)
Theorem import_wrappers_catch_exceptions_only
    (k : wrapper) (a : import_to_arize.args) (s : setting) (w : world) :
  let r := wrapper_body k a s w in
  let f := wrapper_importer k in
  (∃ t, trace r.2 = trace w ++ t)
  ∧ calls (trace r.2) = calls (trace w) ++ [f]
  ∧ prompts_asked (trace r.2) = prompts_asked (trace w)
  ∧ sys_argv r.2 = sys_argv w
  ∧ successful r.2 = successful w
  ∧ failed r.2 = failed w
  ∧ match exit_of (exits s) f with
    | Some code => r.1 = SysExit code
    | None =>
        (r.1 = Ok true ∨ r.1 = Ok false)
        ∧ (k ≠ TracesWrapper →
           ∀ x, behaviour (env_of s) f = Raises x → r.1 = Ok false)
    end.
Proof.
  cbv zeta. destruct (exit_of (exits s) (wrapper_importer k)) as [code|] eqn:Hexit.
  - destruct (wrapper_body_exits k a s w code Hexit)
      as (-> & (t & -> & Hc & Hp) & -> & -> & ->).
    rewrite calls_app, prompts_asked_app, Hc, Hp, app_nil_r.
    repeat split; try done. by exists t.
  - rewrite (wrapper_body_cooperative k a s w Hexit).
    destruct (wrapper_in_world k a (env_of s) w) as (b & t & -> & Hc & Hp & Hx).
    cbn [fst snd combine delta_trace trace sys_argv successful failed].
    rewrite calls_app, prompts_asked_app, Hc, Hp, !app_nil_r.
    split; [by exists t|]. repeat split; try done.
    + destruct b; auto.
    + intros Hk x Hraise. by rewrite (Hx Hk x Hraise).
Qed.

(** ** The results files *)

(** The JSON files written in a trace, in order: path and content. *)
Definition writes (t : list event) : list (string * pyval) :=
  omap (λ ev, match ev with WriteJson path v => Some (path, v) | _ => None end) t.

Lemma writes_app t1 t2 : writes (t1 ++ t2) = writes t1 ++ writes t2.
Proof. apply omap_app. Qed.

Lemma framed_writes {A} (m : M A) e w :
  framed m → writes (trace (m e w).2) = writes (trace w) ++ writes (trace (m e ∅w).2).
Proof. intros Hm. rewrite (Hm e w). cbn [snd combine trace]. apply writes_app. Qed.

Section list_writes.
Import import_to_arize.
Variables (a : args) (e : env).

Ltac list_wrapper_writes f :=
  run_stage;
  destruct (behaviour e f) as [v|x]; simpl; [|done];
  destruct v as [|b|z|s|l|d]; simpl; try done;
  unfold entity_list; rewrite len_list_positive;
  destruct (nonempty l) eqn:Hne; simpl; [|done];
  destruct (forallb is_dict l) eqn:Hl; simpl;
    [ destruct (status_sum_value "imported" l Hl) as (n1 & -> & _);
      destruct (status_sum_value "already_exists" l Hl) as (n2 & -> & _);
      simpl; done
    | pose proof (status_sum_is_val "imported" l) as H; rewrite Hl in H;
      by destruct (py_sum (status_is "imported") l) ].

Lemma import_datasets_wrapper_writes :
  writes (trace (import_datasets_wrapper a e ∅w).2)
  = match behaviour e import_datasets with
    | Returns v =>
        if entity_list v then [("results/dataset_import_results.json", v)] else []
    | Raises _ => []
    end.
Proof. unfold import_datasets_wrapper. list_wrapper_writes import_datasets. Qed.

Lemma import_prompts_wrapper_writes :
  writes (trace (import_prompts_wrapper a e ∅w).2)
  = match behaviour e import_prompts with
    | Returns v =>
        if entity_list v then [("results/prompt_import_results.json", v)] else []
    | Raises _ => []
    end.
Proof. unfold import_prompts_wrapper. list_wrapper_writes import_prompts. Qed.
End list_writes.

(** X11.  The dataset and the prompt import wrappers save the importer's
    result, unchanged and once, exactly when the importer returned a
    non-empty list of per-entity dicts; this does not depend on the
    statuses, so the file is also written when the wrapper returns False
    because nothing was imported.  Nothing is written when the importer
    raised, returned an empty list or something that is not a list of
    dicts. *)
Theorem list_wrappers_save_the_importers_result
    (a : import_to_arize.args) (e : env) (w : world) :
  writes (trace (import_to_arize.import_datasets_wrapper a e w).2)
  = writes (trace w)
    ++ match behaviour e import_datasets with
       | Returns v =>
           if entity_list v then [("results/dataset_import_results.json", v)] else []
       | Raises _ => []
       end
  ∧ writes (trace (import_to_arize.import_prompts_wrapper a e w).2)
    = writes (trace w)
      ++ match behaviour e import_prompts with
         | Returns v =>
             if entity_list v then [("results/prompt_import_results.json", v)] else []
         | Raises _ => []
         end.
Proof.
  rewrite (framed_writes _ e w (framed_import_datasets_wrapper a)),
    (framed_writes _ e w (framed_import_prompts_wrapper a)).
  by rewrite import_datasets_wrapper_writes, import_prompts_wrapper_writes.
Qed.

Section traces_writes.
Import import_to_arize.
Variables (a : args) (e : env).

(** The result the traces wrapper saves: a non-empty dict. *)
Definition saved_traces (v : pyval) : list (string * pyval) :=
  match v with
  | PDict d => if nonempty d then [("results/trace_import_results.json", v)] else []
  | _ => []
  end.

Ltac traces_writes v :=
  destruct v as [|b|z|s|l|d]; simpl; rewrite ?andb_false_r; simpl; try done;
  rewrite len_dict_positive;
  destruct (nonempty d) eqn:Hne; simpl; [|by destruct d];
  by destruct (count_projects d 0 0).

Lemma import_traces_wrapper_writes :
  writes (trace (import_traces_wrapper a e ∅w).2)
  = match traces_source e with
    | Some v => saved_traces v
    | None => []
    end.
Proof.
  unfold traces_source, import_traces_wrapper, saved_traces. run_stage.
  destruct (behaviour e import_traces) as [v|x]; simpl.
  - traces_writes v.
  - destruct (trace_results_file e) as [|y|v] eqn:Hfile; simpl;
      rewrite ?Hfile; simpl; try done.
    traces_writes v.
Qed.
End traces_writes.

(** X12.  The traces wrapper saves the result it works on, unchanged and
    once, exactly when that result is a non-empty dict, whatever the
    statuses in it.  The result is what [import_traces] returned or, after
    an exception, what the results file held: a recovered result is written
    back to the file it was read from.  Nothing is written when there is no
    result to work on. *)
Theorem traces_wrapper_saves_the_result_it_counts
    (a : import_to_arize.args) (e : env) (w : world) :
  writes (trace (import_to_arize.import_traces_wrapper a e w).2)
  = writes (trace w)
    ++ match behaviour e import_traces, trace_results_file e with
       | Returns v, _ => saved_traces v
       | Raises _, Loadable v => saved_traces v
       | Raises _, _ => []
       end.
Proof.
  rewrite (framed_writes _ e w (framed_import_traces_wrapper a)).
  rewrite import_traces_wrapper_writes. unfold traces_source.
  destruct (behaviour e import_traces); [done|].
  by destruct (trace_results_file e).
Qed.

(** ** What a computation may add to the trace *)

(** Every event that [m] adds to the trace passes the test [P]. *)
Definition emits_only (P : event → bool) {A} (m : M A) : Prop :=
  ∀ e w, ∃ t, trace (m e w).2 = trace w ++ t ∧ forallb P t = true.

Lemma emits_only_silent {A} (P : event → bool) (m : M A) :
  (∀ e w, trace (m e w).2 = trace w) → emits_only P m.
Proof. intros H e w. exists []. by rewrite H, app_nil_r. Qed.

Lemma emits_only_ret {A} P (a : A) : emits_only P (mret a).
Proof. by apply emits_only_silent. Qed.

Lemma emits_only_lift {A} P (r : pyres A) : emits_only P (lift r).
Proof. by apply emits_only_silent. Qed.

Lemma emits_only_emit P ev : P ev = true → emits_only P (emit ev).
Proof. intros H e w. exists [ev]. simpl. by rewrite H. Qed.

Lemma emits_only_call P f : P (Call f) = true → emits_only P (call f).
Proof.
  intros H s w. exists [Call f]. unfold call. simpl.
  rewrite H. by destruct (exit_of (exits s) f), (behaviour (env_of s) f).
Qed.

Lemma emits_only_input P p : P (Input p) = true → emits_only P (input p).
Proof.
  intros H s w. exists [Input p]. unfold input. simpl.
  rewrite H. by destruct (at_eof (eof_at s) p).
Qed.

Lemma emits_only_bind {A B} P (m : M A) (k : A → M B) :
  emits_only P m → (∀ a, emits_only P (k a)) → emits_only P (m ≫= k).
Proof.
  intros Hm Hk e w. destruct (Hm e w) as (t1 & H1 & F1).
  unfold mbind, M_bind. destruct (m e w) as [[a|x|c] w1]; cbn [snd] in *;
    [|by exists t1..].
  destruct (Hk a e w1) as (t2 & H2 & F2). exists (t1 ++ t2).
  by rewrite H2, H1, app_assoc, forallb_app, F1, F2.
Qed.

Lemma emits_only_try_except {A} P (m : M A) (h : exn → M A) :
  emits_only P m → (∀ x, emits_only P (h x)) → emits_only P (try_except m h).
Proof.
  intros Hm Hh e w. destruct (Hm e w) as (t1 & H1 & F1).
  unfold try_except. destruct (m e w) as [[a|x|c] w1]; cbn [snd] in *;
    [by exists t1| |by exists t1].
  destruct (Hh x e w1) as (t2 & H2 & F2). exists (t1 ++ t2).
  by rewrite H2, H1, app_assoc, forallb_app, F1, F2.
Qed.

Lemma emits_only_try_finally {A} P (m : M A) (f : M unit) :
  emits_only P m → emits_only P f → emits_only P (try_finally m f).
Proof.
  intros Hm Hf e w. destruct (Hm e w) as (t1 & H1 & F1).
  unfold try_finally. destruct (m e w) as [r w1]; cbn [snd] in *.
  destruct (Hf e w1) as (t2 & H2 & F2). exists (t1 ++ t2).
  destruct (f e w1) as [[[]|x|c] w2]; cbn [snd] in *;
    by rewrite H2, H1, app_assoc, forallb_app, F1, F2.
Qed.

Lemma emits_only_when P b m : emits_only P m → emits_only P (when b m).
Proof. intros. destruct b; [done | apply emits_only_ret]. Qed.

Lemma emits_only_for_each {A} P (xs : list A) (body : A → M unit) :
  (∀ x, emits_only P (body x)) → emits_only P (for_each xs body).
Proof.
  intros Hbody. induction xs as [|x xs IH]; simpl.
  - apply emits_only_ret.
  - apply emits_only_bind; [apply Hbody | by intros _].
Qed.

(** Goes through a computation written with the operations of the monad. *)
Ltac solve_emits :=
  repeat first
    [ progress intros
    | apply emits_only_ret
    | apply emits_only_lift
    | apply emits_only_bind
    | apply emits_only_try_except
    | apply emits_only_try_finally
    | apply emits_only_when
    | apply emits_only_for_each
    | apply emits_only_emit; reflexivity
    | apply emits_only_call; reflexivity
    | apply emits_only_input; reflexivity
    | apply emits_only_silent; intros; reflexivity
    | apply emits_only_silent; intros; unfold trace_results_load;
      match goal with |- context [trace_results_file ?e] =>
        by destruct (trace_results_file e) end
    | match goal with
      | |- emits_only _ (if ?b then _ else _) => destruct b
      | |- emits_only _ (match ?x with _ => _ end) => destruct x
      | |- emits_only _ (let (_, _) := ?x in _) => destruct x
      end ].

(** The events of the export once its client is there: log records,
    printed lines and calls of the exporters. *)
Definition export_event (ev : event) : bool :=
  match ev with
  | Log _ _ | Print _ => true
  | Call f =>
      match f with
      | export_datasets | export_prompts | export_traces
      | export_annotations | export_evaluations => true
      | _ => false
      end
  | _ => false
  end.

Lemma export_stages_emit a :
  emits_only export_event (export_all_projects.stages a;; export_all_projects.summary).
Proof.
  unfold export_all_projects.stages, export_all_projects.summary,
    export_all_projects.datasets_stage, export_all_projects.prompts_stage,
    export_all_projects.traces_stage, export_all_projects.annotations_stage,
    export_all_projects.evaluations_stage, logger, print,
    successful_append, failed_append, get_successful, get_failed, sys_exit, exists_path.
  solve_emits.
Qed.

(** The results files of the import. *)
Definition import_results_files : list string :=
  [ "results/dataset_import_results.json"; "results/prompt_import_results.json";
    "results/trace_import_results.json"; "results/evaluation_import_results.json";
    "results/annotation_import_results.json" ].

(** The events of the import: log records, printed lines, the questions,
    calls of the importers and of the setup guide, and writes of the
    results files. *)
Definition import_event (ev : event) : bool :=
  match ev with
  | Log _ _ | Print _ | Input _ => true
  | Call f =>
      match f with
      | import_datasets | import_prompts | import_traces
      | import_evaluations | import_annotations | setup_annotations_main => true
      | _ => false
      end
  | WriteJson path _ => existsb (String.eqb path) import_results_files
  | _ => false
  end.

Lemma import_main_emits a : emits_only import_event (import_to_arize.main a).
Proof.
  unfold import_to_arize.main, import_to_arize.stages, import_to_arize.summary,
    import_to_arize.datasets_stage, import_to_arize.prompts_stage,
    import_to_arize.traces_stage, import_to_arize.ingestion_pause,
    import_to_arize.evaluations_stage, import_to_arize.annotations_stage,
    import_to_arize.import_datasets_wrapper, import_to_arize.import_prompts_wrapper,
    import_to_arize.import_traces_wrapper, import_to_arize.import_evaluations_wrapper,
    import_to_arize.import_annotations_wrapper,
    import_to_arize.setup_annotations_wrapper, import_to_arize.record,
    logger, print, json_dump,
    successful_append, failed_append, get_successful, get_failed, sys_exit,
    get_argv, set_argv, trace_results_exist.
  solve_emits.
Qed.

(** ** The base URL of the client *)

Fixpoint slashes (n : nat) : string :=
  match n with
  | O => EmptyString
  | S n' => String "/" (slashes n')
  end.

Lemma rstrip_slash_slashes s : ∃ n, s = rstrip_slash s +:+ slashes n.
Proof.
  induction s as [|c s' [n IH]]; [by exists O|].
  simpl. destruct (rstrip_slash s') as [|d r] eqn:Hr.
  - simpl in IH. destruct (Ascii.eqb_spec c "/") as [->|_].
    + exists (S n). simpl. by rewrite IH.
    + exists n. simpl. by rewrite IH.
  - exists n. simpl. simpl in IH. by rewrite IH at 1.
Qed.

Lemma rev_app_head c s : ∀ acc acc',
  match String.rev_app (String c s) acc with
  | String x _ => Ascii.eqb x "/"
  | EmptyString => false
  end
  = match String.rev_app (String c s) acc' with
    | String x _ => Ascii.eqb x "/"
    | EmptyString => false
    end.
Proof.
  revert c. induction s as [|d s IH]; intros c acc acc'; [done|].
  apply (IH d).
Qed.

Lemma ends_with_slash_cons c d r :
  ends_with_slash (String c (String d r)) = ends_with_slash (String d r).
Proof. unfold ends_with_slash, String.rev. apply (rev_app_head d r). Qed.

Lemma rstrip_slash_no_slash s : ends_with_slash (rstrip_slash s) = false.
Proof.
  induction s as [|c s' IH]; [done|].
  simpl. destruct (rstrip_slash s') as [|d r] eqn:Hr.
  - destruct (Ascii.eqb_spec c "/") as [->|Hc]; [done|].
    unfold ends_with_slash. simpl. by apply Ascii.eqb_neq.
  - by rewrite ends_with_slash_cons.
Qed.

(** ** The events of a run *)

(** The headers of the export's client. *)
Definition client_headers (a : export_all_projects.args) : list (string * string) :=
  [("Accept", "application/json"); ("Content-Type", "application/json")]
  ++ (if missing (export_all_projects.api_key a) then []
      else [("api_key", default "" (export_all_projects.api_key a))]).

(** [main] of the export up to the client: the rest of [main] runs in a
    world that holds two log records and the client. *)
Lemma export_main_prefix a (e : env) url :
  export_all_projects.base_url a = Some url → url ≠ "" →
  export_all_projects.run a e
  = (if negb (export_all_projects.any_selected a) then
       logger ERROR "No export type selected. Use --help to see available options."
     else
       makedirs (path_join (export_all_projects.export_dir a) "projects");;
       export_all_projects.stages a;;
       export_all_projects.summary) e
      {| trace := (if export_all_projects.verbose a then [SetLevel DEBUG] else [])
                  ++ [ Log INFO ("Connecting to Phoenix server at " +:+ url);
                       Log INFO ("Exporting data to: "
                                 +:+ abspath e (export_all_projects.export_dir a));
                       CreateClient (rstrip_slash url) (client_headers a) ];
         sys_argv := ["export_all_projects.py"];
         successful := []; failed := [] |}.
Proof.
  intros Hurl Hne.
  assert (missing (export_all_projects.base_url a) = false) as Hmissing.
  { rewrite Hurl. simpl. by apply String.eqb_neq. }
  unfold export_all_projects.run, export_all_projects.main.
  rewrite Hmissing, Hurl. cbn [default from_option id].
  by destruct (export_all_projects.verbose a).
Qed.

Lemma client_headers_spec a :
  ("Accept", "application/json") ∈ client_headers a
  ∧ ("Content-Type", "application/json") ∈ client_headers a
  ∧ (∀ k v, (k, v) ∈ client_headers a →
       k = "Accept" ∨ k = "Content-Type"
       ∨ (k = "api_key" ∧ export_all_projects.api_key a = Some v ∧ v ≠ ""))
  ∧ (∀ v, export_all_projects.api_key a = Some v → v ≠ "" →
       ("api_key", v) ∈ client_headers a).
Proof.
  unfold client_headers.
  split; [find_in|]. split; [find_in|]. split.
  - intros k v Hin. rewrite elem_of_app, !elem_of_cons, elem_of_nil in Hin.
    destruct Hin as [[[= -> ->]|[[= -> ->]|[]]]|Hin]; auto.
    destruct (export_all_projects.api_key a) as [key|]; simpl in Hin;
      [|by apply elem_of_nil in Hin].
    destruct (String.eqb_spec key "") as [Heq|Hkey]; [by apply elem_of_nil in Hin|].
    apply list_elem_of_singleton in Hin as [= -> ->]. auto.
  - intros v -> Hv. simpl. apply String.eqb_neq in Hv as ->. find_in.
Qed.

(** X13.  An export with a base URL builds its client exactly once and
    before anything else but two log records (and the log level, with
    --verbose).  The client's base URL is the given one without its trailing
    slashes; its headers are Accept and Content-Type, and the API key
    exactly when a non-empty one is given.  When a stage is selected [main]
    then creates the projects directory under the export directory, before
    the first exporter is called.  From then on [main] only logs, prints and
    calls exporters: it asks nothing, writes no results file itself, builds
    no second client and creates no other directory. *)
Theorem export_builds_client_then_directory_then_exports
    (a : export_all_projects.args) (e : env) (url : string) :
  export_all_projects.base_url a = Some url → url ≠ "" →
  let r := export_all_projects.run a e in
  ∃ headers rest,
    trace r.2
    = (if export_all_projects.verbose a then [SetLevel DEBUG] else [])
      ++ [ Log INFO ("Connecting to Phoenix server at " +:+ url);
           Log INFO ("Exporting data to: "
                     +:+ abspath e (export_all_projects.export_dir a));
           CreateClient (rstrip_slash url) headers ]
      ++ (if export_all_projects.any_selected a
          then [MakeDirs (path_join (export_all_projects.export_dir a) "projects")]
          else [])
      ++ rest
    ∧ forallb export_event rest = true
    ∧ ends_with_slash (rstrip_slash url) = false
    ∧ (∃ n, url = rstrip_slash url +:+ slashes n)
    ∧ ("Accept", "application/json") ∈ headers
    ∧ ("Content-Type", "application/json") ∈ headers
    ∧ (∀ k v, (k, v) ∈ headers →
         k = "Accept" ∨ k = "Content-Type"
         ∨ (k = "api_key" ∧ export_all_projects.api_key a = Some v ∧ v ≠ ""))
    ∧ (∀ v, export_all_projects.api_key a = Some v → v ≠ "" →
         ("api_key", v) ∈ headers).
Proof.
  intros Hurl Hne r. subst r.
  rewrite (export_main_prefix a e url Hurl Hne).
  assert (∃ rest,
    trace ((if negb (export_all_projects.any_selected a) then
       logger ERROR "No export type selected. Use --help to see available options."
     else
       makedirs (path_join (export_all_projects.export_dir a) "projects");;
       export_all_projects.stages a;;
       export_all_projects.summary) e
      {| trace := (if export_all_projects.verbose a then [SetLevel DEBUG] else [])
                  ++ [ Log INFO ("Connecting to Phoenix server at " +:+ url);
                       Log INFO ("Exporting data to: "
                                 +:+ abspath e (export_all_projects.export_dir a));
                       CreateClient (rstrip_slash url) (client_headers a) ];
         sys_argv := ["export_all_projects.py"];
         successful := []; failed := [] |}).2
    = ((if export_all_projects.verbose a then [SetLevel DEBUG] else [])
       ++ [ Log INFO ("Connecting to Phoenix server at " +:+ url);
            Log INFO ("Exporting data to: "
                      +:+ abspath e (export_all_projects.export_dir a));
            CreateClient (rstrip_slash url) (client_headers a) ])
      ++ (if export_all_projects.any_selected a
          then [MakeDirs (path_join (export_all_projects.export_dir a) "projects")]
          else [])
      ++ rest
    ∧ forallb export_event rest = true) as (rest & Htrace & Hrest).
  { destruct (export_all_projects.any_selected a); cbn [negb].
    - rewrite (run_ok _ _ _ _ _ _ (makedirs_run _ _ _)).
      match goal with
      | |- context [(export_all_projects.stages a ≫= ?k) ?s ?w] =>
          destruct (export_stages_emit a s w) as (t & -> & Ft)
      end.
      exists t. split; [|done]. cbn [combine trace delta]. by rewrite <- app_assoc.
    - exists [Log ERROR "No export type selected. Use --help to see available options."].
      done. }
  exists (client_headers a), rest. rewrite Htrace, <- app_assoc.
  split; [done|]. split; [done|].
  split; [apply rstrip_slash_no_slash|]. split; [apply rstrip_slash_slashes|].
  apply client_headers_spec.
Qed.

Lemma export_builds_client_then_directory_then_exports_witness :
  let a := export_args (Some "http://localhost:6006/")
             false true false false false false false in
  let e := uniform_env (PList [PDict [("status", PStr "exported")]]) "yes" in
  let r := export_all_projects.run a e in
  rstrip_slash "http://localhost:6006/" = "http://localhost:6006"
  ∧ calls (trace r.2) = [export_datasets]
  ∧ ∃ headers rest,
    trace r.2
    = (if export_all_projects.verbose a then [SetLevel DEBUG] else [])
      ++ [ Log INFO ("Connecting to Phoenix server at " +:+ "http://localhost:6006/");
           Log INFO ("Exporting data to: "
                     +:+ abspath e (export_all_projects.export_dir a));
           CreateClient (rstrip_slash "http://localhost:6006/") headers ]
      ++ (if export_all_projects.any_selected a
          then [MakeDirs (path_join (export_all_projects.export_dir a) "projects")]
          else [])
      ++ rest
    ∧ forallb export_event rest = true
    ∧ ends_with_slash (rstrip_slash "http://localhost:6006/") = false
    ∧ (∃ n, "http://localhost:6006/" = rstrip_slash "http://localhost:6006/" +:+ slashes n)
    ∧ ("Accept", "application/json") ∈ headers
    ∧ ("Content-Type", "application/json") ∈ headers
    ∧ (∀ k v, (k, v) ∈ headers →
         k = "Accept" ∨ k = "Content-Type"
         ∨ (k = "api_key" ∧ export_all_projects.api_key a = Some v ∧ v ≠ ""))
    ∧ (∀ v, export_all_projects.api_key a = Some v → v ≠ "" →
         ("api_key", v) ∈ headers).
Proof.
  split; [vm_compute; reflexivity|]. split; [vm_compute; reflexivity|].
  exact (export_builds_client_then_directory_then_exports
           (export_args (Some "http://localhost:6006/")
              false true false false false false false)
           (uniform_env (PList [PDict [("status", PStr "exported")]]) "yes")
           "http://localhost:6006/" eq_refl ltac:(discriminate)).
Defined.

(** X14.  [main] of the import only logs, prints, asks its two questions,
    calls the five importers and the setup guide, and writes results files:
    every file it writes is one of the five results files under results/,
    it calls no exporter, builds no client, creates no directory and does
    not change the log level. *)
Theorem import_main_touches_only_its_results_files
    (a : import_to_arize.args) (e : env) :
  let t := trace (import_to_arize.run a e).2 in
  forallb import_event t = true
  ∧ (∀ path v, (path, v) ∈ writes t → path ∈ import_results_files)
  ∧ (∀ f, f ∈ calls t → export_event (Call f) = false).
Proof.
  intros t. subst t.
  destruct (import_main_emits a e (initial_world ["import_to_arize.py"]))
    as (t & Ht & Ft).
  unfold import_to_arize.run. rewrite Ht. cbn [initial_world trace app].
  split; [done|].
  rewrite forallb_forall in Ft. split.
  - intros path v Hin. unfold writes in Hin.
    apply list_elem_of_omap in Hin as (ev & Hev & Hw).
    apply list_elem_of_In, Ft in Hev.
    destruct ev; try discriminate Hw. injection Hw as -> ->.
    cbn [import_event] in Hev. apply existsb_exists in Hev as (p & Hp & Heq).
    apply String.eqb_eq in Heq as ->. by apply list_elem_of_In.
  - intros f Hin. unfold calls in Hin.
    apply list_elem_of_omap in Hin as (ev & Hev & Hc).
    apply list_elem_of_In, Ft in Hev.
    destruct ev; try discriminate Hc. injection Hc as ->.
    by destruct f.
Qed.

(** ** The wrappers of the results keyed by project *)

(** A project entry that counts as a success for the evaluations and the
    annotations wrappers: a dict whose "success" is truthy. *)
Definition succeeded_project (p : pyval) : bool :=
  match p with
  | PDict d => truthy (default PNone (dict_lookup "success" d))
  | _ => false
  end.

(** The project entries of a result that these wrappers can count: the
    values of the dict under "projects", when each of them is a dict whose
    count under [k], if it has one, is a number. *)
Definition project_results (k : string) (v : pyval) : option (list pyval) :=
  match v with
  | PDict d =>
      match dict_lookup "projects" d with
      | Some (PDict projs) =>
          if forallb (project_record k) projs.*2 then Some projs.*2 else None
      | _ => None
      end
  | _ => None
  end.

Lemma item_weight_one_if_success x :
  item_weight one_if_success x = if succeeded_project x then 1 else 0.
Proof.
  destruct x as [| | | | |d]; try done.
  unfold item_weight, one_if_success, succeeded_project. simpl.
  by destruct (truthy _).
Qed.

Lemma success_sum_value ps :
  forallb is_dict ps = true →
  ∃ n, py_sum one_if_success ps = Val n ∧ (0 <? n) = existsb succeeded_project ps.
Proof.
  intros Hps. eexists. split.
  - apply py_sum_from_val. by rewrite (forallb_eq _ _ ps item_ok_one_if_success).
  - rewrite Z.add_0_l, weights_positive.
    + clear Hps. induction ps as [|x ps IH]; simpl; [done|].
      rewrite IH, item_weight_one_if_success. by destruct (succeeded_project x).
    + intros x. rewrite item_weight_one_if_success. by destruct (succeeded_project x).
Qed.

Lemma project_records_are_dicts k ps :
  forallb (project_record k) ps = true → forallb is_dict ps = true.
Proof.
  rewrite !forallb_forall. intros H x Hx. eapply project_record_is_dict. by apply H.
Qed.

Lemma count_sum_value k ps :
  forallb (project_record k) ps = true → ∃ n, py_sum (count_field k) ps = Val n.
Proof.
  intros Hps. eexists. apply py_sum_from_val.
  by rewrite (forallb_eq _ _ ps (item_ok_count_field k)).
Qed.

Lemma count_sum_exc k ps :
  forallb (project_record k) ps = false → ∃ x, py_sum (count_field k) ps = Exc x.
Proof.
  intros Hps. pose proof (py_sum_is_val (count_field k) ps) as H.
  rewrite (forallb_eq _ _ ps (item_ok_count_field k)), Hps in H.
  destruct (py_sum (count_field k) ps) as [n|x]; [done|by exists x].
Qed.

Lemma success_sum_exc ps :
  forallb is_dict ps = false → ∃ x, py_sum one_if_success ps = Exc x.
Proof.
  intros Hps. pose proof (py_sum_is_val one_if_success ps) as H.
  rewrite (forallb_eq _ _ ps item_ok_one_if_success), Hps in H.
  destruct (py_sum one_if_success ps) as [n|x]; [done|by exists x].
Qed.

Lemma has_projects_key d :
  truthy (PDict d) && is_dict (PDict d) && has_key "projects" (PDict d)
  = bool_decide (is_Some (dict_lookup "projects" d)).
Proof.
  cbn [truthy is_dict has_key]. rewrite andb_true_r.
  destruct d as [|kv d]; [done|]. done.
Qed.

Section projects_wrappers.
Import import_to_arize.
Variables (a : args) (e : env).

(** What a wrapper of this kind returns and writes, for the importer [f],
    the count field [k] and the results file [path]. *)
Definition projects_outcome (f : extfun) (k path : string)
    : bool * list (string * pyval) :=
  match behaviour e f with
  | Returns v =>
      match project_results k v with
      | Some ps => (existsb succeeded_project ps, [(path, v)])
      | None => (false, [])
      end
  | Raises _ => (false, [])
  end.

Ltac projects_wrapper_outcome f k :=
  unfold projects_outcome; run_stage;
  destruct (behaviour e f) as [v|x]; simpl; [|done];
  destruct v as [|b|z|s|l|d]; simpl; rewrite ?andb_false_r; simpl; try done;
  change (nonempty d && true) with (truthy (PDict d) && is_dict (PDict d));
  rewrite has_projects_key;
  destruct (dict_lookup "projects" d) as [projs|] eqn:Hprojs; simpl; [|done];
  destruct projs as [|b|z|s|l|projs]; simpl; try done;
  destruct (forallb (project_record k) projs.*2) eqn:Hrec;
    [ destruct (success_sum_value _ (project_records_are_dicts _ _ Hrec))
        as (n1 & -> & <-);
      destruct (count_sum_value _ _ Hrec) as (n2 & ->); simpl; done
    | destruct (forallb is_dict projs.*2) eqn:Hdict;
      [ destruct (success_sum_value _ Hdict) as (n1 & -> & _);
        destruct (count_sum_exc _ _ Hrec) as (x2 & ->); simpl; done
      | destruct (success_sum_exc _ Hdict) as (x1 & ->); simpl; done ] ].

Lemma import_evaluations_wrapper_outcome :
  let r := import_evaluations_wrapper a e ∅w in
  (r.1, writes (trace r.2))
  = (Ok (projects_outcome import_evaluations "evaluations_count"
           "results/evaluation_import_results.json").1,
     (projects_outcome import_evaluations "evaluations_count"
        "results/evaluation_import_results.json").2).
Proof.
  unfold import_evaluations_wrapper.
  projects_wrapper_outcome import_evaluations "evaluations_count".
Qed.

Lemma import_annotations_wrapper_outcome :
  let r := import_annotations_wrapper a e ∅w in
  (r.1, writes (trace r.2))
  = (Ok (projects_outcome import_annotations "annotations_count"
           "results/annotation_import_results.json").1,
     (projects_outcome import_annotations "annotations_count"
        "results/annotation_import_results.json").2).
Proof.
  unfold import_annotations_wrapper.
  projects_wrapper_outcome import_annotations "annotations_count".
Qed.
End projects_wrappers.

(** The importer returns, without an exception, a dict whose "projects" is
    a dict of project records (dicts whose count under [k], if present, is
    a number) of which at least one has a truthy "success". *)
Definition counts_success (k : string) (o : outcome) : Prop :=
  ∃ d projs, o = Returns (PDict d)
    ∧ dict_lookup "projects" d = Some (PDict projs)
    ∧ Forall (λ p, project_record k p = true) projs.*2
    ∧ ∃ p, p ∈ projs.*2 ∧ succeeded_project p = true.

Lemma projects_outcome_spec (e : env) f k path :
  (projects_outcome e f k path).1 = true ↔ counts_success k (behaviour e f).
Proof.
  unfold projects_outcome, counts_success, project_results. split.
  - destruct (behaviour e f) as [[| | | | |d]|]; try done.
    destruct (dict_lookup "projects" d) as [[| | | | |projs]|] eqn:Hprojs; try done.
    destruct (forallb (project_record k) projs.*2) eqn:Hrec; [|done].
    cbn [fst]. intros Hex. exists d, projs. repeat split; try done.
    + apply Forall_forall. intros p Hp. rewrite forallb_forall in Hrec.
      apply Hrec. by apply list_elem_of_In.
    + apply existsb_exists in Hex as (p & Hp & Hs). exists p.
      by rewrite list_elem_of_In.
  - intros (d & projs & -> & -> & Hrec & p & Hp & Hs).
    assert (forallb (project_record k) projs.*2 = true) as ->.
    { apply forallb_forall. intros q Hq. rewrite Forall_forall in Hrec.
      apply Hrec. by apply list_elem_of_In. }
    cbn [fst]. apply existsb_exists. exists p. by rewrite <- list_elem_of_In.
Qed.

Lemma projects_wrapper_in_world (m : M bool) (e : env) w f k path :
  framed m →
  (let r := m e ∅w in
   (r.1, writes (trace r.2))
   = (Ok (projects_outcome e f k path).1, (projects_outcome e f k path).2)) →
  (m e w).1 = Ok (projects_outcome e f k path).1
  ∧ writes (trace (m e w).2) = writes (trace w) ++ (projects_outcome e f k path).2.
Proof.
  intros Hm Hrun. cbv zeta in Hrun. injection Hrun as H1 H2.
  rewrite (framed_writes m e w Hm), H2. by rewrite (Hm e w), H1.
Qed.

(** X15.  The evaluations and the annotations import wrappers return True
    exactly when the importer returns, without an exception, a dict whose
    "projects" entry is a dict of project records of which at least one has
    a truthy "success".  The statuses play no part.  One entry under
    "projects" that is not a dict, or whose count is not a number, makes the
    wrapper return False whatever the other entries say. *)
Theorem project_wrappers_true_iff_a_project_succeeded
    (a : import_to_arize.args) (e : env) (w : world) :
  let evaluations := (import_to_arize.import_evaluations_wrapper a e w).1 in
  let annotations := (import_to_arize.import_annotations_wrapper a e w).1 in
  (evaluations = Ok true
   ↔ counts_success "evaluations_count" (behaviour e import_evaluations))
  ∧ (annotations = Ok true
     ↔ counts_success "annotations_count" (behaviour e import_annotations)).
Proof.
  cbv zeta.
  destruct (projects_wrapper_in_world _ e w _ _ _
              (framed_import_evaluations_wrapper a)
              (import_evaluations_wrapper_outcome a e)) as [-> _].
  destruct (projects_wrapper_in_world _ e w _ _ _
              (framed_import_annotations_wrapper a)
              (import_annotations_wrapper_outcome a e)) as [-> _].
  rewrite <- !projects_outcome_spec.
  split; (split; [by intros [= ->] | by intros ->]).
Qed.

(** X16.  The evaluations and the annotations import wrappers save the
    importer's result, unchanged and once, exactly when it is a dict whose
    "projects" entry is a dict of project records; this is so even when no
    project succeeded and the wrapper returns False.  Nothing is written
    when the importer raised or returned a result of another shape. *)
Theorem project_wrappers_save_the_importers_result
    (a : import_to_arize.args) (e : env) (w : world) :
  writes (trace (import_to_arize.import_evaluations_wrapper a e w).2)
  = writes (trace w)
    ++ match behaviour e import_evaluations with
       | Returns v =>
           match project_results "evaluations_count" v with
           | Some _ => [("results/evaluation_import_results.json", v)]
           | None => []
           end
       | Raises _ => []
       end
  ∧ writes (trace (import_to_arize.import_annotations_wrapper a e w).2)
    = writes (trace w)
      ++ match behaviour e import_annotations with
         | Returns v =>
             match project_results "annotations_count" v with
             | Some _ => [("results/annotation_import_results.json", v)]
             | None => []
             end
         | Raises _ => []
         end.
Proof.
  destruct (projects_wrapper_in_world _ e w _ _ _
              (framed_import_evaluations_wrapper a)
              (import_evaluations_wrapper_outcome a e)) as [_ ->].
  destruct (projects_wrapper_in_world _ e w _ _ _
              (framed_import_annotations_wrapper a)
              (import_annotations_wrapper_outcome a e)) as [_ ->].
  unfold projects_outcome. split; f_equal.
  - destruct (behaviour e import_evaluations) as [v|]; [|done].
    by destruct (project_results "evaluations_count" v).
  - destruct (behaviour e import_annotations) as [v|]; [|done].
    by destruct (project_results "annotations_count" v).
Qed.

(** ** The traces wrapper on a returned result *)

(** X17.  When [import_traces] returns, the traces wrapper returns True
    exactly when the result is a non-empty dict with a project entry whose
    status is "imported" or "skipped"; the entries under the keys "projects"
    and "timestamp" are never counted, and the results file is not read. *)
Theorem traces_wrapper_true_iff_a_project_imported_or_skipped
    (a : import_to_arize.args) (e : env) (w : world) (v : pyval) :
  behaviour e import_traces = Returns v →
  let r := (import_to_arize.import_traces_wrapper a e w).1 in
  (r = Ok true ∨ r = Ok false)
  ∧ (r = Ok true ↔ imports_projects v)
  ∧ ∀ file,
      (import_to_arize.import_traces_wrapper a (with_results_file e file) w).1 = r.
Proof.
  intros Hv r. subst r.
  rewrite (wrapper_result _ e w _ _ (framed_import_traces_wrapper a)
             (import_traces_wrapper_run a e)).
  rewrite import_traces_wrapper_value. unfold traces_source. rewrite Hv.
  rewrite <- imported_projects_spec.
  split; [destruct (imported_projects v); auto|].
  split; [split; [by intros [= ->] | by intros ->]|].
  intros file.
  rewrite (wrapper_result _ _ w _ _ (framed_import_traces_wrapper a)
             (import_traces_wrapper_run a _)).
  rewrite import_traces_wrapper_value. unfold traces_source.
  cbn [behaviour with_results_file]. by rewrite Hv.
Qed.

Lemma traces_wrapper_true_iff_a_project_imported_or_skipped_witness :
  let a := import_args (Some "key") (Some "space")
             false false false true false false false in
  let v := PDict [("timestamp", PDict [("status", PStr "imported")]);
                  ("demo", PDict [("status", PStr "failed")])] in
  let e := with_behaviour (uniform_env PNone "yes") import_traces (Returns v) in
  let r := (import_to_arize.import_traces_wrapper a e ∅w).1 in
  r = Ok false
  ∧ (r = Ok true ∨ r = Ok false)
  ∧ (r = Ok true ↔ imports_projects v)
  ∧ ∀ file,
      (import_to_arize.import_traces_wrapper a (with_results_file e file) ∅w).1 = r.
Proof.
  split; [vm_compute; reflexivity|].
  exact (traces_wrapper_true_iff_a_project_imported_or_skipped
           (import_args (Some "key") (Some "space")
              false false false true false false false)
           (with_behaviour (uniform_env PNone "yes") import_traces
              (Returns (PDict [("timestamp", PDict [("status", PStr "imported")]);
                               ("demo", PDict [("status", PStr "failed")])])))
           ∅w _ eq_refl).
Defined.

(** An entry of the trace results that the loop counts as processed: its
    key is not one of the special keys and its value is a dict. *)
Definition project_entry (kv : string * pyval) : bool :=
  negb (existsb (String.eqb kv.1) ["projects"; "timestamp"]) && is_dict kv.2.

Lemma count_projects_from items : ∀ s t,
  import_to_arize.count_projects items s t
  = (s + Z.of_nat (length (List.filter counted_project items)),
     t + Z.of_nat (length (List.filter project_entry items))).
Proof.
  induction items as [|[k v] items IH]; intros s t.
  - simpl. f_equal; lia.
  - cbn [import_to_arize.count_projects List.filter].
    assert (counted_project (k, v)
            = negb (existsb (String.eqb k) ["projects"; "timestamp"])
              && match v with
                 | PDict d => py_in_strs (default (PStr "") (dict_lookup "status" d))
                                ["imported"; "skipped"]
                 | _ => false
                 end) as -> by reflexivity.
    assert (project_entry (k, v)
            = negb (existsb (String.eqb k) ["projects"; "timestamp"]) && is_dict v)
      as -> by reflexivity.
    destruct (existsb (String.eqb k) ["projects"; "timestamp"]); cbn [negb andb];
      [apply IH|].
    destruct v as [| | | | |d]; cbn [is_dict]; try apply IH.
    destruct (py_in_strs _ _); rewrite IH; cbn [length]; f_equal; lia.
Qed.

Lemma filter_length_le {A} (f g : A → bool) l :
  (∀ x, f x = true → g x = true) →
  (length (List.filter f l) ≤ length (List.filter g l) ≤ length l)%nat.
Proof.
  intros Hfg. induction l as [|x l IH]; simpl; [lia|].
  destruct (f x) eqn:Hf, (g x) eqn:Hg; simpl; try lia.
  by rewrite (Hfg x Hf) in Hg.
Qed.

(** X18.  The loop of the traces wrapper over the entries of a result
    counts, as processed, the entries that are dicts under a key other than
    "projects" and "timestamp" and, as successful, those of them whose
    status is "imported" or "skipped".  So the two numbers of the log record
    "Successfully processed traces from s/t projects" satisfy
    0 <= s <= t <= number of entries. *)
Theorem count_projects_counts_project_entries (items : list (string * pyval)) :
  let c := import_to_arize.count_projects items 0 0 in
  c = (Z.of_nat (length (List.filter counted_project items)),
       Z.of_nat (length (List.filter project_entry items)))
  ∧ 0 ≤ c.1 ∧ c.1 ≤ c.2 ∧ c.2 ≤ Z.of_nat (length items).
Proof.
  cbv zeta. rewrite count_projects_from, !Z.add_0_l. split; [done|].
  cbn [fst snd].
  assert (∀ kv, counted_project kv = true → project_entry kv = true) as Hsub.
  { intros [k v]. unfold counted_project, project_entry. cbn [fst snd].
    destruct (negb _); [|done]. by destruct v. }
  pose proof (filter_length_le _ _ items Hsub). lia.
Qed.

(** ** The namespace after the stages *)

(** X19.  The stages of the import hand back the namespace they were given
    unless the operator was asked the ingestion question and declined; then
    [evaluations] and [all] are cleared and no other field is touched.  No
    run sets a flag. *)
Theorem stages_change_the_namespace_only_on_a_declined_pause
    (a : import_to_arize.args) (e : env) (argv : list string) :
  let r := import_to_arize.stages a e (initial_world argv) in
  ∃ a', r.1 = Ok a'
    ∧ (a' = if bool_decide (TracesVisible ∈ prompts_asked (trace r.2))
               && negb (yes e TracesVisible)
            then import_to_arize.clear_evaluations_and_all a else a)
    ∧ import_to_arize.api_key a' = import_to_arize.api_key a
    ∧ import_to_arize.space_id a' = import_to_arize.space_id a
    ∧ import_to_arize.export_dir a' = import_to_arize.export_dir a
    ∧ import_to_arize.verbose a' = import_to_arize.verbose a
    ∧ import_to_arize.datasets a' = import_to_arize.datasets a
    ∧ import_to_arize.prompts a' = import_to_arize.prompts a
    ∧ import_to_arize.traces a' = import_to_arize.traces a
    ∧ import_to_arize.annotations a' = import_to_arize.annotations a
    ∧ import_to_arize.setup_annotations a' = import_to_arize.setup_annotations a
    ∧ (import_to_arize.all a' = true → import_to_arize.all a = true)
    ∧ (import_to_arize.evaluations a' = true → import_to_arize.evaluations a = true).
Proof.
  destruct (import_stages_run a e argv) as (Hok & _ & Hp & _).
  cbv zeta in *. exists (after_pause a e). split; [done|].
  assert (bool_decide (TracesVisible ∈ prompts_asked
            (trace (import_to_arize.stages a e (initial_world argv)).2))
          = pause_asked a e) as ->.
  { rewrite Hp. unfold import_prompts_asked, annotation_prompts.
    destruct (pause_asked a e); cbn [app].
    - apply bool_decide_eq_true_2. find_in.
    - apply bool_decide_eq_false_2. destruct (_ || _); intros Hin; absurd_in Hin. }
  split; [done|].
  unfold after_pause.
  by destruct (pause_asked a e && negb (yes e TracesVisible)).
Qed.

(** ** A complete import *)

Lemma evaluations_wrapper_ok_spec a (e : env) :
  wrapper_ok (import_to_arize.import_evaluations_wrapper a) e = true
  ↔ counts_success "evaluations_count" (behaviour e import_evaluations).
Proof.
  rewrite <- (projects_outcome_spec e _ _ "results/evaluation_import_results.json").
  pose proof (import_evaluations_wrapper_outcome a e) as H. cbv zeta in H.
  injection H as H _. unfold wrapper_ok. by rewrite H.
Qed.

Lemma annotations_wrapper_ok_spec a (e : env) :
  wrapper_ok (import_to_arize.import_annotations_wrapper a) e = true
  ↔ counts_success "annotations_count" (behaviour e import_annotations).
Proof.
  rewrite <- (projects_outcome_spec e _ _ "results/annotation_import_results.json").
  pose proof (import_annotations_wrapper_outcome a e) as H. cbv zeta in H.
  injection H as H _. unfold wrapper_ok. by rewrite H.
Qed.

Lemma traces_wrapper_ok_spec a (e : env) :
  wrapper_ok (import_to_arize.import_traces_wrapper a) e = true
  ↔ ∃ v, traces_source e = Some v ∧ imports_projects v.
Proof.
  rewrite import_traces_wrapper_value. split.
  - destruct (traces_source e) as [v|]; [|done].
    intros H. exists v. by rewrite <- imported_projects_spec.
  - intros (v & -> & H). by apply imported_projects_spec.
Qed.

Lemma setup_ok_spec (e : env) :
  setup_ok e = true ↔ ∃ v, behaviour e setup_annotations_main = Returns v.
Proof.
  unfold setup_ok. destruct (behaviour e setup_annotations_main) as [v|x].
  - split; [by exists v | done].
  - split; [done | by intros [v ?]].
Qed.

(** The five stages of a complete import, in the order of [main]. *)
Definition all_imports : list string :=
  ["datasets"; "prompts"; "traces"; "evaluations"; "annotations"].

(** With --all, what the run records in terms of the eight things it
    depends on. *)
Lemma all_import_lists a (e : env) :
  import_to_arize.all a = true →
  (import_failed a e = [] ∧ import_successful a e = all_imports)
  ↔ wrapper_ok (import_to_arize.import_datasets_wrapper a) e = true
    ∧ wrapper_ok (import_to_arize.import_prompts_wrapper a) e = true
    ∧ wrapper_ok (import_to_arize.import_traces_wrapper a) e = true
    ∧ yes e TracesVisible = true
    ∧ wrapper_ok (import_to_arize.import_evaluations_wrapper a) e = true
    ∧ setup_ok e = true
    ∧ yes e AnnotationsConfigured = true
    ∧ wrapper_ok (import_to_arize.import_annotations_wrapper a) e = true.
Proof.
  intros Hall.
  unfold import_failed, import_successful, after_pause, pause_asked, traces_imported,
    all_imports.
  rewrite Hall. cbn [orb andb].
  destruct (wrapper_ok (import_to_arize.import_traces_wrapper a) e) eqn:HT;
    destruct (yes e TracesVisible) eqn:Hy1; cbn [andb negb].
  2: { (* the pause was declined: the evaluations are not imported *)
    split; [|by intros (_ & _ & _ & ? & _)].
    intros [_ Hs]. exfalso.
    assert ("evaluations" ∈ all_imports) as Hin by (unfold all_imports; find_in).
    unfold all_imports in Hin. rewrite <- Hs in Hin.
    rewrite !elem_of_app in Hin. destruct Hin as [Hin|[Hin|Hin]].
    - by destruct (head_plan_names a _ _ (or_intror Hin)) as [?|[?|?]].
    - apply elem_of_successful_of in Hin as (s & Hs' & Hreq & _).
      unfold evaluations_plan in Hs'. apply list_elem_of_singleton in Hs' as ->.
      discriminate Hreq.
    - by destruct (annotation_names _ e _ (or_intror Hin)) as [?|?]. }
  all: unfold import_head_plan, evaluations_plan, annotation_failed,
         annotation_successful, failed_of, successful_of, import_ok;
       cbn [flat_map sd_req sd_fun sd_name];
       rewrite Hall, ?HT; cbn [orb andb negb app];
       destruct (wrapper_ok (import_to_arize.import_datasets_wrapper a) e),
         (wrapper_ok (import_to_arize.import_prompts_wrapper a) e),
         (wrapper_ok (import_to_arize.import_evaluations_wrapper a) e),
         (setup_ok e), (yes e AnnotationsConfigured),
         (wrapper_ok (import_to_arize.import_annotations_wrapper a) e);
       cbn [orb andb negb app];
       (split; [intros [Hf Hs]; try discriminate Hf; try discriminate Hs; done
               | intros (? & ? & ? & ? & ? & ? & ? & ?); done]).
Qed.

(** X20.  A run of the import with --all ends with exit status 0 and all
    five stages recorded as successful, in the order datasets, prompts,
    traces, evaluations, annotations, exactly when: the dataset and the
    prompt importers return a list with an imported or already existing
    entry, the trace import gives (or the results file recovers) a project
    that is imported or skipped, the evaluations and the annotations
    importers report a project with a truthy "success", the setup guide
    returns, and the operator answers yes or y to both questions. *)
Theorem import_all_complete_iff (a : import_to_arize.args) (e : env) :
  missing (import_to_arize.api_key a) = false →
  missing (import_to_arize.space_id a) = false →
  import_to_arize.all a = true →
  let r := import_to_arize.run a e in
  (r.1 = Ok () ∧ successful r.2 = all_imports)
  ↔ imports_something (behaviour e import_datasets)
    ∧ imports_something (behaviour e import_prompts)
    ∧ (∃ v, traces_source e = Some v ∧ imports_projects v)
    ∧ yes e TracesVisible = true
    ∧ counts_success "evaluations_count" (behaviour e import_evaluations)
    ∧ (∃ v, behaviour e setup_annotations_main = Returns v)
    ∧ yes e AnnotationsConfigured = true
    ∧ counts_success "annotations_count" (behaviour e import_annotations).
Proof.
  intros Hkey Hspace Hall r. subst r.
  assert (import_to_arize.any_selected a = true) as Hsel.
  { unfold import_to_arize.any_selected. by rewrite Hall. }
  destruct (import_run_facts a e Hkey Hspace Hsel) as (_ & _ & Hs & Hf & _).
  destruct (import_run_report a e Hkey Hspace Hsel) as [Hexit _].
  rewrite Hexit, Hs.
  rewrite <- imported_list_spec, <- import_datasets_wrapper_value with (a := a).
  rewrite <- imported_list_spec, <- import_prompts_wrapper_value with (a := a).
  rewrite <- (traces_wrapper_ok_spec a), <- (evaluations_wrapper_ok_spec a),
    <- (annotations_wrapper_ok_spec a), <- setup_ok_spec.
  rewrite <- (all_import_lists a e Hall).
  destruct (import_failed a e); cbn [nonempty]; split; intros [H1 H2]; done.
Qed.

(** An environment in which every importer reports one success, the setup
    guide returns and the operator answers [ans]. *)
Definition succeeding_env (ans : string) : env :=
  {| behaviour := λ f,
       match f with
       | import_datasets | import_prompts =>
           Returns (PList [PDict [("name", PStr "demo"); ("status", PStr "imported")]])
       | import_traces => Returns one_imported_project
       | import_evaluations | import_annotations =>
           Returns (PDict [("projects",
                            PDict [("demo", PDict [("success", PBool true)])])])
       | _ => Returns PNone
       end;
     answer := λ _, ans;
     trace_results_file := Absent;
     path_exists := λ _, false;
     abspath := λ s, "/work/" +:+ s |}.

Lemma import_all_complete_iff_witness :
  let a := import_args (Some "key") (Some "space")
             true false false false false false false in
  let e := succeeding_env "Yes" in
  let r := import_to_arize.run a e in
  (r.1 = Ok () ∧ successful r.2 = all_imports)
  ∧ ((r.1 = Ok () ∧ successful r.2 = all_imports)
     ↔ imports_something (behaviour e import_datasets)
       ∧ imports_something (behaviour e import_prompts)
       ∧ (∃ v, traces_source e = Some v ∧ imports_projects v)
       ∧ yes e TracesVisible = true
       ∧ counts_success "evaluations_count" (behaviour e import_evaluations)
       ∧ (∃ v, behaviour e setup_annotations_main = Returns v)
       ∧ yes e AnnotationsConfigured = true
       ∧ counts_success "annotations_count" (behaviour e import_annotations)).
Proof.
  split; [split; vm_compute; reflexivity|].
  exact (import_all_complete_iff
           (import_args (Some "key") (Some "space")
              true false false false false false false)
           (succeeding_env "Yes") eq_refl eq_refl eq_refl).
Defined.

(** ** Calls and records *)







